(** * Prodit: the OAuth token lifecycle of the Xero connection

    A shallow embedding of the credential cipher and credential store of
    [database/db.js] and of the OAuth callback and request pipeline of the
    server ([/callback], [ensureValidToken], [refreshAccessToken],
    [xeroRequest]), with the properties of the specification stated and
    proved over it; then the endpoints of the server around the store
    ([/auth/xero], [/api/connections], [/api/status], [/api/items/update],
    [/api/admin/xero/status], [/api/admin/xero/disconnect]) behind
    [requireAuth] and [requireAdmin], with what the store, the pipeline and
    these endpoints show together.

    Conventions.
    - A [Buffer] is a [list byte]; JavaScript strings are [string].
    - A JavaScript object used as a record of JSON fields (the token bundle
      returned by the provider) is a [gmap string jsval]; a missing field reads
      as [None], JavaScript's [undefined].
    - The handlers run in a state-and-exception monad [M] over a [world]: the
      [xero_connections] table, the clock, the entropy consumed so far and the
      log of outbound HTTP requests and table writes. The database answers
      every statement; the identity provider and the API answer as a
      [provider] does, from all that happened before.
    - What the code takes from its runtime and does not define itself
      (AES-256-GCM of [crypto], [JSON], [Date]) is the class [Runtime]; the
      base64 codec of [Buffer] and [Array.prototype.sort] are written out. *)

From Stdlib Require Import ZArith NArith Lia Bool Ascii String List.
From Stdlib Require Import Strings.Byte.
From Stdlib Require Import DecimalString DecimalZ DecimalPos.
From stdpp Require Import gmap strings list fin_maps.

Open Scope string_scope.

(** ** Buffers and the base64 codec of [Buffer] *)

Module Base64.

(** The byte of a number below 256 ([x00] otherwise, never reached). *)
Definition byte_of_N (n : N) : byte :=
  match Byte.of_N n with
  | Some b => b
  | None => x00
  end.

(** The character of a sextet, standard alphabet (RFC 4648, table 1). *)
Definition char_of_sextet (n : N) : ascii :=
  if (n <? 26)%N then ascii_of_N (65 + n)
  else if (n <? 52)%N then ascii_of_N (97 + (n - 26))
  else if (n <? 62)%N then ascii_of_N (48 + (n - 52))
  else if (n =? 62)%N then "+"%char
  else "/"%char.

(** The sextet of a character; the decoder also takes the URL-safe
    alphabet, as [Buffer.from(s, 'base64')] does. *)
Definition sextet_of_char (c : ascii) : option N :=
  let n := N_of_ascii c in
  if ((65 <=? n) && (n <=? 90))%N then Some (n - 65)%N
  else if ((97 <=? n) && (n <=? 122))%N then Some (n - 97 + 26)%N
  else if ((48 <=? n) && (n <=? 57))%N then Some (n - 48 + 52)%N
  else if ((n =? 43) || (n =? 45))%N then Some 62%N
  else if ((n =? 47) || (n =? 95))%N then Some 63%N
  else None.

(** [buf.toString('base64')]: three bytes give four characters, the last
    group is padded with [=]. *)
Fixpoint encode (bs : list byte) : string :=
  match bs with
  | [] => ""
  | [a] =>
      let x := Byte.to_N a in
      String (char_of_sextet (x / 4))
        (String (char_of_sextet ((x mod 4) * 16)) "==")
  | [a; b] =>
      let x := Byte.to_N a in
      let y := Byte.to_N b in
      String (char_of_sextet (x / 4))
        (String (char_of_sextet ((x mod 4) * 16 + y / 16))
           (String (char_of_sextet ((y mod 16) * 4)) "="))
  | a :: b :: c :: rest =>
      let x := Byte.to_N a in
      let y := Byte.to_N b in
      let z := Byte.to_N c in
      String (char_of_sextet (x / 4))
        (String (char_of_sextet ((x mod 4) * 16 + y / 16))
           (String (char_of_sextet ((y mod 16) * 4 + z / 64))
              (String (char_of_sextet (z mod 64)) (encode rest))))
  end%N.

(** The sextets read by the lenient decoder: characters outside the
    alphabet are skipped, the first [=] ends the input. *)
Fixpoint sextets (s : string) : list N :=
  match s with
  | EmptyString => []
  | String c r =>
      if Ascii.eqb c "="%char then []
      else match sextet_of_char c with
           | Some n => n :: sextets r
           | None => sextets r
           end
  end.

Fixpoint bytes_of_sextets (l : list N) : list byte :=
  match l with
  | p :: q :: r :: s :: rest =>
      byte_of_N (p * 4 + q / 16)
        :: byte_of_N ((q mod 16) * 16 + r / 4)
        :: byte_of_N ((r mod 4) * 64 + s)
        :: bytes_of_sextets rest
  | [p; q; r] =>
      [byte_of_N (p * 4 + q / 16); byte_of_N ((q mod 16) * 16 + r / 4)]
  | [p; q] => [byte_of_N (p * 4 + q / 16)]
  | _ => []
  end%N.

(** [Buffer.from(s, 'base64')]. *)
Definition decode (s : string) : list byte := bytes_of_sextets (sextets s).

(** The decoder reads the character of sextet [k] back as [k], and not as
    padding. *)
Definition sextet_ok (k : N) : bool :=
  match sextet_of_char (char_of_sextet k) with
  | Some m => (m =? k)%N
  | None => false
  end && negb (Ascii.eqb (char_of_sextet k) "="%char).

End Base64.

(** ** JavaScript values *)

(** The primitive JSON values held by the fields of a provider response. *)
Inductive jsval : Type :=
| JNull
| JBool (b : bool)
| JNum (n : Z)
| JStr (s : string).

(** A token bundle is the JSON object of the token endpoint,
    [{access_token, refresh_token, expires_in, token_type, ...}]; reading a
    field that is not there gives [None] ([undefined]). *)
Abbreviation tokens := (gmap string jsval).

(** Truthiness, as tested by [if (v)], [!v] and [a && b]. *)
Definition truthy (v : option jsval) : bool :=
  match v with
  | None => false
  | Some JNull => false
  | Some (JBool b) => b
  | Some (JNum n) => negb (n =? 0)%Z
  | Some (JStr s) => negb (String.eqb s "")
  end.

(** Truthiness of a value that is a string or [undefined]. *)
Definition truthy_str (v : option string) : bool :=
  match v with
  | None => false
  | Some s => negb (String.eqb s "")
  end.

(** [n.toString()] for an integer. *)
Definition string_of_Z (n : Z) : string := NilZero.string_of_int (Z.to_int n).

(** The text of a value inside a template literal, [`${v}`]. *)
Definition js_String (v : option jsval) : string :=
  match v with
  | None => "undefined"
  | Some JNull => "null"
  | Some (JBool true) => "true"
  | Some (JBool false) => "false"
  | Some (JNum n) => string_of_Z n
  | Some (JStr s) => s
  end.

(** [a || b] on strings that may be [undefined]. *)
Definition js_or (a b : option string) : option string :=
  if truthy_str a then a else b.

(** The body of a response whose shape the code does not look into. *)
Abbreviation payload := string (only parsing).

(** Exceptions thrown in the server. *)
Inductive exn : Type :=
| Error (message : string)
| RangeError (message : string)
| SyntaxError (message : string)
| TypeError (message : string)
| AxiosError (message : string) (response : option (Z * payload)).

(** [error.message]. *)
Definition exn_message (e : exn) : string :=
  match e with
  | Error m | RangeError m | SyntaxError m | TypeError m
  | AxiosError m _ => m
  end.

(** [error.response?.status]. *)
Definition exn_status (e : exn) : option Z :=
  match e with
  | AxiosError _ (Some (st, _)) => Some st
  | _ => None
  end.

(** [error.response?.data]. *)
Definition exn_data (e : exn) : option payload :=
  match e with
  | AxiosError _ (Some (_, d)) => Some d
  | _ => None
  end.

Inductive outcome (A : Type) : Type :=
| Return (a : A)
| Throw (e : exn).
Arguments Return {A} a.
Arguments Throw {A} e.

(** ** The runtime: what the code takes from Node and does not define *)

Class Runtime : Type := {
  (** AES-256-GCM under a 32-byte key: key, iv, plaintext to ciphertext and
      16-byte tag. *)
  aes_256_gcm_seal :
    list byte -> list byte -> list byte -> list byte * list byte;
  (** key, iv, tag, ciphertext to the plaintext, or [None] when the tag does
      not verify. *)
  aes_256_gcm_open :
    list byte -> list byte -> list byte -> list byte -> option (list byte);
  aes_256_gcm_open_seal : forall key iv pt,
    length key = 32 ->
    aes_256_gcm_open key iv (aes_256_gcm_seal key iv pt).2
      (aes_256_gcm_seal key iv pt).1 = Some pt;
  (** [JSON.stringify] and [JSON.parse] on token bundles. *)
  JSON_stringify : tokens -> string;
  JSON_parse : string -> option tokens;
  JSON_parse_stringify : forall t, JSON_parse (JSON_stringify t) = Some t;
  (** [new Date(s).getTime()], [None] for an invalid date ([NaN]). *)
  Date_getTime : string -> option Z
}.

(** [Array.prototype.sort(compare)]: a stable sort; [compare a b] is
    [Some d] for a number and [None] for [NaN], which counts as 0; the
    element [a] goes after [b] when [compare a b] is positive. *)
Section Sort.
Context {A : Type} (compare : A -> A -> option Z).

Definition goes_after (a b : A) : bool :=
  match compare a b with
  | Some d => (0 <? d)%Z
  | None => false
  end.

Fixpoint sort_insert (x : A) (l : list A) : list A :=
  match l with
  | [] => [x]
  | y :: l' => if goes_after x y then y :: sort_insert x l' else x :: y :: l'
  end.

Definition js_sort (l : list A) : list A := foldr sort_insert [] l.
End Sort.

(** ** The world of the server *)

(** A row of the table [xero_connections] ([database/schema.sql]);
    [UNIQUE(user_id, tenant_id)]. Timestamps are readings of the clock. *)
Record row : Type := {
  id : Z;
  user_id : Z;
  tenant_id : string;
  tenant_name : string;
  encrypted_tokens : string;
  encryption_iv : string;
  encryption_tag : string;
  is_system_connection : bool;
  created_at : Z;
  updated_at : Z;
  last_synced : Z
}.

(** The process environment read by the code. *)
Record env : Type := {
  PREDITOR_TOKEN_KEY : option string;
  PRODIT_TOKEN_KEY : option string;
  XERO_CLIENT_ID : option string;
  XERO_CLIENT_SECRET : option string;
  PUBLIC_URL : option string;
  RAILWAY_PUBLIC_DOMAIN : option string;
  PORT : option string
}.

(** The form posted to the token endpoint. *)
Inductive token_form : Type :=
| AuthorizationCode (code : option string) (redirect_uri : string)
    (client_id client_secret : option string)
| RefreshToken (refresh_token : option jsval)
    (client_id client_secret : option string).

(** [config] of [xeroRequest]: extra headers and a request body. *)
Record config : Type := {
  headers : gmap string string;
  data : option string
}.

(** One call of [makeRequest] in [xeroRequest]. *)
Record api_request : Type := {
  accessToken : option jsval;
  tenantId : string;
  method : string;
  urlPath : string;
  request_config : config
}.

(** A statement that writes to [xero_connections], with its parameters. *)
Inductive statement : Type :=
| InsertOnConflict (userId : Z) (tenantId tenantName : string)
    (encrypted iv tag : string) (isSystemConnection : bool)
| UpdateTokens (encrypted iv tag : string) (userId : Z) (tenantId : string)
| DeleteConnection (userId : Z) (tenantId : string)
| DeleteSystemConnection.

(** What the server does to the outside, in the order it does it. *)
Inductive event : Type :=
| TokenPost (form : token_form)
| ConnectionsGet (authorization : string)
| ApiCall (r : api_request)
| Query (s : statement).

(** The answer to an HTTP request made with axios: a status in the 2xx
    range fulfils the promise with the body; any other status rejects it
    with [err.response = {status, data}]; without an answer (network
    failure, timeout) it rejects with no [err.response]. *)
Inductive reply (A : Type) : Type :=
| Fulfilled (body : A)
| Rejected (status : Z) (body : payload)
| NoResponse (message : string).
Arguments Fulfilled {A} body.
Arguments Rejected {A} status body.
Arguments NoResponse {A} message.

(** An organisation in the listing of the connections endpoint. *)
Record connection : Type := {
  conn_tenantId : string;
  conn_tenantName : string;
  createdDateUtc : string
}.

(** The identity provider and the API: each answer may depend on all that
    happened before. A falsy body of the listing ([null], nothing) is
    [None]. *)
Record provider : Type := {
  token_endpoint : list event -> token_form -> reply tokens;
  connections_endpoint :
    list event -> string -> reply (option (list connection));
  xero_api : list event -> api_request -> reply payload
}.

Record world : Type := {
  xero_connections : list row;
  (** next value of the sequence behind [id SERIAL] *)
  next_id : Z;
  (** [CURRENT_TIMESTAMP] *)
  clock : Z;
  (** number of random bytes drawn so far *)
  drawn : nat;
  (** events so far, oldest first *)
  log : list event
}.

(** ** The monad of handlers: state and exceptions *)

Definition M (A : Type) : Type := world -> outcome A * world.

Definition ret {A} (a : A) : M A := fun w => (Return a, w).

Definition throw {A} (e : exn) : M A := fun w => (Throw e, w).

Definition bind {A B} (c : M A) (k : A -> M B) : M B :=
  fun w =>
    match c w with
    | (Return a, w') => k a w'
    | (Throw e, w') => (Throw e, w')
    end.

(** [try { c } catch (err) { h err }]. *)
Definition try_catch {A} (c : M A) (h : exn -> M A) : M A :=
  fun w =>
    match c w with
    | (Return a, w') => (Return a, w')
    | (Throw e, w') => h e w'
    end.

(** A computation without effect that may throw. *)
Definition lift {A} (o : outcome A) : M A := fun w => (o, w).

Declare Scope prodit_scope.
Delimit Scope prodit_scope with prodit.
Notation "'let*' x := c 'in' k" := (bind c (fun x => k))
  (at level 10, x name, c at level 100, k at level 200) : prodit_scope.
Notation "'let*' ' x := c 'in' k" := (bind c (fun x => k))
  (at level 10, x strict pattern, c at level 100, k at level 200)
  : prodit_scope.
Notation "c ;;; k" := (bind c (fun _ => k))
  (at level 100, k at level 200, right associativity) : prodit_scope.
Open Scope prodit_scope.

(** The world after an event is logged. *)
Definition record_event (e : event) (w : world) : world :=
  {| xero_connections := xero_connections w; next_id := next_id w;
     clock := clock w; drawn := drawn w; log := log w ++ [e] |}.

Definition emit (e : event) : M unit := fun w => (Return tt, record_event e w).

(** The world after [n] random bytes are drawn. *)
Definition draw (n : nat) (w : world) : world :=
  {| xero_connections := xero_connections w; next_id := next_id w;
     clock := clock w; drawn := drawn w + n; log := log w |}.

(** The events of a run, and how many of them satisfy a test. *)
Definition count_events (f : event -> bool) (w : world) : nat :=
  length (List.filter f (log w)).

Definition is_refresh (e : event) : bool :=
  match e with
  | TokenPost (RefreshToken _ _ _) => true
  | _ => false
  end.

Definition is_token_post (e : event) : bool :=
  match e with
  | TokenPost _ => true
  | _ => false
  end.

Definition is_api_call (e : event) : bool :=
  match e with
  | ApiCall _ => true
  | _ => false
  end.

Definition is_query (e : event) : bool :=
  match e with
  | Query _ => true
  | _ => false
  end.

(** ** Pure operations on the table *)

Definition same_key (u : Z) (t : string) (r : row) : bool :=
  (user_id r =? u)%Z && String.eqb (tenant_id r) t.

(** The row inserted by [INSERT INTO xero_connections (...) VALUES ($1, ...,
    $7, CURRENT_TIMESTAMP)] at time [ts], with [nid] drawn from the
    sequence. *)
Definition inserted_row (ts nid : Z) (userId : Z)
    (tenantId tenantName encrypted iv tag : string) (isSystem : bool) : row :=
  {| id := nid; user_id := userId; tenant_id := tenantId;
     tenant_name := tenantName;
     encrypted_tokens := encrypted;
     encryption_iv := iv;
     encryption_tag := tag;
     is_system_connection := isSystem;
     created_at := ts;
     updated_at := ts;
     last_synced := ts |}.

(** [DO UPDATE SET tenant_name = EXCLUDED.tenant_name, ...,
    last_synced = CURRENT_TIMESTAMP] on the row in conflict; the trigger
    sets [updated_at]. *)
Definition conflict_update (ts : Z) (tenantName encrypted iv tag : string)
    (isSystem : bool) (r : row) : row :=
  {| id := id r; user_id := user_id r; tenant_id := tenant_id r;
     tenant_name := tenantName;
     encrypted_tokens := encrypted;
     encryption_iv := iv;
     encryption_tag := tag;
     is_system_connection := isSystem;
     created_at := created_at r;
     updated_at := ts;
     last_synced := ts |}.

(** [INSERT ... ON CONFLICT (user_id, tenant_id) DO UPDATE SET ...]. *)
Definition insert_on_conflict (ts nid : Z) (userId : Z)
    (tenantId tenantName encrypted iv tag : string) (isSystem : bool)
    (rows : list row) : list row :=
  if existsb (same_key userId tenantId) rows then
    map (fun r =>
           if same_key userId tenantId r then
             conflict_update ts tenantName encrypted iv tag isSystem r
           else r) rows
  else
    rows ++ [inserted_row ts nid userId tenantId tenantName encrypted iv tag
               isSystem].

(** [SET encrypted_tokens = $1, encryption_iv = $2, encryption_tag = $3,
    last_synced = CURRENT_TIMESTAMP] on one row. *)
Definition set_tokens (ts : Z) (encrypted iv tag : string) (r : row) : row :=
  {| id := id r; user_id := user_id r; tenant_id := tenant_id r;
     tenant_name := tenant_name r;
     encrypted_tokens := encrypted;
     encryption_iv := iv;
     encryption_tag := tag;
     is_system_connection := is_system_connection r;
     created_at := created_at r;
     updated_at := ts;
     last_synced := ts |}.

(** [UPDATE xero_connections SET ... WHERE user_id = $4 AND tenant_id = $5]. *)
Definition update_tokens (ts : Z) (encrypted iv tag : string) (userId : Z)
    (tenantId : string) (rows : list row) : list row :=
  map (fun r =>
         if same_key userId tenantId r then set_tokens ts encrypted iv tag r
         else r) rows.

(** [ORDER BY last_synced DESC]. *)
Definition order_by_last_synced_desc (rows : list row) : list row :=
  js_sort (fun a b => Some (last_synced b - last_synced a)%Z) rows.

(** What [RETURNING id, tenant_id, tenant_name] gives for a row. *)
Record summary : Type := {
  summary_id : Z;
  summary_tenant_id : string;
  summary_tenant_name : string
}.

Definition returning (r : row) : summary :=
  {| summary_id := id r; summary_tenant_id := tenant_id r;
     summary_tenant_name := tenant_name r |}.

(** A row of [SELECT id, tenant_id, tenant_name, last_synced, created_at]. *)
Record listing : Type := {
  listing_id : Z;
  listing_tenant_id : string;
  listing_tenant_name : string;
  listing_last_synced : Z;
  listing_created_at : Z
}.

Definition select_listing (r : row) : listing :=
  {| listing_id := id r; listing_tenant_id := tenant_id r;
     listing_tenant_name := tenant_name r;
     listing_last_synced := last_synced r;
     listing_created_at := created_at r |}.

(** The object returned by [getXeroConnection] and
    [getSystemXeroConnection]. *)
Record stored_connection : Type := {
  sc_id : Z;
  sc_userId : Z;
  sc_tenantId : string;
  sc_tenantName : string;
  sc_tokens : tokens;
  sc_lastSynced : Z
}.

(** The table after a write statement run at the current timestamp. *)
Definition apply_statement (s : statement) (w : world) : list row :=
  match s with
  | InsertOnConflict u t n e i g sys =>
      insert_on_conflict (clock w) (next_id w) u t n e i g sys
        (xero_connections w)
  | UpdateTokens e i g u t =>
      update_tokens (clock w) e i g u t (xero_connections w)
  | DeleteConnection u t =>
      List.filter (fun r => negb (same_key u t r)) (xero_connections w)
  | DeleteSystemConnection =>
      List.filter (fun r => negb (is_system_connection r))
        (xero_connections w)
  end.

(** The rows a statement touches: those it inserts or updates, seen after
    it, or those it deletes, seen before it. *)
Definition affected (s : statement) (w : world) : list row :=
  match s with
  | InsertOnConflict u t _ _ _ _ _ =>
      List.filter (same_key u t) (apply_statement s w)
  | UpdateTokens _ _ _ u t =>
      List.filter (same_key u t) (apply_statement s w)
  | DeleteConnection u t => List.filter (same_key u t) (xero_connections w)
  | DeleteSystemConnection =>
      List.filter is_system_connection (xero_connections w)
  end.

(** [result] of [pool.query]: [result.rows] (for a statement with
    [RETURNING]) and [result.rowCount]. *)
Record query_result : Type := {
  result_rows : list row;
  rowCount : nat
}.

(** The world after a write statement: it is logged, applied at the
    current timestamp, and the clock moves on. The sequence behind [id] is
    advanced by an insert whether or not it ends in the update branch. *)
Definition execute (s : statement) (w : world) : world :=
  {| xero_connections := apply_statement s w;
     next_id := match s with
                | InsertOnConflict _ _ _ _ _ _ _ => (next_id w + 1)%Z
                | _ => next_id w
                end;
     clock := (clock w + 1)%Z; drawn := drawn w;
     log := log w ++ [Query s] |}.

Definition pool_query (s : statement) : M query_result :=
  fun w =>
    (Return {| result_rows := affected s w;
               rowCount := length (affected s w) |},
     execute s w).

(** Reading the table. *)
Definition select_rows : M (list row) :=
  fun w => (Return (xero_connections w), w).

(** How the promise of axios settles on an answer. *)
Definition settled {A} (r : reply A) : outcome A :=
  match r with
  | Fulfilled b => Return b
  | Rejected st b =>
      Throw (AxiosError ("Request failed with status code " ++ string_of_Z st)
               (Some (st, b)))
  | NoResponse m => Throw (AxiosError m None)
  end.

(** [await axios(...)] on the answer of the other side. *)
Definition await {A} (r : reply A) : M A := lift (settled r).

(** The answer of a request: the request is logged, and the other side
    answers from what happened before it. *)
Definition request {A} (e : event) (answer : list event -> reply A) : M A :=
  fun w => (emit e ;;; await (answer (log w))) w.

Definition XERO_TOKEN : string := "https://identity.xero.com/connect/token".
Definition XERO_CONN : string := "https://api.xero.com/connections".
Definition XERO_API : string := "https://api.xero.com/api.xro/2.0".

(** The answer of an Express handler. *)
Inductive response : Type :=
| Redirect (location : string)
| Send (status : Z) (body : string).

(** An incoming request after the session middleware and [attachUser]:
    [req.query.code], [req.query.state], [req.session.userId], and
    [req.isAdmin] as [attachUser] found it ([false] without a session). *)
Record http_request : Type := {
  query_code : option string;
  query_state : option string;
  session_userId : option Z;
  req_isAdmin : bool
}.

(** [req.userId]: [attachUser] copies [req.session.userId] when it is
    truthy and leaves [req.userId] undefined otherwise. *)
Definition req_userId (req : http_request) : option Z :=
  match session_userId req with
  | Some u => if (u =? 0)%Z then None else Some u
  | None => None
  end.

(** The object returned by [ensureValidToken]. *)
Record token_info : Type := {
  ti_accessToken : option jsval;
  ti_refreshToken : option jsval;
  ti_tenantId : string;
  connectionUserId : Z
}.

(** The request that [makeRequest] builds in [xeroRequest] for an access
    token: the first one, or the retry. *)
Definition request_with (tokenInfo : token_info) (method urlPath : string)
    (cfg : config) (accessToken : option jsval) : api_request :=
  {| accessToken := accessToken; tenantId := ti_tenantId tokenInfo;
     method := method; urlPath := urlPath; request_config := cfg |}.

Definition double_quote : string := String (ascii_of_nat 34) EmptyString.

Section Server.
Context {RT : Runtime}.
Context (E : env) (P : provider) (entropy : nat -> byte).

(** *** Credential cipher ([database/db.js]) *)

(** [crypto.randomBytes(n)]. *)
Definition randomBytes (n : nat) : M (list byte) :=
  fun w => (Return (map entropy (seq (drawn w) n)), draw n w).

(** [createCipheriv('aes-256-gcm', key, iv)] and
    [createDecipheriv('aes-256-gcm', key, iv)] refuse a key that is not
    32 bytes long. *)
Definition check_key_length (key : list byte) : outcome unit :=
  if (length key =? 32)%nat then Return tt
  else Throw (RangeError "Invalid key length").

Definition encryptTokens (t : tokens) : M (string * string * string) :=
  let ENC_KEY_B64 := js_or (PREDITOR_TOKEN_KEY E) (PRODIT_TOKEN_KEY E) in
  if negb (truthy_str ENC_KEY_B64) then
    throw (Error "Encryption key not configured (PRODIT_TOKEN_KEY)")
  else
    let key := Base64.decode (default "" ENC_KEY_B64) in
    if negb (length key =? 32)%nat then
      throw (Error
        "Invalid encryption key length. Must be 32 bytes (base64 encoded).")
    else
      let* iv := randomBytes 12 in
      lift (check_key_length key) ;;;
      let json := list_byte_of_string (JSON_stringify t) in
      let sealed := aes_256_gcm_seal key iv json in
      ret (Base64.encode sealed.1, Base64.encode iv, Base64.encode sealed.2).

Definition decryptTokens (encrypted iv tag : string) : outcome tokens :=
  let ENC_KEY_B64 := js_or (PREDITOR_TOKEN_KEY E) (PRODIT_TOKEN_KEY E) in
  if negb (truthy_str ENC_KEY_B64) then
    Throw (Error "Encryption key not configured (PRODIT_TOKEN_KEY)")
  else
    let key := Base64.decode (default "" ENC_KEY_B64) in
    match check_key_length key with
    | Throw e => Throw e
    | Return _ =>
        match aes_256_gcm_open key (Base64.decode iv) (Base64.decode tag)
                (Base64.decode encrypted) with
        | None =>
            Throw (Error "Unsupported state or unable to authenticate data")
        | Some decrypted =>
            match JSON_parse (string_of_list_byte decrypted) with
            | Some t => Return t
            | None => Throw (SyntaxError "Unexpected token in JSON")
            end
        end
    end.

(** *** Credential store ([database/db.js]) *)

Definition saveXeroConnection (userId : Z) (tenantId tenantName : string)
    (t : tokens) (isSystemConnection : bool) : M (option summary) :=
  let* '(encrypted, iv, tag) := encryptTokens t in
  let* result :=
    pool_query (InsertOnConflict userId tenantId tenantName encrypted iv tag
                  isSystemConnection) in
  ret (returning <$> head (result_rows result)).

Definition decrypt_row (r : row) : outcome stored_connection :=
  match decryptTokens (encrypted_tokens r) (encryption_iv r)
          (encryption_tag r) with
  | Throw e => Throw e
  | Return t =>
      Return {| sc_id := id r; sc_userId := user_id r;
                sc_tenantId := tenant_id r; sc_tenantName := tenant_name r;
                sc_tokens := t; sc_lastSynced := last_synced r |}
  end.

(** [result.rows[0]] of a [SELECT * ... ORDER BY last_synced DESC LIMIT 1],
    decrypted; [null] when there is no row. *)
Definition first_decrypted (rows : list row)
    : M (option stored_connection) :=
  match head (order_by_last_synced_desc rows) with
  | None => ret None
  | Some r => let* c := lift (decrypt_row r) in ret (Some c)
  end.

Definition getXeroConnection (userId : Z) (tenantId : option string)
    : M (option stored_connection) :=
  let* rows := select_rows in
  if truthy_str tenantId then
    first_decrypted
      (List.filter (same_key userId (default "" tenantId)) rows)
  else
    first_decrypted (List.filter (fun r => (user_id r =? userId)%Z) rows).

Definition getAllXeroConnections (userId : Z) : M (list listing) :=
  let* rows := select_rows in
  ret (map select_listing
         (order_by_last_synced_desc
            (List.filter (fun r => (user_id r =? userId)%Z) rows))).

Definition deleteXeroConnection (userId : Z) (tenantId : string) : M bool :=
  let* result := pool_query (DeleteConnection userId tenantId) in
  ret (0 <? rowCount result)%nat.

Definition updateXeroTokens (userId : Z) (tenantId : string) (t : tokens)
    : M unit :=
  let* '(encrypted, iv, tag) := encryptTokens t in
  pool_query (UpdateTokens encrypted iv tag userId tenantId) ;;;
  ret tt.

Definition getSystemXeroConnection : M (option stored_connection) :=
  let* rows := select_rows in
  first_decrypted (List.filter is_system_connection rows).

Definition deleteSystemXeroConnection : M bool :=
  let* result := pool_query DeleteSystemConnection in
  ret (0 <? rowCount result)%nat.

(** *** The server: OAuth callback and request pipeline *)

Definition getPublicURL : string :=
  if truthy_str (PUBLIC_URL E) then default "" (PUBLIC_URL E)
  else if truthy_str (RAILWAY_PUBLIC_DOMAIN E) then
    "https://" ++ default "" (RAILWAY_PUBLIC_DOMAIN E)
  else "http://localhost:" ++ default "3000" (js_or (PORT E) (Some "3000")).

(** [axios.post(XERO_TOKEN, qs.stringify(form), ...)], giving [.data]. *)
Definition post_token (form : token_form) : M tokens :=
  request (TokenPost form) (fun h => token_endpoint P h form).

(** [axios.get(XERO_CONN, {headers: {Authorization}}).then(r => r.data)]. *)
Definition get_connections (authorization : string)
    : M (option (list connection)) :=
  request (ConnectionsGet authorization)
    (fun h => connections_endpoint P h authorization).

(** [new Date(b.createdDateUtc) - new Date(a.createdDateUtc)]. *)
Definition by_created_desc (a b : connection) : option Z :=
  match Date_getTime (createdDateUtc b), Date_getTime (createdDateUtc a) with
  | Some tb, Some ta => Some (tb - ta)%Z
  | _, _ => None
  end.

(** [!state || !req.session.userId
     || state !== req.session.userId.toString()]. *)
Definition state_rejected (req : http_request) : bool :=
  negb (truthy_str (query_state req))
  || match session_userId req with
     | None => true
     | Some u =>
         (u =? 0)%Z
         || negb (String.eqb (default "" (query_state req)) (string_of_Z u))
     end.

(** [res.status(400).send(...)] when the listing is empty. *)
Definition no_organizations_page : response :=
  Send 400
    ("<h1>No Xero Organizations Found</h1>"
     ++ "<p>Please ensure you have access to at least one "
     ++ "Xero organization.</p>").

(** The body of the [try] block of [app.get('/callback')]. *)
Definition callback_body (req : http_request) : M response :=
  if state_rejected req then throw (Error "Invalid state parameter")
  else
    let redirectUri := getPublicURL ++ "/callback" in
    let* t :=
      post_token (AuthorizationCode (query_code req) redirectUri
                    (XERO_CLIENT_ID E) (XERO_CLIENT_SECRET E)) in
    let* conns :=
      get_connections ("Bearer " ++ js_String (t !! "access_token")) in
    if match conns with
       | None => true
       | Some l => (length l =? 0)%nat
       end
    then ret no_organizations_page
    else
    match head (js_sort by_created_desc (default [] conns)) with
    | None =>
        throw (TypeError
          "Cannot read properties of undefined (reading 'tenantId')")
    | Some chosen =>
        let* userId :=
          match req_userId req with
          | Some u => ret u
          | None =>
              throw (Error
                "null value in column user_id violates not-null constraint")
          end in
        saveXeroConnection userId (conn_tenantId chosen)
          (conn_tenantName chosen) t (req_isAdmin req) ;;;
        ret (Redirect (if req_isAdmin req then "/admin?connected=true"
                       else "/?connected=true"))
    end.

(** [error.response?.data || error.message], as text. *)
Definition error_detail (e : exn) : string :=
  if truthy_str (exn_data e) then default "" (exn_data e)
  else exn_message e.

(** [res.status(500).send(...)] of the [catch] block. *)
Definition failure_page (error : exn) : response :=
  Send 500
    ("<h1>Connection Failed</h1><p>" ++ error_detail error
     ++ "</p><p><a href=" ++ double_quote ++ "/" ++ double_quote
     ++ ">Return to app</a></p>").

Definition callback (req : http_request) : M response :=
  try_catch (callback_body req) (fun error => ret (failure_page error)).

Definition ensureValidToken (userId : Z) (isAdmin : bool)
    (tenantId : option string) : M token_info :=
  let* connection :=
    if isAdmin then getXeroConnection userId tenantId
    else getSystemXeroConnection in
  match connection with
  | None =>
      throw (Error
        (if isAdmin then
           "No Xero connection found. Please connect your Xero account."
         else
           "System Xero connection not configured. "
           ++ "Please contact your administrator."))
  | Some c =>
      ret {| ti_accessToken := sc_tokens c !! "access_token";
             ti_refreshToken := sc_tokens c !! "refresh_token";
             ti_tenantId := sc_tenantId c;
             connectionUserId := sc_userId c |}
  end.

Definition refreshAccessToken (userId : Z) (tenantId : string)
    (refreshToken : option jsval) : M (option jsval) :=
  let* newTokens :=
    post_token (RefreshToken refreshToken (XERO_CLIENT_ID E)
                  (XERO_CLIENT_SECRET E)) in
  updateXeroTokens userId tenantId newTokens ;;;
  ret (newTokens !! "access_token").

(** The headers built by [makeRequest]; the headers of [config] come last
    in the object literal and win. *)
Definition request_headers (r : api_request) : gmap string string :=
  headers (request_config r)
  ∪ {[ "Authorization" := "Bearer " ++ js_String (accessToken r);
       "xero-tenant-id" := tenantId r;
       "Accept" := "application/json" ]}.

Definition request_url (r : api_request) : string := XERO_API ++ urlPath r.

Definition makeRequest (tokenInfo : token_info) (method urlPath : string)
    (cfg : config) (accessToken : option jsval) : M payload :=
  let r := request_with tokenInfo method urlPath cfg accessToken in
  request (ApiCall r) (fun h => xero_api P h r).

Definition xeroRequest (userId : Z) (isAdmin : bool)
    (method urlPath : string) (cfg : config) : M payload :=
  let* tokenInfo := ensureValidToken userId isAdmin None in
  try_catch
    (makeRequest tokenInfo method urlPath cfg (ti_accessToken tokenInfo))
    (fun err =>
       if match exn_status err with
          | Some st => (st =? 401)%Z
          | None => false
          end && truthy (ti_refreshToken tokenInfo)
       then
         let* newAccessToken :=
           refreshAccessToken (connectionUserId tokenInfo)
             (ti_tenantId tokenInfo) (ti_refreshToken tokenInfo) in
         makeRequest tokenInfo method urlPath cfg newAccessToken
       else throw err).

End Server.

(** ** Vocabulary of the properties *)

(** The key text the cipher reads from the environment, and its bytes. *)
Definition configured_key (E : env) : option string :=
  js_or (PREDITOR_TOKEN_KEY E) (PRODIT_TOKEN_KEY E).

Definition key_of (E : env) : list byte :=
  Base64.decode (default "" (configured_key E)).

(** A key is configured and decodes to 32 bytes. *)
Definition key_configured (E : env) : Prop :=
  truthy_str (configured_key E) = true /\ length (key_of E) = 32.

(** The constraint [UNIQUE(user_id, tenant_id)]. *)
Definition unique_keys (rows : list row) : Prop :=
  NoDup (map (fun r => (user_id r, tenant_id r)) rows).

(** A bundle holds both an access token and a refresh token. *)
Definition complete (t : tokens) : bool :=
  truthy (t !! "access_token") && truthy (t !! "refresh_token").

(** A computation keeps a property of the table. *)
Definition keeps {A} (I : list row -> Prop) (c : M A) : Prop :=
  forall w, I (xero_connections w) -> I (xero_connections (c w).2).

(** A row decrypts to a bundle that holds both tokens. *)
Definition row_complete `{RT : Runtime} (E : env) (r : row) : Prop :=
  exists t,
    decryptTokens E (encrypted_tokens r) (encryption_iv r) (encryption_tag r)
    = Return t
    /\ complete t = true.

(** Every row does. *)
Definition stored_complete `{RT : Runtime} (E : env) (rows : list row)
    : Prop :=
  Forall (row_complete E) rows.

(** Every successful answer of the token endpoint holds both tokens. *)
Definition answers_complete (P : provider) : Prop :=
  forall h form t, token_endpoint P h form = Fulfilled t -> complete t = true.

(** One operation of the server on the store: the OAuth callback, a call
    through the pipeline, or a disconnection. *)
Inductive store_step `{RT : Runtime} (E : env) (P : provider)
    (entropy : nat -> byte) : world -> world -> Prop :=
| step_callback (req : http_request) (w : world) :
    store_step E P entropy w (callback E P entropy req w).2
| step_xeroRequest (userId : Z) (isAdmin : bool) (method urlPath : string)
    (cfg : config) (w : world) :
    store_step E P entropy w
      (xeroRequest E P entropy userId isAdmin method urlPath cfg w).2
| step_delete (userId : Z) (tenantId : string) (w : world) :
    store_step E P entropy w (deleteXeroConnection userId tenantId w).2
| step_delete_system (w : world) :
    store_step E P entropy w (deleteSystemXeroConnection w).2.

(** The form of the grant exchange of a callback request, and the
    [Authorization] header made from a bundle. *)
Definition grant_form (E : env) (req : http_request) : token_form :=
  AuthorizationCode (query_code req) (getPublicURL E ++ "/callback")
    (XERO_CLIENT_ID E) (XERO_CLIENT_SECRET E).

Definition bearer (t : tokens) : string :=
  "Bearer " ++ js_String (t !! "access_token").

(** The form of a refresh exchange. *)
Definition refresh_form (E : env) (refreshToken : option jsval) : token_form :=
  RefreshToken refreshToken (XERO_CLIENT_ID E) (XERO_CLIENT_SECRET E).

(** ** A runtime to run the definitions on concrete inputs

    [Model.runtime] satisfies the contract of [Runtime] with small
    definitions that compute: a shift cipher with a checksum for a tag, a
    binary numbering of bundles for JSON texts, and the time value of
    date-only forms [YYYY-MM-DD]. It shows the contract is satisfiable and
    evaluates the scenarios; it is no cipher to use. *)

Module Model.

#[global] Instance jsval_eq_dec : EqDecision jsval.
Proof. solve_decision. Defined.

#[global] Instance byte_eq_decision : EqDecision byte := Byte.byte_eq_dec.

Definition jsval_to_sum (v : jsval) : unit + bool + Z + string :=
  match v with
  | JNull => inl (inl (inl tt))
  | JBool b => inl (inl (inr b))
  | JNum n => inl (inr n)
  | JStr s => inr s
  end.

Definition jsval_of_sum (x : unit + bool + Z + string) : jsval :=
  match x with
  | inl (inl (inl _)) => JNull
  | inl (inl (inr b)) => JBool b
  | inl (inr n) => JNum n
  | inr s => JStr s
  end.

#[global] Instance jsval_countable : Countable jsval.
Proof.
  apply (inj_countable' jsval_to_sum jsval_of_sum). by intros [].
Defined.

Fixpoint digits_of_pos (p : positive) : string :=
  match p with
  | xH => ""
  | xO q => String "0" (digits_of_pos q)
  | xI q => String "1" (digits_of_pos q)
  end.

Fixpoint pos_of_digits (s : string) : option positive :=
  match s with
  | EmptyString => Some xH
  | String c r =>
      match pos_of_digits r with
      | Some q =>
          if Ascii.eqb c "0" then Some (xO q)
          else if Ascii.eqb c "1" then Some (xI q)
          else None
      | None => None
      end
  end.

Definition stringify (t : tokens) : string :=
  digits_of_pos (countable.encode t).

Definition parse (s : string) : option tokens :=
  match pos_of_digits s with
  | Some p => countable.decode p
  | None => None
  end.

Definition checksum (bs : list byte) : N :=
  foldr (fun b acc => ((Byte.to_N b + acc) mod 256)%N) 0%N bs.

Definition shift (s : N) (b : byte) : byte :=
  Base64.byte_of_N ((Byte.to_N b + s) mod 256).

Definition tag_of (key iv ct : list byte) : list byte :=
  replicate 16 (Base64.byte_of_N (checksum (key ++ iv ++ ct))).

Definition seal (key iv pt : list byte) : list byte * list byte :=
  let ct := map (shift (checksum (key ++ iv))) pt in
  (ct, tag_of key iv ct).

Definition open (key iv tag ct : list byte) : option (list byte) :=
  if decide (tag = tag_of key iv ct) then
    Some (map (shift (256 - checksum (key ++ iv))) ct)
  else None.

Definition digit (c : ascii) : option Z :=
  let n := Z.of_N (N_of_ascii c) in
  if ((48 <=? n) && (n <=? 57))%Z then Some (n - 48)%Z else None.

Fixpoint number (acc : Z) (s : list ascii) : option Z :=
  match s with
  | [] => Some acc
  | c :: r =>
      match digit c with
      | Some d => number (acc * 10 + d) r
      | None => None
      end
  end.

(** Days from 1970-01-01 to a date of the Gregorian calendar. *)
Definition days_from_civil (y m d : Z) : Z :=
  let y' := if (m <=? 2)%Z then (y - 1)%Z else y in
  let era := (y' / 400)%Z in
  let yoe := (y' - era * 400)%Z in
  let doy :=
    ((153 * (if (2 <? m)%Z then m - 3 else m + 9) + 2) / 5 + d - 1)%Z in
  let doe := (yoe * 365 + yoe / 4 - yoe / 100 + doy)%Z in
  (era * 146097 + doe - 719468)%Z.

(** Milliseconds from the epoch to midnight UTC of [YYYY-MM-DD]. *)
Definition getTime (s : string) : option Z :=
  match list_ascii_of_string s with
  | [y1; y2; y3; y4; h1; m1; m2; h2; d1; d2] =>
      if Ascii.eqb h1 "-" && Ascii.eqb h2 "-" then
        match number 0 [y1; y2; y3; y4], number 0 [m1; m2],
              number 0 [d1; d2] with
        | Some y, Some m, Some d =>
            if ((1 <=? m) && (m <=? 12) && (1 <=? d) && (d <=? 31))%Z
            then Some (days_from_civil y m d * 86400000)%Z
            else None
        | _, _, _ => None
        end
      else None
  | _ => None
  end.

Lemma pos_of_digits_of_pos (p : positive) :
  pos_of_digits (digits_of_pos p) = Some p.
Proof. induction p as [q IH|q IH|]; cbn; [by rewrite IH..|done]. Qed.

Lemma parse_stringify (t : tokens) : parse (stringify t) = Some t.
Proof.
  unfold parse, stringify. rewrite pos_of_digits_of_pos.
  apply decode_encode.
Qed.

Lemma checksum_lt (bs : list byte) : (checksum bs < 256)%N.
Proof. destruct bs; cbn; [lia | apply N.mod_lt; lia]. Qed.

Lemma shift_back (s : N) (b : byte) :
  (s < 256)%N -> shift (256 - s) (shift s b) = b.
Proof.
  intros Hs. unfold shift, Base64.byte_of_N.
  pose proof (Byte.to_N_bounded b) as Hb.
  destruct (Byte.of_N ((Byte.to_N b + s) mod 256)) as [c|] eqn:Hc.
  - apply Byte.to_of_N in Hc. rewrite Hc.
    replace (((Byte.to_N b + s) mod 256 + (256 - s)) mod 256)%N
      with (Byte.to_N b)
      by (Zify.zify; Z.to_euclidean_division_equations; lia).
    by rewrite Byte.of_to_N.
  - apply Byte.of_N_None_iff in Hc.
    pose proof (N.mod_lt (Byte.to_N b + s) 256). lia.
Qed.

Lemma open_seal (key iv pt : list byte) :
  length key = 32 ->
  open key iv (seal key iv pt).2 (seal key iv pt).1 = Some pt.
Proof.
  intros _. unfold open, seal. cbn [fst snd].
  case_decide; [|done].
  f_equal. rewrite <- list_fmap_compose.
  rewrite <- (list_fmap_id pt) at 2. apply list_fmap_ext.
  intros i b _. cbn. apply shift_back, checksum_lt.
Qed.

#[global] Instance runtime : Runtime := {|
  aes_256_gcm_seal := seal;
  aes_256_gcm_open := open;
  aes_256_gcm_open_seal := open_seal;
  JSON_stringify := stringify;
  JSON_parse := parse;
  JSON_parse_stringify := parse_stringify;
  Date_getTime := getTime
|}.

(** A 32-byte key, its base64 text, and an environment holding it. *)
Definition key : list byte := replicate 32 "k"%byte.

Definition environment : env :=
  {| PREDITOR_TOKEN_KEY := None;
     PRODIT_TOKEN_KEY := Some (Base64.encode key);
     XERO_CLIENT_ID := Some "client";
     XERO_CLIENT_SECRET := Some "secret";
     PUBLIC_URL := Some "https://prodit.example";
     RAILWAY_PUBLIC_DOMAIN := None;
     PORT := None |}.

Definition entropy (n : nat) : byte := Base64.byte_of_N (N.of_nat n mod 256).

(** The empty database at time 0. *)
Definition start : world :=
  {| xero_connections := []; next_id := 1; clock := 0; drawn := 0;
     log := [] |}.

End Model.

(** ** Scenarios of the specification, on the model runtime *)

Module Scenario.
Import Model.

(** The bundle stored at first, the bundle of a refresh, and a bundle
    without a refresh token. *)
Definition stale : tokens :=
  {[ "access_token" := JStr "AT-1"; "refresh_token" := JStr "RT-1";
     "expires_in" := JNum 1800; "token_type" := JStr "Bearer" ]}.

Definition fresh : tokens :=
  {[ "access_token" := JStr "AT-2"; "refresh_token" := JStr "RT-2";
     "expires_in" := JNum 1800; "token_type" := JStr "Bearer" ]}.

Definition access_only : tokens :=
  {[ "access_token" := JStr "AT-3"; "expires_in" := JNum 1800;
     "token_type" := JStr "Bearer" ]}.

(** Two organisations, connected on 2024-01-01 and on 2024-06-01. *)
Definition january : connection :=
  {| conn_tenantId := "tenant-jan"; conn_tenantName := "January Ltd";
     createdDateUtc := "2024-01-01" |}.

Definition june : connection :=
  {| conn_tenantId := "tenant-jun"; conn_tenantName := "June Ltd";
     createdDateUtc := "2024-06-01" |}.

(** The API answers 401 until a refresh exchange has been made; the token
    endpoint answers with [grant]. *)
Definition provider_with (grant : reply tokens) : provider :=
  {| token_endpoint := fun _ _ => grant;
     connections_endpoint := fun _ _ => Fulfilled (Some [january; june]);
     xero_api := fun h _ =>
       if existsb is_refresh h then Fulfilled "{Items:[]}"
       else Rejected 401 "AuthenticationUnsuccessful" |}.

(** Scenario C: the refresh exchange succeeds. *)
Definition refreshing : provider := provider_with (Fulfilled fresh).

(** Scenario D: the refresh exchange is rejected. *)
Definition rejecting : provider :=
  provider_with (Rejected 400 "{error:invalid_grant}").

(** A token endpoint that leaves the refresh token out. *)
Definition forgetful : provider := provider_with (Fulfilled access_only).

(** The API always answers 401. *)
Definition expired : provider :=
  {| token_endpoint := fun _ _ => Fulfilled fresh;
     connections_endpoint := fun _ _ => Fulfilled (Some [january; june]);
     xero_api := fun _ _ => Rejected 401 "AuthenticationUnsuccessful" |}.

(** The API answers 500. *)
Definition unavailable : provider :=
  {| token_endpoint := fun _ _ => Fulfilled fresh;
     connections_endpoint := fun _ _ => Fulfilled (Some [january; june]);
     xero_api := fun _ _ => Rejected 500 "InternalError" |}.

(** No organisation is listed. *)
Definition unlisted : provider :=
  {| token_endpoint := fun _ _ => Fulfilled fresh;
     connections_endpoint := fun _ _ => Fulfilled (Some []);
     xero_api := fun _ _ => Rejected 401 "AuthenticationUnsuccessful" |}.

(** Owner 7, an administrator, holds the record of tenant [tenant-7]. *)
Definition connected (b : tokens) : world :=
  (saveXeroConnection environment entropy 7 "tenant-7" "Seven Ltd" b true
     start).2.

Definition plain : config := {| headers := ∅; data := None |}.

(** What [ensureValidToken] finds for owner 7 when the bundle [b] is stored
    for the tenant. *)
Definition found (tenant : string) (b : tokens) : token_info :=
  {| ti_accessToken := b !! "access_token";
     ti_refreshToken := b !! "refresh_token";
     ti_tenantId := tenant;
     connectionUserId := 7 |}.

(** The callback of owner 7 with the state of the redirect, and with a
    state that is not theirs. *)
Definition returning_owner : http_request :=
  {| query_code := Some "code-7"; query_state := Some "7";
     session_userId := Some 7%Z; req_isAdmin := true |}.

Definition forged : http_request :=
  {| query_code := Some "code-7"; query_state := Some "8";
     session_userId := Some 7%Z; req_isAdmin := true |}.

(** The world after the callback of owner 7, from the empty database. *)
Definition granted (P : provider) : world :=
  (callback environment P entropy returning_owner start).2.

(** A key of 16 bytes. *)
Definition short_key : env :=
  {| PREDITOR_TOKEN_KEY := None;
     PRODIT_TOKEN_KEY := Some (Base64.encode (replicate 16 "k"%byte));
     XERO_CLIENT_ID := Some "client";
     XERO_CLIENT_SECRET := Some "secret";
     PUBLIC_URL := Some "https://prodit.example";
     RAILWAY_PUBLIC_DOMAIN := None;
     PORT := None |}.

End Scenario.

(** ** The endpoints around the store ([server.js]) *)

Definition XERO_AUTH : string :=
  "https://login.xero.com/identity/connect/authorize".

(** [scopes]: the list joined with a space. *)
Definition scopes : string :=
  "openid email profile offline_access accounting.settings.read "
  ++ "accounting.settings accounting.transactions".

(** What the endpoints below answer: [res.redirect(url.toString())] for a
    [URL] and the search parameters set on it, in the order they were set
    (the text of the URL is made by [URL]), and [res.json(...)] with the
    status set before it, 200 when none was. *)
Inductive answer : Type :=
| redirect_to (url : string) (searchParams : list (string * string))
| json_error (status : Z) (error : string)
| json_failure (status : Z) (error detail : string)
| json_connections (connections : list listing)
| json_success (success : bool)
| json_status (connected : bool) (tenantId tenantName : option string)
    (isSystemConnection : bool)
| json_system_status (connected : bool) (tenantId tenantName : option string)
    (lastSynced : option Z)
| json_data (data : payload).

(** [Boolean(connection)] for an object or [null]. *)
Definition js_Boolean {A} (connection : option A) : bool :=
  match connection with
  | Some _ => true
  | None => false
  end.

(** [requireAuth] ([auth.js]) in front of a handler. The handler runs when
    [req.session.userId] is truthy, and reads [req.userId], which
    [attachUser] copied from the session. *)
Definition requireAuth (req : http_request) (next : Z -> M answer)
    : M answer :=
  match req_userId req with
  | None => ret (json_error 401 "Authentication required")
  | Some userId => next userId
  end.

(** [requireAdmin] ([auth.js]) in front of a handler. *)
Definition requireAdmin (req : http_request) (next : Z -> M answer)
    : M answer :=
  match req_userId req with
  | None => ret (json_error 401 "Authentication required")
  | Some userId =>
      if negb (req_isAdmin req) then
        ret (json_error 403 "Admin privileges required")
      else next userId
  end.

Section Endpoints.
Context {RT : Runtime}.
Context (E : env) (P : provider) (entropy : nat -> byte).

(** [app.get('/auth/xero', requireAuth, ...)]; an environment variable
    that is not set is written as [undefined] by [searchParams.set]. *)
Definition auth_xero (req : http_request) : M answer :=
  requireAuth req (fun userId =>
    let redirectUri := getPublicURL E ++ "/callback" in
    ret (redirect_to XERO_AUTH
           [("response_type", "code");
            ("client_id", default "undefined" (XERO_CLIENT_ID E));
            ("redirect_uri", redirectUri);
            ("scope", scopes);
            ("state", string_of_Z userId)])).

(** [app.get('/api/connections', requireAuth, ...)]. *)
Definition api_connections (req : http_request) : M answer :=
  requireAuth req (fun userId =>
    try_catch
      (let* connections := getAllXeroConnections userId in
       ret (json_connections connections))
      (fun error => ret (json_error 500 (exn_message error)))).

(** [app.delete('/api/connections/:tenantId', requireAuth, ...)], with
    [req.params.tenantId]. *)
Definition api_connections_delete (req : http_request) (tenantId : string)
    : M answer :=
  requireAuth req (fun userId =>
    try_catch
      (let* deleted := deleteXeroConnection userId tenantId in
       ret (json_success deleted))
      (fun error => ret (json_error 500 (exn_message error)))).

(** [app.get('/api/status', requireAuth, ...)]. *)
Definition api_status (req : http_request) : M answer :=
  requireAuth req (fun userId =>
    try_catch
      (let* connection :=
         if req_isAdmin req then getXeroConnection E userId None
         else getSystemXeroConnection E in
       ret (json_status (js_Boolean connection)
              (js_or (sc_tenantId <$> connection) None)
              (js_or (sc_tenantName <$> connection) None)
              (negb (req_isAdmin req))))
      (fun error =>
         ret (json_status false None None (negb (req_isAdmin req))))).

(** [app.post('/api/items/update', requireAuth, ...)], with the text
    [JSON.stringify({Items: items})] made from the body of the request. *)
Definition api_items_update (req : http_request) (items : string)
    : M answer :=
  requireAuth req (fun userId =>
    try_catch
      (let* data :=
         xeroRequest E P entropy userId (req_isAdmin req) "post" "/Items"
           {| headers := {[ "Content-Type" := "application/json" ]};
              data := Some items |} in
       ret (json_data data))
      (fun error =>
         ret (json_failure 500 "items_update_failed" (error_detail error)))).

(** [app.get('/api/admin/xero/status', requireAdmin, ...)]; a row always
    holds a date in [last_synced]. *)
Definition api_admin_xero_status (req : http_request) : M answer :=
  requireAdmin req (fun _ =>
    try_catch
      (let* connection := getSystemXeroConnection E in
       ret (json_system_status (js_Boolean connection)
              (js_or (sc_tenantId <$> connection) None)
              (js_or (sc_tenantName <$> connection) None)
              (sc_lastSynced <$> connection)))
      (fun error => ret (json_system_status false None None None))).

(** [app.delete('/api/admin/xero/disconnect', requireAdmin, ...)]. *)
Definition api_admin_xero_disconnect (req : http_request) : M answer :=
  requireAdmin req (fun _ =>
    try_catch
      (let* deleted := deleteSystemXeroConnection in
       ret (json_success deleted))
      (fun error => ret (json_error 500 (exn_message error)))).

End Endpoints.

(** ** Vocabulary of the properties of the store and the endpoints *)

(** No row was synced later than the last reading of the clock. *)
Definition timely (w : world) : Prop :=
  Forall (fun r => (last_synced r < clock w)%Z) (xero_connections w).

(** What identifies a row and is not its credentials: its id, owner,
    tenant, name, system flag and time of creation. *)
Definition frame (r : row) : Z * Z * string * string * bool * Z :=
  (id r, user_id r, tenant_id r, tenant_name r, is_system_connection r,
   created_at r).

(** What [ensureValidToken] gives for a bundle stored for a tenant under
    an owner. *)
Definition token_info_of (owner : Z) (tenant : string) (t : tokens)
    : token_info :=
  {| ti_accessToken := t !! "access_token";
     ti_refreshToken := t !! "refresh_token";
     ti_tenantId := tenant;
     connectionUserId := owner |}.

(** The errors of [ensureValidToken] without a record. *)
Definition no_connection_error (isAdmin : bool) : exn :=
  Error
    (if isAdmin then
       "No Xero connection found. Please connect your Xero account."
     else
       "System Xero connection not configured. "
       ++ "Please contact your administrator.").

(** The value of a search parameter of a redirect. *)
Definition search_param (name : string) (a : answer) : option string :=
  match a with
  | redirect_to _ params =>
      snd <$> List.find (fun p => String.eqb (fst p) name) params
  | _ => None
  end.

(** The rows a call may use: those of the user for an administrator, the
    system connections for any other user. *)
Definition in_scope (userId : Z) (isAdmin : bool) (r : row) : bool :=
  if isAdmin then (user_id r =? userId)%Z else is_system_connection r.

(** A computation keeps a property of the world. *)
Definition sustains {A} (J : world -> Prop) (c : M A) : Prop :=
  forall w, J w -> J (c w).2.

(** The table satisfies [UNIQUE(user_id, tenant_id)], no row was synced
    after the last reading of the clock, and the ids are distinct and below
    the next value of the sequence. *)
Definition sound (w : world) : Prop :=
  unique_keys (xero_connections w)
  /\ timely w
  /\ NoDup (map id (xero_connections w))
  /\ Forall (fun r => (id r < next_id w)%Z) (xero_connections w).

(** The comparator of [ORDER BY key DESC]. *)
Definition by_key_desc {A} (key : A -> Z) (a b : A) : option Z :=
  Some (key b - key a)%Z.



(** ** Scenarios of the store and the endpoints *)

Module Visitors.

(** User 9, who is not an administrator, comes back from the provider
    with the state of their redirect. *)
Definition member : http_request :=
  {| query_code := Some "code-9"; query_state := Some "9";
     session_userId := Some 9%Z; req_isAdmin := false |}.

End Visitors.

(** Scenarios where the specification and the code part *)

Module Cases.
Import Model Scenario.

(** The API answers 400 with the body of a rejected exchange. *)
Definition refusing : provider :=
  {| token_endpoint := fun _ _ => Fulfilled fresh;
     connections_endpoint := fun _ _ => Fulfilled (Some [january; june]);
     xero_api := fun _ _ => Rejected 400 "{error:invalid_grant}" |}.

(** An organisation listed without a date. *)
Definition undated : connection :=
  {| conn_tenantId := "tenant-new"; conn_tenantName := "Undated Ltd";
     createdDateUtc := "" |}.

(** The listing holds it between the two others. *)
Definition misdated : provider :=
  {| token_endpoint := fun _ _ => Fulfilled fresh;
     connections_endpoint :=
       fun _ _ => Fulfilled (Some [january; undated; june]);
     xero_api := fun _ _ => Rejected 401 "AuthenticationUnsuccessful" |}.

End Cases.

(** * Proofs *)

(** ** The base64 codec *)

Module Base64Facts.
Import Base64.

Lemma byte_of_to_N (b : byte) : byte_of_N (Byte.to_N b) = b.
Proof. unfold byte_of_N. by rewrite Byte.of_to_N. Qed.

Lemma to_N_lt (b : byte) : (Byte.to_N b < 256)%N.
Proof. pose proof (Byte.to_N_bounded b). lia. Qed.

Lemma sextet_ok_all (n : N) : (n < 64)%N -> sextet_ok n = true.
Proof.
  intros Hn.
  assert (H : forallb sextet_ok (map N.of_nat (seq 0 64)) = true)
    by (vm_compute; reflexivity).
  rewrite forallb_forall in H. apply H.
  apply in_map_iff. exists (N.to_nat n). split; [lia |].
  apply in_seq. lia.
Qed.

Lemma sextets_cons (n : N) (s : string) :
  (n < 64)%N -> sextets (String (char_of_sextet n) s) = n :: sextets s.
Proof.
  intros Hn. pose proof (sextet_ok_all n Hn) as H. unfold sextet_ok in H.
  apply andb_true_iff in H as [H1 H2]. apply negb_true_iff in H2.
  simpl. rewrite H2.
  destruct (sextet_of_char (char_of_sextet n)) as [m|]; [|done].
  apply N.eqb_eq in H1. by subst.
Qed.

Ltac n_arith :=
  repeat match goal with
         | b : byte |- _ =>
             lazymatch goal with
             | H : (Byte.to_N b < 256)%N |- _ => fail
             | _ => pose proof (to_N_lt b)
             end
         end;
  Zify.zify; Z.to_euclidean_division_equations; lia.

Lemma byte_of_N_eq (n : N) (b : byte) : n = Byte.to_N b -> byte_of_N n = b.
Proof. intros ->. apply byte_of_to_N. Qed.

(** Induction on a list, three elements at a time. *)
Lemma list_ind3 {A} (P : list A -> Prop) :
  P [] -> (forall a, P [a]) -> (forall a b, P [a; b]) ->
  (forall a b c l, P l -> P (a :: b :: c :: l)) ->
  forall l, P l.
Proof.
  intros H0 H1 H2 H3.
  fix IH 1. intros [|a [|b [|c l]]];
    [exact H0 | apply H1 | apply H2 | apply H3, IH].
Qed.

Lemma decode_encode (bs : list byte) : decode (encode bs) = bs.
Proof.
  unfold decode. induction bs as [|a|a b|a b c l IH] using list_ind3.
  - reflexivity.
  - cbn [encode].
    rewrite !sextets_cons by n_arith. cbn.
    f_equal. apply byte_of_N_eq. n_arith.
  - cbn [encode].
    rewrite !sextets_cons by n_arith. cbn.
    f_equal; [|f_equal]; apply byte_of_N_eq; n_arith.
  - cbn [encode].
    rewrite !sextets_cons by n_arith. cbn [bytes_of_sextets].
    rewrite IH. f_equal; [|f_equal; [|f_equal]]; apply byte_of_N_eq; n_arith.
Qed.

End Base64Facts.

(** ** The credential cipher *)

Arguments Base64.encode : simpl never.
Arguments Base64.decode : simpl never.
Arguments seq : simpl never.

Ltac unfold_m :=
  unfold bind, ret, throw, lift, try_catch, request, emit, await,
    select_rows, pool_query, randomBytes in *.

Section Cipher.
Context {RT : Runtime} (E : env) (entropy : nat -> byte).

Lemma encryptTokens_Return (t : tokens) (w : world) :
  key_configured E ->
  exists encrypted iv tag,
    encryptTokens E entropy t w = (Return (encrypted, iv, tag), draw 12 w)
    /\ decryptTokens E encrypted iv tag = Return t.
Proof.
  intros [Hk Hlen]. unfold key_of, configured_key in *.
  unfold encryptTokens, decryptTokens. rewrite Hk. cbn [negb].
  unfold check_key_length. rewrite Hlen. cbn [Nat.eqb negb].
  unfold_m. cbn.
  eexists _, _, _. split; [reflexivity|].
  rewrite !Base64Facts.decode_encode.
  rewrite aes_256_gcm_open_seal by done.
  rewrite string_of_list_byte_of_string.
  by rewrite JSON_parse_stringify.
Qed.

Lemma encryptTokens_world (t : tokens) (w : world) :
  xero_connections (encryptTokens E entropy t w).2 = xero_connections w
  /\ log (encryptTokens E entropy t w).2 = log w
  /\ next_id (encryptTokens E entropy t w).2 = next_id w
  /\ clock (encryptTokens E entropy t w).2 = clock w.
Proof.
  unfold encryptTokens.
  destruct (negb _); [done|].
  destruct (negb _); [done|].
  unfold_m. cbn.
  destruct (check_key_length _); done.
Qed.

(** Without a key, [decryptTokens] throws before anything else. *)
Lemma decryptTokens_unconfigured (encrypted iv tag : string) :
  truthy_str (configured_key E) = false ->
  decryptTokens E encrypted iv tag
  = Throw (Error "Encryption key not configured (PRODIT_TOKEN_KEY)").
Proof.
  unfold configured_key, decryptTokens. by intros ->.
Qed.


Lemma decryptTokens_key (encrypted iv tag : string) (t : tokens) :
  decryptTokens E encrypted iv tag = Return t -> key_configured E.
Proof.
  unfold decryptTokens, key_configured, key_of, configured_key.
  destruct (truthy_str _); cbn [negb]; [|done].
  unfold check_key_length.
  destruct (Nat.eqb_spec (length (Base64.decode
    (default "" (js_or (PREDITOR_TOKEN_KEY E) (PRODIT_TOKEN_KEY E))))) 32);
    done.
Qed.
End Cipher.

(** ** Sorting *)

Section SortFacts.
Context {A : Type} (compare : A -> A -> option Z).

Lemma sort_insert_perm (x : A) (l : list A) :
  sort_insert compare x l ≡ₚ x :: l.
Proof.
  induction l as [|y l IH]; cbn; [done|].
  destruct (goes_after compare x y); [|done].
  rewrite IH. apply Permutation_swap.
Qed.

Lemma js_sort_cons (x : A) (l : list A) :
  js_sort compare (x :: l) = sort_insert compare x (js_sort compare l).
Proof. reflexivity. Qed.

Lemma js_sort_perm (l : list A) : js_sort compare l ≡ₚ l.
Proof.
  induction l as [|x l IH]; [done|].
  by rewrite js_sort_cons, sort_insert_perm, IH.
Qed.

(** When the comparison is the difference of a key, descending, the
    first element of the sorted array has the greatest key. *)
Lemma js_sort_head_greatest (key : A -> Z) (l : list A) (x : A) :
  (forall a b, a ∈ l -> b ∈ l -> compare a b = Some (key b - key a)%Z) ->
  head (js_sort compare l) = Some x ->
  x ∈ l /\ forall y, y ∈ l -> (key y <= key x)%Z.
Proof.
  revert x. induction l as [|a l IH]; intros x Hcmp; [done|].
  rewrite js_sort_cons.
  destruct (js_sort compare l) as [|y l'] eqn:Hs.
  - pose proof (js_sort_perm l) as Hp. rewrite Hs in Hp.
    apply Permutation_nil_l in Hp. subst l.
    cbn. intros [= <-]. split; [left|].
    intros y Hy. apply list_elem_of_singleton in Hy. subst. lia.
  - destruct (IH y) as [Hy Hmax]; [|done|].
    { intros ? ? ? ?. apply Hcmp; by right. }
    cbn. unfold goes_after.
    rewrite (Hcmp a y) by (try left; by right).
    destruct (Z.ltb_spec 0 (key y - key a)); cbn; intros [= <-].
    + split; [by right|]. intros z Hz.
      apply elem_of_cons in Hz as [->|Hz]; [lia | by apply Hmax].
    + split; [left|]. intros z Hz.
      apply elem_of_cons in Hz as [->|Hz]; [lia|].
      specialize (Hmax z Hz). lia.
Qed.

Lemma js_sort_nil_inv (l : list A) : js_sort compare l = [] -> l = [].
Proof.
  intros H. pose proof (js_sort_perm l) as Hp. rewrite H in Hp.
  by apply Permutation_nil_l in Hp.
Qed.
End SortFacts.

Lemma filter_perm {A} (f : A -> bool) (l l' : list A) :
  l ≡ₚ l' -> List.filter f l ≡ₚ List.filter f l'.
Proof.
  induction 1 as [|x l l' _ IH|x y l|l l' l'' _ IH1 _ IH2]; cbn.
  - done.
  - destruct (f x); by rewrite IH.
  - destruct (f x), (f y); try done. apply Permutation_swap.
  - by rewrite IH1.
Qed.

Lemma filter_sorted_singleton {A} (cmp : A -> A -> option Z) (f : A -> bool)
    (l : list A) (x : A) :
  List.filter f l = [x] -> List.filter f (js_sort cmp l) = [x].
Proof.
  intros H. pose proof (filter_perm f _ _ (js_sort_perm cmp l)) as Hp.
  rewrite H in Hp. by apply Permutation_singleton_r in Hp.
Qed.

(** ** The table *)

Lemma same_key_spec (u : Z) (t : string) (r : row) :
  same_key u t r = true <-> (user_id r, tenant_id r) = (u, t).
Proof.
  unfold same_key. rewrite andb_true_iff, Z.eqb_eq, String.eqb_eq.
  split; [intros [-> ->]; done | intros [= -> ->]; done].
Qed.

Lemma filter_key_absent (u : Z) (t : string) (rows : list row) :
  (u, t) ∉ map (fun r => (user_id r, tenant_id r)) rows ->
  List.filter (same_key u t) rows = [].
Proof.
  induction rows as [|r rows IH]; cbn; [done|].
  intros Hn. apply not_elem_of_cons in Hn as [Hne Hn].
  destruct (same_key u t r) eqn:Hk.
  - apply same_key_spec in Hk. congruence.
  - by apply IH.
Qed.

Lemma filter_key_unique (u : Z) (t : string) (rows : list row) :
  unique_keys rows ->
  List.filter (same_key u t) rows = []
  \/ exists r, List.filter (same_key u t) rows = [r].
Proof.
  unfold unique_keys.
  induction rows as [|r rows IH]; cbn; [by left|].
  intros Hnd. apply NoDup_cons in Hnd as [Hn Hnd].
  destruct (same_key u t r) eqn:Hk.
  - right. exists r. apply same_key_spec in Hk. rewrite Hk in Hn.
    by rewrite filter_key_absent.
  - by apply IH.
Qed.

Lemma existsb_filter_nil {A} (f : A -> bool) (l : list A) :
  existsb f l = false <-> List.filter f l = [].
Proof.
  induction l as [|x l IH]; cbn; [done|].
  destruct (f x); cbn; [split; done | done].
Qed.

Section Upsert.
Context (ts nid u : Z) (t n e i g : string) (sys : bool).

Lemma insert_on_conflict_keys (rows : list row) :
  existsb (same_key u t) rows = true ->
  map (fun r => (user_id r, tenant_id r))
    (insert_on_conflict ts nid u t n e i g sys rows)
  = map (fun r => (user_id r, tenant_id r)) rows.
Proof.
  intros H. unfold insert_on_conflict. rewrite H.
  rewrite map_map. apply map_ext. intros r. by destruct (same_key u t r).
Qed.

Lemma insert_on_conflict_unique (rows : list row) :
  unique_keys rows ->
  unique_keys (insert_on_conflict ts nid u t n e i g sys rows).
Proof.
  intros Hu. unfold unique_keys.
  destruct (existsb (same_key u t) rows) eqn:Hex.
  - by rewrite insert_on_conflict_keys.
  - unfold insert_on_conflict. rewrite Hex, map_app. cbn.
    apply NoDup_app. split; [done|]. split; [|apply NoDup_singleton].
    intros k Hk Hk'. apply list_elem_of_singleton in Hk'. subst k.
    apply existsb_filter_nil in Hex.
    apply list_elem_of_In, in_map_iff in Hk as (r & Hr & Hin).
    assert (In r (List.filter (same_key u t) rows)) as Hf.
    { apply filter_In. split; [done|]. by apply same_key_spec. }
    by rewrite Hex in Hf.
Qed.

Lemma filter_map_conflict (f : row -> row) (rows : list row) :
  (forall r, same_key u t (f r) = same_key u t r) ->
  List.filter (same_key u t)
    (map (fun r => if same_key u t r then f r else r) rows)
  = map f (List.filter (same_key u t) rows).
Proof.
  intros Hf. induction rows as [|r rows IH]; cbn; [done|].
  destruct (same_key u t r) eqn:Hk.
  - rewrite Hf, Hk. cbn. by rewrite IH.
  - by rewrite Hk.
Qed.

(** After the statement there is exactly one row under the key: the row
    in conflict, updated, or the row inserted. *)
Lemma insert_on_conflict_one (rows : list row) :
  unique_keys rows ->
  List.filter (same_key u t) (insert_on_conflict ts nid u t n e i g sys rows)
  = [match List.filter (same_key u t) rows with
     | old :: _ => conflict_update ts n e i g sys old
     | [] => inserted_row ts nid u t n e i g sys
     end].
Proof.
  intros Hu. unfold insert_on_conflict.
  destruct (existsb (same_key u t) rows) eqn:Hex.
  - rewrite filter_map_conflict by done.
    destruct (filter_key_unique u t rows Hu) as [Hnil|[old Hold]].
    + apply existsb_filter_nil in Hnil. congruence.
    + by rewrite Hold.
  - apply existsb_filter_nil in Hex as Hnil.
    rewrite List.filter_app, Hnil. cbn.
    unfold same_key. cbn. by rewrite Z.eqb_refl, String.eqb_refl.
Qed.
End Upsert.

(** ** The credential store *)

Section Store.
Context {RT : Runtime} (E : env) (entropy : nat -> byte).

Lemma saveXeroConnection_run (userId : Z) (tenantId tenantName : string)
    (t : tokens) (isSystem : bool) (w : world) :
  key_configured E ->
  exists encrypted iv tag,
    decryptTokens E encrypted iv tag = Return t
    /\ saveXeroConnection E entropy userId tenantId tenantName t isSystem w
       = (Return
            (returning <$>
               head (affected
                       (InsertOnConflict userId tenantId tenantName
                          encrypted iv tag isSystem) (draw 12 w))),
          execute
            (InsertOnConflict userId tenantId tenantName encrypted iv tag
               isSystem) (draw 12 w)).
Proof.
  intros Hk.
  destruct (encryptTokens_Return E entropy t w Hk) as (e & i & g & He & Hd).
  exists e, i, g. split; [done|].
  unfold saveXeroConnection, bind. by rewrite He.
Qed.

Lemma updateXeroTokens_run (userId : Z) (tenantId : string) (t : tokens)
    (w : world) :
  key_configured E ->
  exists encrypted iv tag,
    decryptTokens E encrypted iv tag = Return t
    /\ updateXeroTokens E entropy userId tenantId t w
       = (Return tt,
          execute (UpdateTokens encrypted iv tag userId tenantId)
            (draw 12 w)).
Proof.
  intros Hk.
  destruct (encryptTokens_Return E entropy t w Hk) as (e & i & g & He & Hd).
  exists e, i, g. split; [done|].
  unfold updateXeroTokens, bind. by rewrite He.
Qed.

Lemma getAllXeroConnections_run (userId : Z) (w : world) :
  getAllXeroConnections userId w
  = (Return
       (map select_listing
          (order_by_last_synced_desc
             (List.filter (fun r => (user_id r =? userId)%Z)
                (xero_connections w)))), w).
Proof. reflexivity. Qed.

Lemma filter_user_tenant (userId : Z) (tenantId : string)
    (rows : list row) :
  List.filter (fun r => String.eqb (tenant_id r) tenantId)
    (List.filter (fun r => (user_id r =? userId)%Z) rows)
  = List.filter (same_key userId tenantId) rows.
Proof.
  induction rows as [|r rows IH]; cbn; [done|].
  unfold same_key at 1.
  destruct (user_id r =? userId)%Z; cbn; [|done].
  destruct (String.eqb (tenant_id r) tenantId); cbn; by rewrite IH.
Qed.
End Store.

Lemma filter_map_comm {A B} (f : A -> B) (p : B -> bool) (l : list A) :
  List.filter p (map f l) = map f (List.filter (fun x => p (f x)) l).
Proof.
  induction l as [|x l IH]; cbn; [done|].
  destruct (p (f x)); cbn; by rewrite IH.
Qed.

Section UpsertTwice.
Context {RT : Runtime} (E : env) (entropy : nat -> byte).

(** C6. Two calls of [saveXeroConnection] with the same
    [(userId, tenantId)] and any two bundles, with a key configured and on a
    table that satisfies [UNIQUE(user_id, tenant_id)], leave exactly one row
    under that key; the row decrypts to the bundle of the second call;
    [getAllXeroConnections] lists that tenant once; and what each call
    returns is the [summary] of the row, its id, tenant id and tenant name,
    a record with no field for tokens, ciphertext, iv or tag. *)
Theorem upsert_keeps_one_record (userId : Z)
    (tenantId name1 name2 : string) (b1 b2 : tokens) (sys1 sys2 : bool)
    (w : world) :
  key_configured E ->
  unique_keys (xero_connections w) ->
  exists (s1 : summary) (w1 : world) (r : row) (w2 : world)
         (ls : list listing),
    saveXeroConnection E entropy userId tenantId name1 b1 sys1 w
    = (Return (Some s1), w1)
    /\ saveXeroConnection E entropy userId tenantId name2 b2 sys2 w1
       = (Return (Some (returning r)), w2)
    /\ List.filter (same_key userId tenantId) (xero_connections w2) = [r]
    /\ decryptTokens E (encrypted_tokens r) (encryption_iv r)
         (encryption_tag r) = Return b2
    /\ summary_id s1 = id r
    /\ returning r
       = {| summary_id := id r; summary_tenant_id := tenantId;
            summary_tenant_name := name2 |}
    /\ unique_keys (xero_connections w2)
    /\ getAllXeroConnections userId w2 = (Return ls, w2)
    /\ List.filter (fun l => String.eqb (listing_tenant_id l) tenantId) ls
       = [select_listing r].
Proof.
  intros Hk Hu.
  destruct (saveXeroConnection_run E entropy userId tenantId name1 b1 sys1
              w Hk) as (e1 & i1 & g1 & _ & Hs1).
  set (w1 := execute (InsertOnConflict userId tenantId name1 e1 i1 g1 sys1)
               (draw 12 w)) in *.
  destruct (saveXeroConnection_run E entropy userId tenantId name2 b2 sys2
              w1 Hk) as (e2 & i2 & g2 & Hd2 & Hs2).
  set (w2 := execute (InsertOnConflict userId tenantId name2 e2 i2 g2 sys2)
               (draw 12 w1)) in *.
  (* the first statement *)
  pose proof (insert_on_conflict_one (clock w) (next_id w) userId tenantId
                name1 e1 i1 g1 sys1 _ Hu) as H1.
  pose proof (insert_on_conflict_unique (clock w) (next_id w) userId
                tenantId name1 e1 i1 g1 sys1 _ Hu) as Hu1.
  set (r1 := match List.filter (same_key userId tenantId)
                     (xero_connections w) with
             | old :: _ => conflict_update (clock w) name1 e1 i1 g1 sys1 old
             | [] => inserted_row (clock w) (next_id w) userId tenantId
                       name1 e1 i1 g1 sys1
             end) in *.
  (* the second statement meets the row of the first *)
  pose proof (insert_on_conflict_one (clock w1) (next_id w1) userId tenantId
                name2 e2 i2 g2 sys2 (xero_connections w1) Hu1) as H2.
  pose proof (insert_on_conflict_unique (clock w1) (next_id w1) userId
                tenantId name2 e2 i2 g2 sys2 _ Hu1) as Hu2.
  change (xero_connections w1)
    with (insert_on_conflict (clock w) (next_id w) userId tenantId name1 e1
            i1 g1 sys1 (xero_connections w)) in H2 at 2.
  rewrite H1 in H2.
  assert (Hkey : tenant_id r1 = tenantId).
  { assert (In r1 (List.filter (same_key userId tenantId)
                     (insert_on_conflict (clock w) (next_id w) userId
                        tenantId name1 e1 i1 g1 sys1 (xero_connections w))))
      as Hin by (rewrite H1; by left).
    apply filter_In in Hin as [_ Hin]. apply same_key_spec in Hin.
    by injection Hin. }
  exists (returning r1), w1,
    (conflict_update (clock w1) name2 e2 i2 g2 sys2 r1), w2.
  eexists.
  split; [|split; [|split; [|split; [|split; [|split; [|split; [|split]]]]]]].
  - rewrite Hs1. unfold affected.
    cbn [apply_statement draw xero_connections clock next_id].
    by rewrite H1.
  - rewrite Hs2. unfold affected.
    change (apply_statement _ (draw 12 w1))
      with (insert_on_conflict (clock w1) (next_id w1) userId tenantId name2
              e2 i2 g2 sys2 (xero_connections w1)).
    by rewrite H2.
  - exact H2.
  - exact Hd2.
  - reflexivity.
  - unfold returning. cbn. by rewrite Hkey.
  - exact Hu2.
  - apply getAllXeroConnections_run.
  - unfold order_by_last_synced_desc.
    rewrite filter_map_comm.
    change [select_listing ?r] with (map select_listing [r]). f_equal.
    apply filter_sorted_singleton.
    cbn [select_listing listing_tenant_id].
    rewrite filter_user_tenant. exact H2.
Qed.
End UpsertTwice.

(** ** The request pipeline *)

Lemma request_run {A} (e : event) (answer : list event -> reply A)
    (w : world) :
  request e answer w = (settled (answer (log w)), record_event e w).
Proof. reflexivity. Qed.

Section Pipeline.
Context {RT : Runtime} (E : env) (P : provider) (entropy : nat -> byte).

Lemma first_decrypted_world (rows : list row) (w : world) :
  (first_decrypted E rows w).2 = w.
Proof.
  unfold first_decrypted. destruct (head _); [|done].
  unfold bind, lift. by destruct (decrypt_row E r).
Qed.

Lemma first_decrypted_Some (rows : list row) (w w' : world)
    (c : stored_connection) :
  first_decrypted E rows w = (Return (Some c), w') ->
  exists r,
    r ∈ rows
    /\ decryptTokens E (encrypted_tokens r) (encryption_iv r)
         (encryption_tag r) = Return (sc_tokens c)
    /\ sc_userId c = user_id r /\ sc_tenantId c = tenant_id r.
Proof.
  unfold first_decrypted.
  destruct (head _) as [r|] eqn:Hh; [|done].
  unfold bind, lift, decrypt_row.
  destruct (decryptTokens E _ _ _) as [t|] eqn:Hd; [|done].
  cbn. intros [= <- _]. exists r. cbn. split; [|done].
  apply head_Some_elem_of in Hh.
  unfold order_by_last_synced_desc in Hh. by rewrite js_sort_perm in Hh.
Qed.

Lemma ensureValidToken_world (userId : Z) (isAdmin : bool)
    (tenantId : option string) (w : world) :
  (ensureValidToken E userId isAdmin tenantId w).2 = w.
Proof.
  unfold ensureValidToken, bind.
  destruct isAdmin.
  - unfold getXeroConnection, bind, select_rows.
    destruct (truthy_str tenantId).
    + pose proof (first_decrypted_world
        (List.filter (same_key userId (default "" tenantId))
           (xero_connections w)) w) as Hw.
      destruct (first_decrypted E _ w) as [[[c|]|] w']; cbn in *; by subst.
    + pose proof (first_decrypted_world
        (List.filter (fun r => (user_id r =? userId)%Z)
           (xero_connections w)) w) as Hw.
      destruct (first_decrypted E _ w) as [[[c|]|] w']; cbn in *; by subst.
  - unfold getSystemXeroConnection, bind, select_rows.
    pose proof (first_decrypted_world
        (List.filter is_system_connection (xero_connections w)) w) as Hw.
    destruct (first_decrypted E _ w) as [[[c|]|] w']; cbn in *; by subst.
Qed.

(** The token information comes from a stored row: its owner and tenant
    are those of the row, its tokens those of the decrypted bundle. *)
Lemma ensureValidToken_Return (userId : Z) (isAdmin : bool)
    (tenantId : option string) (w w' : world) (ti : token_info) :
  ensureValidToken E userId isAdmin tenantId w = (Return ti, w') ->
  exists r t,
    r ∈ xero_connections w
    /\ decryptTokens E (encrypted_tokens r) (encryption_iv r)
         (encryption_tag r) = Return t
    /\ connectionUserId ti = user_id r
    /\ ti_tenantId ti = tenant_id r
    /\ ti_accessToken ti = t !! "access_token"
    /\ ti_refreshToken ti = t !! "refresh_token"
    /\ (isAdmin = true -> user_id r = userId)
    /\ (isAdmin = false -> is_system_connection r = true).
Proof.
  unfold ensureValidToken, bind.
  destruct isAdmin.
  - unfold getXeroConnection, bind, select_rows.
    destruct (truthy_str tenantId).
    + destruct (first_decrypted E _ w) as [[[c|]|] w1] eqn:Hf; try done.
      cbn. intros [= <- _].
      apply first_decrypted_Some in Hf as (r & Hr & Hd & Hu & Ht).
      apply list_elem_of_In, filter_In in Hr as [Hr Hk].
      apply same_key_spec in Hk. injection Hk as Hk _.
      exists r, (sc_tokens c). cbn. rewrite list_elem_of_In. done.
    + destruct (first_decrypted E _ w) as [[[c|]|] w1] eqn:Hf; try done.
      cbn. intros [= <- _].
      apply first_decrypted_Some in Hf as (r & Hr & Hd & Hu & Ht).
      apply list_elem_of_In, filter_In in Hr as [Hr Hk].
      apply Z.eqb_eq in Hk.
      exists r, (sc_tokens c). cbn. rewrite list_elem_of_In. done.
  - unfold getSystemXeroConnection, bind, select_rows.
    destruct (first_decrypted E _ w) as [[[c|]|] w1] eqn:Hf; try done.
    cbn. intros [= <- _].
    apply first_decrypted_Some in Hf as (r & Hr & Hd & Hu & Ht).
    apply list_elem_of_In, filter_In in Hr as [Hr Hk].
    exists r, (sc_tokens c). cbn. rewrite list_elem_of_In. done.
Qed.

Lemma makeRequest_run (ti : token_info) (method urlPath : string)
    (cfg : config) (accessToken : option jsval) (w : world) :
  makeRequest P ti method urlPath cfg accessToken w
  = (settled (xero_api P (log w)
                (request_with ti method urlPath cfg accessToken)),
     record_event (ApiCall (request_with ti method urlPath cfg accessToken))
       w).
Proof. unfold makeRequest. by rewrite request_run. Qed.

Lemma post_token_run (form : token_form) (w : world) :
  post_token P form w
  = (settled (token_endpoint P (log w) form),
     record_event (TokenPost form) w).
Proof. unfold post_token. by rewrite request_run. Qed.

(** A refresh exchange that succeeds: the bundle is stored under the
    given owner and tenant, and its access token is returned. *)
Lemma refreshAccessToken_Fulfilled (userId : Z) (tenantId : string)
    (refreshToken : option jsval) (newTokens : tokens) (w : world) :
  key_configured E ->
  token_endpoint P (log w) (refresh_form E refreshToken)
  = Fulfilled newTokens ->
  exists encrypted iv tag,
    decryptTokens E encrypted iv tag = Return newTokens
    /\ refreshAccessToken E P entropy userId tenantId refreshToken w
       = (Return (newTokens !! "access_token"),
          execute (UpdateTokens encrypted iv tag userId tenantId)
            (draw 12
               (record_event (TokenPost (refresh_form E refreshToken)) w))).
Proof.
  intros Hk Hans.
  destruct (updateXeroTokens_run E entropy userId tenantId newTokens
              (record_event (TokenPost (refresh_form E refreshToken)) w) Hk)
    as (e & i & g & Hd & Hup).
  exists e, i, g. split; [done|].
  unfold refreshAccessToken, bind.
  fold (refresh_form E refreshToken).
  rewrite post_token_run, Hans. cbn [settled]. by rewrite Hup.
Qed.

(** A refresh exchange that fails: its error is thrown and nothing is
    written. *)
Lemma refreshAccessToken_failed (userId : Z) (tenantId : string)
    (refreshToken : option jsval) (err : exn) (w : world) :
  settled (token_endpoint P (log w) (refresh_form E refreshToken))
  = Throw err ->
  refreshAccessToken E P entropy userId tenantId refreshToken w
  = (Throw err, record_event (TokenPost (refresh_form E refreshToken)) w).
Proof.
  intros Hans. unfold refreshAccessToken, bind.
  fold (refresh_form E refreshToken).
  by rewrite post_token_run, Hans.
Qed.

(** [xeroRequest] after the token information is found. *)
Lemma xeroRequest_unfold (userId : Z) (isAdmin : bool)
    (method urlPath : string) (cfg : config) (w : world) (ti : token_info) :
  ensureValidToken E userId isAdmin None w = (Return ti, w) ->
  xeroRequest E P entropy userId isAdmin method urlPath cfg w
  = let first := request_with ti method urlPath cfg (ti_accessToken ti) in
    let w1 := record_event (ApiCall first) w in
    match settled (xero_api P (log w) first) with
    | Return body => (Return body, w1)
    | Throw err =>
        if match exn_status err with
           | Some st => (st =? 401)%Z
           | None => false
           end && truthy (ti_refreshToken ti)
        then
          bind (refreshAccessToken E P entropy (connectionUserId ti)
                  (ti_tenantId ti) (ti_refreshToken ti))
            (fun newAccessToken =>
               makeRequest P ti method urlPath cfg newAccessToken) w1
        else (Throw err, w1)
    end.
Proof.
  intros Hti. unfold xeroRequest, bind at 1. rewrite Hti.
  unfold try_catch. rewrite makeRequest_run. cbn zeta.
  destruct (settled _) as [body|err]; [done|].
  by destruct (_ && _).
Qed.
End Pipeline.

Lemma count_record_event (f : event -> bool) (e : event) (w : world) :
  count_events f (record_event e w)
  = count_events f w + (if f e then 1 else 0).
Proof.
  unfold count_events. cbn. rewrite List.filter_app, length_app. cbn.
  by destruct (f e).
Qed.

Section Bounds.
Context {RT : Runtime} (E : env) (P : provider) (entropy : nat -> byte).

Lemma updateXeroTokens_log (userId : Z) (tenantId : string) (t : tokens)
    (w : world) (f : event -> bool) :
  (forall s, f (Query s) = false) ->
  count_events f (updateXeroTokens E entropy userId tenantId t w).2
  = count_events f w.
Proof.
  intros Hf. unfold updateXeroTokens, bind at 1.
  pose proof (encryptTokens_world E entropy t w) as (_ & Hlog & _).
  destruct (encryptTokens E entropy t w) as [[[[e i] g]|err] w'];
    cbn in Hlog; unfold count_events in *; cbn.
  - rewrite Hlog, List.filter_app. cbn. rewrite Hf. by rewrite app_nil_r.
  - by rewrite Hlog.
Qed.

(** The events of one call: at most two requests to the API and one to
    the token endpoint, and one statement, which [f] does not count. *)
Lemma xeroRequest_count (f : event -> bool) (a b : nat) (userId : Z)
    (isAdmin : bool) (method urlPath : string) (cfg : config) (w : world) :
  (forall s, f (Query s) = false) ->
  (forall r, (if f (ApiCall r) then 1 else 0) <= a) ->
  (forall form, (if f (TokenPost form) then 1 else 0) <= b) ->
  count_events f
    (xeroRequest E P entropy userId isAdmin method urlPath cfg w).2
  <= count_events f w + (2 * a + b).
Proof.
  intros Hq Ha Hb.
  pose proof (ensureValidToken_world E userId isAdmin None w) as Hsame.
  destruct (ensureValidToken E userId isAdmin None w) as [[ti|err] w0] eqn:Hti;
    cbn in Hsame; subst w0.
  2:{ unfold xeroRequest, bind. rewrite Hti. cbn. lia. }
  rewrite (xeroRequest_unfold E P entropy _ _ _ _ _ _ _ Hti). cbn zeta.
  set (first := request_with ti method urlPath cfg (ti_accessToken ti)).
  pose proof (Ha first) as Ha1.
  destruct (settled _) as [body|err].
  { cbn [snd]. rewrite count_record_event. lia. }
  destruct (_ && _).
  2:{ cbn [snd]. rewrite count_record_event. lia. }
  unfold bind at 1, refreshAccessToken, bind at 1.
  rewrite post_token_run.
  set (form := RefreshToken _ _ _). pose proof (Hb form) as Hb1.
  destruct (token_endpoint P _ _) as [t|st body|m]; cbn [settled].
  2,3: cbn [snd]; rewrite !count_record_event; lia.
  set (w2 := record_event (TokenPost form) _).
  pose proof (updateXeroTokens_log (connectionUserId ti) (ti_tenantId ti) t w2
                f Hq) as Hu.
  assert (Hw2 : count_events f w2 <= count_events f w + (a + b))
    by (unfold w2; rewrite !count_record_event; lia).
  unfold bind at 1.
  destruct (updateXeroTokens E entropy _ _ t w2) as [[[]|err'] w3];
    cbn [snd] in Hu |- *.
  - cbn [ret]. rewrite makeRequest_run. cbn [snd].
    rewrite count_record_event, Hu.
    pose proof (Ha (request_with ti method urlPath cfg (t !! "access_token"))).
    lia.
  - rewrite Hu. lia.
Qed.
End Bounds.

Lemma status_401 (message : string) (st : Z) (body : string) :
  match exn_status (AxiosError message (Some (st, body))) with
  | Some s => (s =? 401)%Z
  | None => false
  end = (st =? 401)%Z.
Proof. reflexivity. Qed.

Section PipelineProperties.
Context {RT : Runtime} (E : env) (P : provider) (entropy : nat -> byte).
Context (userId : Z) (isAdmin : bool) (method urlPath : string)
  (cfg : config).

(** C1, under the guard of [xeroRequest]. For a call that finds a record:
    when the first answer is a 401 and the stored refresh token is truthy,
    one refresh exchange is made; when it succeeds, the new bundle is
    written under the owner and tenant of the record that was found, and
    only then the request is made once more, with the new access token;
    what the retry gives, a second 401 included, is the result, and no
    other refresh is made. When the first request fails in another way,
    with another status or without an answer, that failure is the result
    and nothing is refreshed. In every case the call makes at most one
    refresh exchange and at most two requests to the API. *)
Theorem refresh_once_retry_once (w : world) (ti : token_info) :
  ensureValidToken E userId isAdmin None w = (Return ti, w) ->
  let first := request_with ti method urlPath cfg (ti_accessToken ti) in
  let w1 := record_event (ApiCall first) w in
  let form := refresh_form E (ti_refreshToken ti) in
  (exists r, r ∈ xero_connections w
             /\ user_id r = connectionUserId ti
             /\ tenant_id r = ti_tenantId ti)
  /\ (forall body newTokens,
        xero_api P (log w) first = Rejected 401 body ->
        truthy (ti_refreshToken ti) = true ->
        token_endpoint P (log w1) form = Fulfilled newTokens ->
        exists encrypted iv tag,
          let store :=
            UpdateTokens encrypted iv tag (connectionUserId ti)
              (ti_tenantId ti) in
          let w2 :=
            execute store (draw 12 (record_event (TokenPost form) w1)) in
          let retry :=
            request_with ti method urlPath cfg (newTokens !! "access_token") in
          decryptTokens E encrypted iv tag = Return newTokens
          /\ xeroRequest E P entropy userId isAdmin method urlPath cfg w
             = (settled (xero_api P (log w2) retry),
                record_event (ApiCall retry) w2)
          /\ log (record_event (ApiCall retry) w2)
             = (log w ++ [ApiCall first; TokenPost form; Query store;
                          ApiCall retry])%list)
  /\ (forall err,
        settled (xero_api P (log w) first) = Throw err ->
        exn_status err <> Some 401%Z ->
        xeroRequest E P entropy userId isAdmin method urlPath cfg w
        = (Throw err, w1))
  /\ (let w' :=
        (xeroRequest E P entropy userId isAdmin method urlPath cfg w).2 in
      count_events is_refresh w' <= count_events is_refresh w + 1
      /\ count_events is_api_call w' <= count_events is_api_call w + 2).
Proof.
  intros Hti first w1 form.
  pose proof (xeroRequest_unfold E P entropy userId isAdmin method urlPath
                cfg w ti Hti) as Hx. cbn zeta in Hx.
  fold first in Hx. fold w1 in Hx.
  destruct (ensureValidToken_Return E _ _ _ _ _ _ Hti)
    as (r & t & Hr & Hd & Hu & Ht & _).
  split; [by exists r|]. split; [|split].
  - intros body newTokens Hfirst Hrt Hnew.
    apply decryptTokens_key in Hd.
    destruct (refreshAccessToken_Fulfilled E P entropy (connectionUserId ti)
                (ti_tenantId ti) (ti_refreshToken ti) newTokens w1 Hd Hnew)
      as (e & i & g & Hdec & Href).
    exists e, i, g. cbn zeta. split; [done|]. split.
    + rewrite Hx, Hfirst. cbn [settled]. rewrite status_401, Hrt. cbn.
      unfold bind. fold form in Href. rewrite Href.
      apply makeRequest_run.
    + cbn. by rewrite <- !app_assoc.
  - intros err Herr Hst. rewrite Hx, Herr.
    destruct (exn_status err) as [st|]; [|done].
    destruct (Z.eqb_spec st 401); [congruence | done].
  - split.
    + apply (xeroRequest_count E P entropy is_refresh 0 1).
      * reflexivity.
      * intros r0. cbn. lia.
      * intros f. destruct f; cbn; lia.
    + apply (xeroRequest_count E P entropy is_api_call 1 0).
      * reflexivity.
      * intros r0. cbn. lia.
      * intros f. cbn. lia.
Qed.

(** C3, without a name for the failure. When the refresh exchange made
    after a 401 fails (the provider rejects the refresh token, as with an
    [invalid_grant] body, or does not answer), the call fails with the error
    of that exchange as axios raised it, not wrapped and not marked; no
    retry is made, and the table is as it was: no row rewritten, none
    deleted. *)
Theorem failed_refresh_leaves_record (w : world) (ti : token_info)
    (body : payload) (err : exn) :
  ensureValidToken E userId isAdmin None w = (Return ti, w) ->
  let first := request_with ti method urlPath cfg (ti_accessToken ti) in
  let w1 := record_event (ApiCall first) w in
  let form := refresh_form E (ti_refreshToken ti) in
  xero_api P (log w) first = Rejected 401 body ->
  truthy (ti_refreshToken ti) = true ->
  settled (token_endpoint P (log w1) form) = Throw err ->
  exists w',
    xeroRequest E P entropy userId isAdmin method urlPath cfg w
    = (Throw err, w')
    /\ xero_connections w' = xero_connections w
    /\ log w' = (log w ++ [ApiCall first; TokenPost form])%list.
Proof.
  intros Hti first w1 form Hfirst Hrt Hfail.
  pose proof (xeroRequest_unfold E P entropy userId isAdmin method urlPath
                cfg w ti Hti) as Hx. cbn zeta in Hx.
  fold first in Hx. fold w1 in Hx.
  exists (record_event (TokenPost form) w1). split; [|split].
  - rewrite Hx, Hfirst. cbn [settled]. rewrite status_401, Hrt. cbn.
    unfold bind.
    by rewrite (refreshAccessToken_failed E P entropy _ _ _ err w1 Hfail).
  - reflexivity.
  - cbn. by rewrite <- app_assoc.
Qed.

(** C10. When the refresh token of the stored bundle is missing or empty,
    a 401 from the API is thrown to the caller as it is, and no request is
    made to the token endpoint. *)
Theorem no_refresh_without_refresh_token (w : world) (ti : token_info)
    (body : payload) :
  ensureValidToken E userId isAdmin None w = (Return ti, w) ->
  let first := request_with ti method urlPath cfg (ti_accessToken ti) in
  ti_refreshToken ti = None \/ ti_refreshToken ti = Some (JStr "") ->
  xero_api P (log w) first = Rejected 401 body ->
  exists w',
    xeroRequest E P entropy userId isAdmin method urlPath cfg w
    = (settled (Rejected 401 body), w')
    /\ log w' = (log w ++ [ApiCall first])%list
    /\ xero_connections w' = xero_connections w
    /\ count_events is_token_post w' = count_events is_token_post w.
Proof.
  intros Hti first Hrt Hfirst.
  pose proof (xeroRequest_unfold E P entropy userId isAdmin method urlPath
                cfg w ti Hti) as Hx. cbn zeta in Hx. fold first in Hx.
  exists (record_event (ApiCall first) w).
  split; [|split; [done|split; [done|]]].
  - rewrite Hx, Hfirst. cbn [settled]. rewrite status_401.
    by destruct Hrt as [-> | ->].
  - unfold count_events. cbn. rewrite List.filter_app. cbn.
    by rewrite app_nil_r.
Qed.
End PipelineProperties.

(** ** The OAuth callback *)

Section Callback.
Context {RT : Runtime} (E : env) (P : provider) (entropy : nat -> byte).

Lemma state_rejected_spec (req : http_request) :
  query_state req = None
  \/ session_userId req = None
  \/ (exists u, session_userId req = Some u
                /\ query_state req <> Some (string_of_Z u)) ->
  state_rejected req = true.
Proof.
  unfold state_rejected.
  intros [Hs | [Hu | (u & Hu & Hne)]].
  - by rewrite Hs.
  - rewrite Hu. apply orb_true_r.
  - rewrite Hu. destruct (query_state req) as [s|]; [|done].
    cbn [default]. rewrite !orb_true_iff. right. right.
    apply negb_true_iff, String.eqb_neq. intros Heq.
    apply Hne. f_equal. exact Heq.
Qed.

(** C7. A callback whose [state] is absent, or that has no session user,
    or whose [state] is not the identity of the session user, is answered
    with the failure page before anything else happens: the world is
    unchanged, so no request was made to the token endpoint. *)
Theorem callback_rejects_state (req : http_request) (w : world) :
  query_state req = None
  \/ session_userId req = None
  \/ (exists u, session_userId req = Some u
                /\ query_state req <> Some (string_of_Z u)) ->
  callback E P entropy req w
  = (Return (failure_page (Error "Invalid state parameter")), w)
  /\ count_events is_token_post (callback E P entropy req w).2
     = count_events is_token_post w.
Proof.
  intros H. apply state_rejected_spec in H.
  assert (Hc : callback E P entropy req w
               = (Return (failure_page (Error "Invalid state parameter")), w)).
  { unfold callback, try_catch, callback_body. by rewrite H. }
  by rewrite Hc.
Qed.

Lemma get_connections_run (authorization : string) (w : world) :
  get_connections P authorization w
  = (settled (connections_endpoint P (log w) authorization),
     record_event (ConnectionsGet authorization) w).
Proof. unfold get_connections. by rewrite request_run. Qed.

Lemma state_accepted_user (req : http_request) :
  state_rejected req = false ->
  exists u, session_userId req = Some u
            /\ req_userId req = Some u
            /\ query_state req = Some (string_of_Z u).
Proof.
  unfold state_rejected, req_userId.
  destruct (session_userId req) as [u|]; [|by rewrite orb_true_r].
  rewrite !orb_false_iff, negb_false_iff. intros (Hs & Hu & Heq).
  rewrite Hu. exists u. split; [done|]. split; [done|].
  destruct (query_state req) as [s|]; [|done].
  apply negb_false_iff, String.eqb_eq in Heq. f_equal. exact Heq.
Qed.

(** The callback up to the listing of the organisations. *)
Ltac callback_to_listing E req t Hst Htok Hconn :=
  unfold callback, try_catch, callback_body;
  rewrite Hst; unfold bind at 1;
  fold (grant_form E req);
  rewrite post_token_run, Htok; cbn [settled];
  unfold bind at 1;
  fold (bearer t);
  rewrite get_connections_run, Hconn; cbn [settled].

(** C8, for listings whose dates are dates. After a grant exchange that
    succeeds: when the listing holds organisations and the [createdDateUtc]
    of each is a valid date, the callback saves the one with the greatest
    [createdDateUtc], under the session user; when the listing is empty, it
    answers with status 400 and the page for no organisation, and writes
    nothing. *)
Theorem callback_selects_latest (req : http_request) (w : world)
    (t : tokens) (body : option (list connection)) :
  state_rejected req = false ->
  let w1 := record_event (TokenPost (grant_form E req)) w in
  let w2 := record_event (ConnectionsGet (bearer t)) w1 in
  token_endpoint P (log w) (grant_form E req) = Fulfilled t ->
  connections_endpoint P (log w1) (bearer t) = Fulfilled body ->
  (forall conns,
     body = Some conns ->
     conns <> [] ->
     (forall c, c ∈ conns -> is_Some (Date_getTime (createdDateUtc c))) ->
     exists chosen latest u,
       chosen ∈ conns
       /\ Date_getTime (createdDateUtc chosen) = Some latest
       /\ (forall c time,
             c ∈ conns -> Date_getTime (createdDateUtc c) = Some time ->
             (time <= latest)%Z)
       /\ session_userId req = Some u
       /\ callback E P entropy req w
          = try_catch
              (saveXeroConnection E entropy u (conn_tenantId chosen)
                 (conn_tenantName chosen) t (req_isAdmin req) ;;;
               ret (Redirect (if req_isAdmin req
                              then "/admin?connected=true"
                              else "/?connected=true")))
              (fun error => ret (failure_page error)) w2
       /\ (key_configured E ->
           exists encrypted iv tag,
             decryptTokens E encrypted iv tag = Return t
             /\ callback E P entropy req w
                = (Return (Redirect (if req_isAdmin req
                                     then "/admin?connected=true"
                                     else "/?connected=true")),
                   execute
                     (InsertOnConflict u (conn_tenantId chosen)
                        (conn_tenantName chosen) encrypted iv tag
                        (req_isAdmin req)) (draw 12 w2))))
  /\ (body = None \/ body = Some [] ->
      callback E P entropy req w
      = (Return
           (Send 400
              ("<h1>No Xero Organizations Found</h1>"
               ++ "<p>Please ensure you have access to at least one "
               ++ "Xero organization.</p>")), w2)
      /\ xero_connections w2 = xero_connections w
      /\ count_events is_query w2 = count_events is_query w).
Proof.
  intros Hst w1 w2 Htok Hconn. unfold w1 in Hconn.
  split.
  - intros conns -> Hne Hvalid.
    destruct (head (js_sort by_created_desc conns)) as [chosen|] eqn:Hh.
    2:{ apply head_None, js_sort_nil_inv in Hh. done. }
    pose (key := fun c : connection =>
                   default 0%Z (Date_getTime (createdDateUtc c))).
    destruct (js_sort_head_greatest by_created_desc key conns chosen)
      as [Hin Hmax]; [|done|].
    { intros a b Ha Hb. unfold by_created_desc, key.
      destruct (Hvalid a Ha) as [ta ->], (Hvalid b Hb) as [tb ->]. done. }
    destruct (Hvalid chosen Hin) as [latest Hl].
    destruct (state_accepted_user req Hst) as (u & Hsu & Hru & _).
    assert (Hrun : callback E P entropy req w
                   = try_catch
                       (saveXeroConnection E entropy u (conn_tenantId chosen)
                          (conn_tenantName chosen) t (req_isAdmin req) ;;;
                        ret (Redirect (if req_isAdmin req
                                       then "/admin?connected=true"
                                       else "/?connected=true")))
                       (fun error => ret (failure_page error)) w2).
    { callback_to_listing E req t Hst Htok Hconn.
      destruct conns as [|c0 conns]; [done|]. cbn [length Nat.eqb default].
      change (Datatypes.id (c0 :: conns)) with (c0 :: conns).
      rewrite Hh, Hru. reflexivity. }
    exists chosen, latest, u.
    split; [done|]. split; [done|]. split.
    { intros c time Hc Ht. specialize (Hmax c Hc). unfold key in Hmax.
      rewrite Ht, Hl in Hmax. exact Hmax. }
    split; [done|]. split; [exact Hrun|].
    intros Hk.
    destruct (saveXeroConnection_run E entropy u (conn_tenantId chosen)
                (conn_tenantName chosen) t (req_isAdmin req) w2 Hk)
      as (e & i & g & Hd & Hsave).
    exists e, i, g. split; [done|].
    rewrite Hrun. unfold try_catch, bind, ret. by rewrite Hsave.
  - intros Hempty. split; [|split; [done|]].
    + callback_to_listing E req t Hst Htok Hconn.
      by destruct Hempty as [-> | ->].
    + unfold count_events. cbn. rewrite !List.filter_app. cbn.
      by rewrite !app_nil_r.
Qed.
End Callback.

(** ** The constraint of the table is kept *)

Section Keeps.
Context (I : list row -> Prop).

Lemma keeps_ret {A} (a : A) : keeps I (ret a).
Proof. by intros w. Qed.

Lemma keeps_throw {A} (e : exn) : keeps I (throw e : M A).
Proof. by intros w. Qed.

Lemma keeps_lift {A} (o : outcome A) : keeps I (lift o).
Proof. by intros w. Qed.

Lemma keeps_bind {A B} (c : M A) (k : A -> M B) :
  keeps I c -> (forall a, keeps I (k a)) -> keeps I (bind c k).
Proof.
  intros Hc Hk w Hw. unfold bind. specialize (Hc w Hw).
  destruct (c w) as [[a|e] w']; [by apply Hk | done].
Qed.

Lemma keeps_try_catch {A} (c : M A) (h : exn -> M A) :
  keeps I c -> (forall e, keeps I (h e)) -> keeps I (try_catch c h).
Proof.
  intros Hc Hh w Hw. unfold try_catch. specialize (Hc w Hw).
  destruct (c w) as [[a|e] w']; [done | by apply Hh].
Qed.

Lemma keeps_request {A} (e : event) (answer : list event -> reply A) :
  keeps I (request e answer).
Proof. intros w Hw. by rewrite request_run. Qed.

Lemma keeps_select_rows : keeps I select_rows.
Proof. by intros w. Qed.

Lemma keeps_randomBytes (entropy : nat -> byte) (n : nat) :
  keeps I (randomBytes entropy n).
Proof. by intros w. Qed.

Lemma keeps_pool_query (s : statement) :
  (forall w, I (xero_connections w) -> I (apply_statement s w)) ->
  keeps I (pool_query s).
Proof. intros Hs w Hw. by apply Hs. Qed.
End Keeps.

Lemma NoDup_filter_keys (f : row -> bool) (rows : list row) :
  unique_keys rows -> unique_keys (List.filter f rows).
Proof.
  unfold unique_keys. induction rows as [|r rows IH]; cbn; [done|].
  intros Hnd. apply NoDup_cons in Hnd as [Hn Hnd].
  destruct (f r); cbn; [|by apply IH].
  apply NoDup_cons. split; [|by apply IH].
  intros Hin. apply Hn.
  apply list_elem_of_In, in_map_iff in Hin as (r' & Hr' & Hin).
  apply list_elem_of_In, in_map_iff. exists r'. split; [done|].
  apply filter_In in Hin. tauto.
Qed.

Lemma apply_statement_unique (s : statement) (w : world) :
  unique_keys (xero_connections w) -> unique_keys (apply_statement s w).
Proof.
  intros Hu. destruct s; cbn.
  - by apply insert_on_conflict_unique.
  - unfold unique_keys, update_tokens. rewrite map_map.
    erewrite map_ext; [exact Hu|].
    intros r. by destruct (same_key _ _ r).
  - by apply NoDup_filter_keys.
  - by apply NoDup_filter_keys.
Qed.

Section Unique.
Context {RT : Runtime} (E : env) (P : provider) (entropy : nat -> byte).

Ltac keeps_step :=
  first
    [ apply keeps_ret | apply keeps_throw | apply keeps_lift
    | apply keeps_request | apply keeps_select_rows | apply keeps_randomBytes
    | apply keeps_pool_query; intros; by apply apply_statement_unique
    | apply keeps_bind; [|intros ?]
    | apply keeps_try_catch; [|intros ?] ].

Lemma encryptTokens_keeps (t : tokens) :
  keeps unique_keys (encryptTokens E entropy t).
Proof.
  unfold encryptTokens.
  repeat first [ keeps_step | match goal with
                              | |- keeps _ (if ?b then _ else _) => destruct b
                              end ].
Qed.

Lemma saveXeroConnection_keeps (u : Z) (tid n : string) (t : tokens)
    (sys : bool) :
  keeps unique_keys (saveXeroConnection E entropy u tid n t sys).
Proof.
  unfold saveXeroConnection.
  apply keeps_bind; [apply encryptTokens_keeps|]. intros [[e i] g].
  repeat keeps_step.
Qed.

Lemma updateXeroTokens_keeps (u : Z) (tid : string) (t : tokens) :
  keeps unique_keys (updateXeroTokens E entropy u tid t).
Proof.
  unfold updateXeroTokens.
  apply keeps_bind; [apply encryptTokens_keeps|]. intros [[e i] g].
  repeat keeps_step.
Qed.

Lemma callback_keeps (req : http_request) :
  keeps unique_keys (callback E P entropy req).
Proof.
  unfold callback, callback_body, post_token, get_connections.
  repeat first
    [ apply saveXeroConnection_keeps
    | keeps_step
    | match goal with
      | |- keeps _ (if ?b then _ else _) => destruct b
      | |- keeps _ (match ?o with Some _ => _ | None => _ end) => destruct o
      end ].
Qed.

Lemma xeroRequest_keeps (userId : Z) (isAdmin : bool)
    (method urlPath : string) (cfg : config) :
  keeps unique_keys
    (xeroRequest E P entropy userId isAdmin method urlPath cfg).
Proof.
  intros w Hw.
  pose proof (ensureValidToken_world E userId isAdmin None w) as Hsame.
  unfold xeroRequest, bind at 1.
  destruct (ensureValidToken E userId isAdmin None w) as [[ti|err] w0];
    cbn in Hsame; subst w0; [|done].
  revert w Hw. change (keeps unique_keys
    (try_catch
       (makeRequest P ti method urlPath cfg (ti_accessToken ti))
       (fun err =>
          if match exn_status err with
             | Some st => (st =? 401)%Z
             | None => false
             end && truthy (ti_refreshToken ti)
          then
            let* newAccessToken :=
              refreshAccessToken E P entropy (connectionUserId ti)
                (ti_tenantId ti) (ti_refreshToken ti) in
            makeRequest P ti method urlPath cfg newAccessToken
          else throw err))).
  unfold makeRequest, refreshAccessToken, post_token.
  repeat first
    [ apply updateXeroTokens_keeps
    | keeps_step
    | match goal with
      | |- keeps _ (if ?b then _ else _) => destruct b
      end ].
Qed.

(** Every operation on the store keeps [UNIQUE(user_id, tenant_id)]. *)
Lemma store_step_unique (w w' : world) :
  store_step E P entropy w w' ->
  unique_keys (xero_connections w) -> unique_keys (xero_connections w').
Proof.
  intros Hstep Hw. destruct Hstep as [req w|u a m p c w|u t w|w].
  - by apply callback_keeps.
  - by apply xeroRequest_keeps.
  - by apply (apply_statement_unique (DeleteConnection u t)).
  - by apply (apply_statement_unique DeleteSystemConnection).
Qed.

Lemma reachable_unique (w0 w : world) :
  rtc (store_step E P entropy) w0 w ->
  unique_keys (xero_connections w0) -> unique_keys (xero_connections w).
Proof.
  induction 1 as [|w1 w2 w3 Hstep _ IH]; [done|].
  intros Hw. apply IH. by apply (store_step_unique w1).
Qed.
End Unique.

(** ** The invariant of the store *)

Section Invariant.
Context {RT : Runtime} (E : env) (P : provider) (entropy : nat -> byte).

Lemma encryptTokens_inv (t : tokens) (w w' : world)
    (encrypted iv tag : string) :
  encryptTokens E entropy t w = (Return (encrypted, iv, tag), w') ->
  decryptTokens E encrypted iv tag = Return t /\ w' = draw 12 w.
Proof.
  intros He.
  assert (Hk : key_configured E).
  { revert He. unfold encryptTokens, key_configured, key_of, configured_key.
    destruct (truthy_str _); cbn [negb]; [|done].
    destruct (Nat.eqb_spec (length (Base64.decode
      (default "" (js_or (PREDITOR_TOKEN_KEY E) (PRODIT_TOKEN_KEY E))))) 32);
      done. }
  destruct (encryptTokens_Return E entropy t w Hk) as (e & i & g & He' & Hd).
  rewrite He in He'. by injection He' as -> -> -> ->.
Qed.

Lemma insert_on_conflict_complete (ts nid u : Z) (t n e i g : string)
    (sys : bool) (rows : list row) (b : tokens) :
  decryptTokens E e i g = Return b -> complete b = true ->
  Forall (row_complete E) rows ->
  Forall (row_complete E) (insert_on_conflict ts nid u t n e i g sys rows).
Proof.
  intros Hd Hc Hrows. unfold insert_on_conflict.
  assert (Hnew : forall r, row_complete E (conflict_update ts n e i g sys r))
    by (intros r; by exists b).
  destruct (existsb _ rows).
  - apply Forall_forall. intros r Hr.
    apply list_elem_of_In, in_map_iff in Hr as (r0 & <- & Hr0).
    destruct (same_key u t r0); [done|].
    rewrite Forall_forall in Hrows. by apply Hrows, list_elem_of_In.
  - apply Forall_app. split; [done|].
    apply Forall_singleton. by exists b.
Qed.

Lemma update_tokens_complete (ts u : Z) (t e i g : string)
    (rows : list row) (b : tokens) :
  decryptTokens E e i g = Return b -> complete b = true ->
  Forall (row_complete E) rows ->
  Forall (row_complete E) (update_tokens ts e i g u t rows).
Proof.
  intros Hd Hc Hrows. unfold update_tokens.
  apply Forall_forall. intros r Hr.
  apply list_elem_of_In, in_map_iff in Hr as (r0 & <- & Hr0).
  destruct (same_key u t r0); [by exists b|].
  rewrite Forall_forall in Hrows. by apply Hrows, list_elem_of_In.
Qed.

Lemma filter_complete (f : row -> bool) (rows : list row) :
  Forall (row_complete E) rows -> Forall (row_complete E) (List.filter f rows).
Proof.
  rewrite !Forall_forall. intros H r Hr.
  apply H. apply list_elem_of_In. apply list_elem_of_In, filter_In in Hr.
  tauto.
Qed.

Local Abbreviation Inv w := (Forall (row_complete E) (xero_connections w)).

Lemma saveXeroConnection_complete (u : Z) (tid n : string) (t : tokens)
    (sys : bool) (w : world) :
  complete t = true -> Inv w ->
  Inv (saveXeroConnection E entropy u tid n t sys w).2.
Proof.
  intros Hc Hw. unfold saveXeroConnection, bind at 1.
  destruct (encryptTokens E entropy t w) as [[[[e i] g]|err] w'] eqn:He.
  - apply encryptTokens_inv in He as [Hd ->]. cbn.
    by apply (insert_on_conflict_complete _ _ _ _ _ _ _ _ _ _ t).
  - pose proof (encryptTokens_world E entropy t w) as (Hx & _).
    rewrite He in Hx. cbn in *. by rewrite Hx.
Qed.

Lemma updateXeroTokens_complete (u : Z) (tid : string) (t : tokens)
    (w : world) :
  complete t = true -> Inv w ->
  Inv (updateXeroTokens E entropy u tid t w).2.
Proof.
  intros Hc Hw. unfold updateXeroTokens, bind at 1.
  destruct (encryptTokens E entropy t w) as [[[[e i] g]|err] w'] eqn:He.
  - apply encryptTokens_inv in He as [Hd ->]. cbn.
    by apply (update_tokens_complete _ _ _ _ _ _ _ t).
  - pose proof (encryptTokens_world E entropy t w) as (Hx & _).
    rewrite He in Hx. cbn in *. by rewrite Hx.
Qed.

Lemma callback_complete (req : http_request) (w : world) :
  answers_complete P -> Inv w -> Inv (callback E P entropy req w).2.
Proof.
  intros HP Hw. unfold callback, try_catch, callback_body.
  destruct (state_rejected req); [done|].
  unfold bind at 1. rewrite post_token_run.
  destruct (token_endpoint P (log w) _) as [t|st b|m] eqn:Ht; cbn [settled];
    [|done..].
  apply HP in Ht.
  unfold bind at 1. rewrite get_connections_run.
  destruct (connections_endpoint P _ _) as [conns|st b|m]; cbn [settled];
    [|done..].
  destruct (match conns with None => true | Some l => (length l =? 0)%nat end);
    [done|].
  destruct (head _) as [chosen|]; [|done].
  destruct (req_userId req) as [u|]; [|done].
  unfold bind at 1. cbn [ret].
  set (w2 := record_event _ (record_event _ w)).
  pose proof (saveXeroConnection_complete u (conn_tenantId chosen)
                (conn_tenantName chosen) t (req_isAdmin req) w2 Ht Hw) as Hs.
  unfold bind.
  destruct (saveXeroConnection E entropy u _ _ t _ w2) as [[s|err] w3];
    exact Hs.
Qed.

Lemma xeroRequest_complete (userId : Z) (isAdmin : bool)
    (method urlPath : string) (cfg : config) (w : world) :
  answers_complete P -> Inv w ->
  Inv (xeroRequest E P entropy userId isAdmin method urlPath cfg w).2.
Proof.
  intros HP Hw.
  pose proof (ensureValidToken_world E userId isAdmin None w) as Hsame.
  destruct (ensureValidToken E userId isAdmin None w) as [[ti|err] w0] eqn:Hti;
    cbn in Hsame; subst w0.
  2:{ unfold xeroRequest, bind. by rewrite Hti. }
  rewrite (xeroRequest_unfold E P entropy _ _ _ _ _ _ _ Hti). cbn zeta.
  destruct (settled _) as [body|err]; [done|].
  destruct (_ && _); [|done].
  unfold bind at 1, refreshAccessToken, bind at 1.
  rewrite post_token_run.
  destruct (token_endpoint P _ _) as [t|st b|m] eqn:Ht; cbn [settled];
    [|done..].
  apply HP in Ht.
  set (w2 := record_event (TokenPost _) _).
  pose proof (updateXeroTokens_complete (connectionUserId ti)
                (ti_tenantId ti) t w2 Ht Hw) as Hs.
  unfold bind at 1.
  destruct (updateXeroTokens E entropy _ _ t w2) as [[[]|err'] w3];
    [|exact Hs].
  cbn [ret]. by rewrite makeRequest_run.
Qed.

Lemma store_step_complete (w w' : world) :
  answers_complete P -> store_step E P entropy w w' -> Inv w -> Inv w'.
Proof.
  intros HP Hstep Hw. destruct Hstep.
  - by apply callback_complete.
  - by apply xeroRequest_complete.
  - cbn. by apply filter_complete.
  - cbn. by apply filter_complete.
Qed.

(** C9, for a provider whose successful token answers hold both tokens.
    From a table in which every row decrypts to a bundle with an access
    token and a refresh token, every sequence of operations on the store
    (callbacks, calls through the pipeline, disconnections) leads to such a
    table: a bundle is stored as the provider gave it, whole. *)
Theorem stored_bundles_complete (w0 w : world) :
  answers_complete P ->
  stored_complete E (xero_connections w0) ->
  rtc (store_step E P entropy) w0 w ->
  stored_complete E (xero_connections w).
Proof.
  intros HP H0 Hreach. unfold stored_complete in *.
  induction Hreach as [|w1 w2 w3 Hstep _ IH]; [done|].
  apply IH. by apply (store_step_complete w1).
Qed.
End Invariant.

(** ** The round trip of the cipher, and its key *)

(** C2. With a key configured that decodes to 32 bytes, [encryptTokens]
    succeeds on every bundle, and [decryptTokens] on its ciphertext, iv and
    tag gives back the bundle. *)
Theorem decrypt_encrypt_roundtrip `{RT : Runtime} (E : env)
    (entropy : nat -> byte) (b : tokens) (w : world) :
  key_configured E ->
  exists encrypted iv tag w',
    encryptTokens E entropy b w = (Return (encrypted, iv, tag), w')
    /\ decryptTokens E encrypted iv tag = Return b.
Proof.
  intros Hk.
  destruct (encryptTokens_Return E entropy b w Hk) as (e & i & g & He & Hd).
  by exists e, i, g, (draw 12 w).
Qed.

(** The stale bundle sealed and opened under the key of the model
    environment. *)
Lemma decrypt_encrypt_roundtrip_witness :
  key_configured Model.environment
  /\ exists encrypted iv tag w',
       encryptTokens Model.environment Model.entropy Scenario.stale Model.start
       = (Return (encrypted, iv, tag), w')
       /\ decryptTokens Model.environment encrypted iv tag
          = Return Scenario.stale.
Proof.
  assert (Hk : key_configured Model.environment)
    by (split; vm_compute; reflexivity).
  split; [exact Hk|].
  exact (decrypt_encrypt_roundtrip Model.environment Model.entropy
           Scenario.stale Model.start Hk).
Defined.

(** C4, at a key of 16 bytes. [decryptTokens] does not check the length
    of the key, which [encryptTokens] does: it goes on to
    [createDecipheriv], and what fails is the construction of the decipher,
    with the error of [crypto]; [encryptTokens] throws its own error for the
    same key. *)
Theorem decryptTokens_short_key `{RT : Runtime} (entropy : nat -> byte)
    (encrypted iv tag : string) (b : tokens) (w : world) :
  length (key_of Scenario.short_key) = 16
  /\ decryptTokens Scenario.short_key encrypted iv tag
     = Throw (RangeError "Invalid key length")
  /\ encryptTokens Scenario.short_key entropy b w
     = (Throw (Error
         "Invalid encryption key length. Must be 32 bytes (base64 encoded)."),
        w).
Proof. repeat split. Qed.


(** ** The scenarios, evaluated *)

Section Scenarios.
Import Model Scenario.

Lemma environment_key : key_configured environment.
Proof. split; vm_compute; reflexivity. Qed.

Lemma found_stale :
  ensureValidToken environment 7 true None (connected stale)
  = (Return (found "tenant-7" stale), connected stale).
Proof. vm_compute. reflexivity. Qed.

Lemma found_access_only :
  ensureValidToken environment 7 true None (granted forgetful)
  = (Return (found "tenant-jun" access_only), granted forgetful).
Proof. vm_compute. reflexivity. Qed.

(** Scenario C: a 401, a refresh that succeeds, and the retry; and an
    answer 500, which is passed on. *)
Lemma refresh_once_retry_once_witness :
  exists encrypted iv tag final,
    decryptTokens environment encrypted iv tag = Return fresh
    /\ xeroRequest environment refreshing entropy 7 true "get" "/Items" plain
         (connected stale)
       = (Return "{Items:[]}", final)
    /\ log final
       = (log (connected stale)
          ++ [ApiCall (request_with (found "tenant-7" stale) "get" "/Items"
                         plain (Some (JStr "AT-1")));
              TokenPost (refresh_form environment (Some (JStr "RT-1")));
              Query (UpdateTokens encrypted iv tag 7 "tenant-7");
              ApiCall (request_with (found "tenant-7" stale) "get" "/Items"
                         plain (Some (JStr "AT-2")))])%list
    /\ xeroRequest environment unavailable entropy 7 true "get" "/Items" plain
         (connected stale)
       = (settled (Rejected 500 "InternalError"),
          record_event
            (ApiCall (request_with (found "tenant-7" stale) "get" "/Items"
                        plain (Some (JStr "AT-1")))) (connected stale)).
Proof.
  destruct (refresh_once_retry_once environment refreshing entropy 7 true
              "get" "/Items" plain (connected stale) (found "tenant-7" stale)
              found_stale) as (_ & Hrefresh & _).
  destruct (Hrefresh "AuthenticationUnsuccessful" fresh
              eq_refl eq_refl eq_refl)
    as (e & i & g & Hd & Hrun & Hlog).
  destruct (refresh_once_retry_once environment unavailable entropy 7 true
              "get" "/Items" plain (connected stale) (found "tenant-7" stale)
              found_stale) as (_ & _ & Hother & _).
  exists e, i, g. eexists.
  split; [exact Hd|]. split; [|split].
  - rewrite Hrun. f_equal.
  - exact Hlog.
  - apply Hother; [reflexivity | discriminate].
Defined.

(** C1 as stated fails. The token endpoint left the refresh token out of
    the grant, the callback stored the bundle, and the API answers 401 to
    the first request: no refresh exchange is made, the 401 is the
    result. *)
Lemma refresh_on_every_401_counterexample :
  let w := granted forgetful in
  let first :=
    request_with (found "tenant-jun" access_only) "get" "/Items" plain
      (Some (JStr "AT-3")) in
  let run :=
    xeroRequest environment forgetful entropy 7 true "get" "/Items" plain w in
  ensureValidToken environment 7 true None w
  = (Return (found "tenant-jun" access_only), w)
  /\ xero_api forgetful (log w) first
     = Rejected 401 "AuthenticationUnsuccessful"
  /\ run.1 = settled (Rejected 401 "AuthenticationUnsuccessful")
  /\ count_events is_refresh run.2 = 0
  /\ count_events is_api_call run.2 = 1.
Proof. vm_compute. repeat split. Qed.

(** Scenario D: the provider rejects the refresh token. *)
Lemma failed_refresh_leaves_record_witness :
  let w := connected stale in
  let first :=
    request_with (found "tenant-7" stale) "get" "/Items" plain
      (Some (JStr "AT-1")) in
  let err :=
    AxiosError "Request failed with status code 400"
      (Some (400%Z, "{error:invalid_grant}")) in
  exists w',
    xeroRequest environment rejecting entropy 7 true "get" "/Items" plain w
    = (Throw err, w')
    /\ xero_connections w' = xero_connections w
    /\ log w'
       = (log w
          ++ [ApiCall first;
              TokenPost (refresh_form environment (Some (JStr "RT-1")))])%list.
Proof.
  exact (failed_refresh_leaves_record environment rejecting entropy 7 true
           "get" "/Items" plain (connected stale) (found "tenant-7" stale)
           "AuthenticationUnsuccessful"
           (AxiosError "Request failed with status code 400"
              (Some (400%Z, "{error:invalid_grant}")))
           found_stale eq_refl eq_refl eq_refl).
Defined.

(** A 401 for a stored bundle without a refresh token. *)
Lemma no_refresh_without_refresh_token_witness :
  let w := granted forgetful in
  let first :=
    request_with (found "tenant-jun" access_only) "get" "/Items" plain
      (Some (JStr "AT-3")) in
  exists w',
    xeroRequest environment forgetful entropy 7 true "get" "/Items" plain w
    = (settled (Rejected 401 "AuthenticationUnsuccessful"), w')
    /\ log w' = (log w ++ [ApiCall first])%list
    /\ xero_connections w' = xero_connections w
    /\ count_events is_token_post w' = count_events is_token_post w.
Proof.
  exact (no_refresh_without_refresh_token environment forgetful entropy 7
           true "get" "/Items" plain (granted forgetful)
           (found "tenant-jun" access_only) "AuthenticationUnsuccessful"
           found_access_only (or_introl eq_refl) eq_refl).
Defined.

(** Owner 7 connects the same tenant twice. *)
Lemma upsert_keeps_one_record_witness :
  exists (s1 : summary) (w1 : world) (r : row) (w2 : world)
         (ls : list listing),
    saveXeroConnection environment entropy 7 "tenant-7" "Seven Ltd" stale
      true start = (Return (Some s1), w1)
    /\ saveXeroConnection environment entropy 7 "tenant-7" "Seven Limited"
         fresh true w1 = (Return (Some (returning r)), w2)
    /\ List.filter (same_key 7 "tenant-7") (xero_connections w2) = [r]
    /\ decryptTokens environment (encrypted_tokens r) (encryption_iv r)
         (encryption_tag r) = Return fresh
    /\ summary_id s1 = id r
    /\ returning r
       = {| summary_id := id r; summary_tenant_id := "tenant-7";
            summary_tenant_name := "Seven Limited" |}
    /\ unique_keys (xero_connections w2)
    /\ getAllXeroConnections 7 w2 = (Return ls, w2)
    /\ List.filter (fun l => String.eqb (listing_tenant_id l) "tenant-7") ls
       = [select_listing r].
Proof.
  apply (upsert_keeps_one_record environment entropy 7 "tenant-7" "Seven Ltd"
           "Seven Limited" stale fresh true true start environment_key).
  apply NoDup_nil_2.
Defined.

(** A callback with the state of another user. *)
Lemma callback_rejects_state_witness :
  callback environment refreshing entropy forged start
  = (Return (failure_page (Error "Invalid state parameter")), start)
  /\ count_events is_token_post
       (callback environment refreshing entropy forged start).2
     = count_events is_token_post start.
Proof.
  apply (callback_rejects_state environment refreshing entropy forged start).
  right. right. exists 7%Z. split; [reflexivity | discriminate].
Defined.

(** Scenario E: of the organisations of 2024-01-01 and 2024-06-01, the
    second is saved; and an empty listing. *)
Lemma callback_selects_latest_witness :
  (exists encrypted iv tag,
     decryptTokens environment encrypted iv tag = Return fresh
     /\ callback environment refreshing entropy returning_owner start
        = (Return (Redirect "/admin?connected=true"),
           execute
             (InsertOnConflict 7 "tenant-jun" "June Ltd" encrypted iv tag true)
             (draw 12
                (record_event (ConnectionsGet (bearer fresh))
                   (record_event
                      (TokenPost (grant_form environment returning_owner))
                      start)))))
  /\ callback environment unlisted entropy returning_owner start
     = (Return no_organizations_page,
        record_event (ConnectionsGet (bearer fresh))
          (record_event (TokenPost (grant_form environment returning_owner))
             start)).
Proof.
  split.
  - destruct (callback_selects_latest environment refreshing entropy
                returning_owner start fresh (Some [january; june])
                eq_refl eq_refl eq_refl) as [Hsome _].
    destruct (Hsome [january; june] eq_refl) as
      (chosen & latest & u & Hin & Hl & Hmax & Hu & _ & Hrun).
    + discriminate.
    + intros c Hc. apply elem_of_cons in Hc as [-> | Hc].
      * exists 1704067200000%Z. reflexivity.
      * apply list_elem_of_singleton in Hc as ->.
        exists 1717200000000%Z. reflexivity.
    + injection Hu as <-.
      assert (chosen = june) as ->.
      { apply elem_of_cons in Hin as [-> | Hin].
        - injection Hl as <-.
          specialize (Hmax june 1717200000000%Z).
          assert (1717200000000 <= 1704067200000)%Z; [|lia].
          apply Hmax; [right; left | reflexivity].
        - by apply list_elem_of_singleton in Hin. }
      exact (Hrun environment_key).
  - destruct (callback_selects_latest environment unlisted entropy
                returning_owner start fresh (Some [])
                eq_refl eq_refl eq_refl) as [_ Hnone].
    apply Hnone. right. reflexivity.
Defined.

(** A callback and a call through the pipeline, with a provider that
    answers with both tokens. *)
Lemma stored_bundles_complete_witness :
  stored_complete environment
    (xero_connections
       (xeroRequest environment refreshing entropy 7 true "get" "/Items" plain
          (granted refreshing)).2).
Proof.
  apply (stored_bundles_complete environment refreshing entropy start).
  - intros h form t [= <-]. reflexivity.
  - apply Forall_nil_2.
  - eapply rtc_l; [apply step_callback|].
    eapply rtc_l; [apply step_xeroRequest|]. apply rtc_refl.
Defined.

(** C9 as stated fails: the token endpoint leaves the refresh token out,
    and the callback stores a bundle with an access token only. *)
Lemma refresh_token_always_stored_counterexample :
  let w := granted forgetful in
  rtc (store_step environment forgetful entropy) start w
  /\ exists r,
       head (xero_connections w) = Some r
       /\ decryptTokens environment (encrypted_tokens r) (encryption_iv r)
            (encryption_tag r) = Return access_only
       /\ truthy (access_only !! "access_token") = true
       /\ access_only !! "refresh_token" = None.
Proof.
  split.
  - apply rtc_once, step_callback.
  - eexists. split; [vm_compute; reflexivity|].
    split; [vm_compute; reflexivity|]. split; reflexivity.
Qed.
Import Cases.



(** C3 as stated fails. The refresh exchange of scenario D is rejected
    with status 400, and the caller gets the error of that exchange as
    axios raised it; an API that answers 400 with the same body, where no
    refresh was tried, gives the caller the very same error: nothing in what
    is thrown marks the first as [ReauthorizationRequired]. *)
Lemma refresh_failure_marked_counterexample :
  let w := connected stale in
  let failed :=
    xeroRequest environment rejecting entropy 7 true "get" "/Items" plain w in
  let upstream :=
    xeroRequest environment refusing entropy 7 true "get" "/Items" plain w in
  count_events is_refresh failed.2 = count_events is_refresh w + 1
  /\ count_events is_refresh upstream.2 = count_events is_refresh w
  /\ failed.1
     = Throw (AxiosError "Request failed with status code 400"
                (Some (400%Z, "{error:invalid_grant}")))
  /\ upstream.1 = failed.1
  /\ ~ exists is_ReauthorizationRequired : exn -> bool,
         (forall e, failed.1 = Throw e -> is_ReauthorizationRequired e = true)
         /\ (forall e,
               upstream.1 = Throw e -> is_ReauthorizationRequired e = false).
Proof.
  cbn zeta.
  assert (Hf : (xeroRequest environment rejecting entropy 7 true "get"
                  "/Items" plain (connected stale)).1
               = Throw (AxiosError "Request failed with status code 400"
                          (Some (400%Z, "{error:invalid_grant}"))))
    by (vm_compute; reflexivity).
  assert (Hu : (xeroRequest environment refusing entropy 7 true "get"
                  "/Items" plain (connected stale)).1
               = Throw (AxiosError "Request failed with status code 400"
                          (Some (400%Z, "{error:invalid_grant}"))))
    by (vm_compute; reflexivity).
  split; [vm_compute; reflexivity|]. split; [vm_compute; reflexivity|].
  split; [exact Hf|]. split; [by rewrite Hf, Hu|].
  intros (f & H1 & H2).
  specialize (H1 _ Hf). specialize (H2 _ Hu). congruence.
Qed.

(** C8 as stated fails. The listing holds the organisations of 2024-01-01
    and of 2024-06-01 and, between them, one whose [createdDateUtc] is not a
    date: every comparison with it is [NaN], the sort leaves the array as it
    was, and the callback saves the first, the organisation of 2024-01-01,
    which has not the greatest date. *)
Lemma callback_selects_latest_counterexample :
  let w' := (callback environment misdated entropy returning_owner start).2 in
  (callback environment misdated entropy returning_owner start).1
  = Return (Redirect "/admin?connected=true")
  /\ Date_getTime (createdDateUtc january) = Some 1704067200000%Z
  /\ Date_getTime (createdDateUtc june) = Some 1717200000000%Z
  /\ Date_getTime (createdDateUtc undated) = None
  /\ map tenant_id (xero_connections w') = ["tenant-jan"]
  /\ map tenant_name (xero_connections w') = ["January Ltd"].
Proof. vm_compute. repeat split. Qed.
End Scenarios.

(** * The store and the endpoints around it *)

(** ** Order of the rows *)

Section Newest.
Context {A : Type} (key : A -> Z).

Lemma sort_insert_elem (x y : A) (l : list A) :
  y ∈ sort_insert (by_key_desc key) x l <-> y = x \/ y ∈ l.
Proof.
  rewrite (sort_insert_perm (by_key_desc key) x l). apply elem_of_cons.
Qed.

Lemma sort_insert_descending (x : A) (l : list A) :
  (forall i j a b, i <= j -> l !! i = Some a -> l !! j = Some b ->
                   (key b <= key a)%Z) ->
  forall i j a b,
    i <= j ->
    sort_insert (by_key_desc key) x l !! i = Some a ->
    sort_insert (by_key_desc key) x l !! j = Some b ->
    (key b <= key a)%Z.
Proof.
  induction l as [|y l IH]; intros Hl i j a b Hij Ha Hb.
  - cbn in Ha, Hb. destruct i, j; cbn in *; try done.
    injection Ha as <-. injection Hb as <-. lia.
  - assert (Htail : forall i j a b, i <= j -> l !! i = Some a ->
                      l !! j = Some b -> (key b <= key a)%Z).
    { intros i' j' a' b' Hij' Ha' Hb'.
      apply (Hl (S i') (S j') a' b'); [lia|done..]. }
    assert (Hy : forall z, z ∈ l -> (key z <= key y)%Z).
    { intros z Hz. apply list_elem_of_lookup_1 in Hz as [k Hk].
      apply (Hl 0 (S k) y z); [lia|done..]. }
    cbn [sort_insert] in Ha, Hb. unfold goes_after, by_key_desc in Ha, Hb.
    destruct (0 <? key y - key x)%Z eqn:Hcmp.
    + apply Z.ltb_lt in Hcmp.
      destruct i as [|i], j as [|j]; cbn in Ha, Hb.
      * injection Ha as <-. injection Hb as <-. lia.
      * injection Ha as <-.
        apply list_elem_of_lookup_2, sort_insert_elem in Hb as [-> | Hb].
        -- lia.
        -- by apply Hy.
      * lia.
      * apply (IH Htail i j a b); [lia|done..].
    + apply Z.ltb_ge in Hcmp.
      destruct i as [|i], j as [|j]; cbn in Ha, Hb.
      * injection Ha as <-. injection Hb as <-. lia.
      * injection Ha as <-.
        apply list_elem_of_lookup_2, elem_of_cons in Hb as [-> | Hb].
        -- lia.
        -- specialize (Hy b Hb). lia.
      * lia.
      * apply (Hl i j a b); [lia|done..].
Qed.

Lemma js_sort_descending (l : list A) :
  forall i j a b,
    i <= j ->
    js_sort (by_key_desc key) l !! i = Some a ->
    js_sort (by_key_desc key) l !! j = Some b ->
    (key b <= key a)%Z.
Proof.
  induction l as [|x l IH].
  - intros i j a b _ Ha. by destruct i.
  - rewrite js_sort_cons. by apply sort_insert_descending.
Qed.

Lemma js_sort_head_strict (l : list A) (x : A) :
  x ∈ l ->
  (forall y, y ∈ l -> y = x \/ (key y < key x)%Z) ->
  head (js_sort (by_key_desc key) l) = Some x.
Proof.
  intros Hx Hmax.
  destruct (head (js_sort (by_key_desc key) l)) as [z|] eqn:Hh.
  - destruct (js_sort_head_greatest (by_key_desc key) key l z) as [Hz Hge];
      [done..|].
    destruct (Hmax z Hz) as [-> | Hlt]; [done|].
    specialize (Hge x Hx). lia.
  - apply head_None, js_sort_nil_inv in Hh. subst l.
    by apply elem_of_nil in Hx.
Qed.
End Newest.

Lemma order_by_last_synced_desc_head (rows : list row) (x : row) :
  x ∈ rows ->
  (forall y, y ∈ rows -> y = x \/ (last_synced y < last_synced x)%Z) ->
  head (order_by_last_synced_desc rows) = Some x.
Proof. apply (js_sort_head_strict last_synced). Qed.

Lemma order_by_last_synced_desc_nil (rows : list row) :
  rows = [] -> head (order_by_last_synced_desc rows) = None.
Proof. by intros ->. Qed.

Lemma elem_of_List_filter {A} (f : A -> bool) (l : list A) (x : A) :
  x ∈ List.filter f l <-> x ∈ l /\ f x = true.
Proof. rewrite !list_elem_of_In. apply filter_In. Qed.

(** ** Lookups in the store *)

Lemma insert_on_conflict_elem (ts nid u : Z) (t n e i g : string)
    (sys : bool) (rows : list row) (y : row) :
  y ∈ insert_on_conflict ts nid u t n e i g sys rows ->
  same_key u t y = true \/ y ∈ rows.
Proof.
  unfold insert_on_conflict.
  destruct (existsb (same_key u t) rows).
  - intros Hy. apply list_elem_of_In, in_map_iff in Hy as (r & <- & Hr).
    destruct (same_key u t r) eqn:Hk; [by left|].
    right. by apply list_elem_of_In.
  - intros Hy. apply elem_of_app in Hy as [Hy | Hy]; [by right|].
    apply list_elem_of_singleton in Hy as ->. left.
    unfold same_key, inserted_row. cbn.
    by rewrite Z.eqb_refl, String.eqb_refl.
Qed.

Lemma update_tokens_elem (ts : Z) (e i g : string) (u : Z) (t : string)
    (rows : list row) (y : row) :
  y ∈ update_tokens ts e i g u t rows ->
  (same_key u t y = true /\ last_synced y = ts
   /\ encrypted_tokens y = e /\ encryption_iv y = i /\ encryption_tag y = g
   /\ exists r, r ∈ rows /\ frame y = frame r)
  \/ (same_key u t y = false /\ y ∈ rows).
Proof.
  unfold update_tokens.
  intros Hy. apply list_elem_of_In, in_map_iff in Hy as (r & <- & Hr).
  apply list_elem_of_In in Hr.
  destruct (same_key u t r) eqn:Hk; [left | by right].
  repeat split; [done|]. by exists r.
Qed.

Lemma filter_update_tokens (ts : Z) (e i g : string) (u : Z) (t : string)
    (rows : list row) :
  List.filter (same_key u t) (update_tokens ts e i g u t rows)
  = map (set_tokens ts e i g) (List.filter (same_key u t) rows).
Proof.
  unfold update_tokens. induction rows as [|r rows IH]; [done|].
  cbn. destruct (same_key u t r) eqn:Hk.
  - change (same_key u t (set_tokens ts e i g r)) with (same_key u t r).
    rewrite Hk. cbn. by rewrite IH.
  - by rewrite Hk.
Qed.

Section Lookups.
Context {RT : Runtime} (E : env) (entropy : nat -> byte).

Lemma first_decrypted_run (rows : list row) (w : world) :
  first_decrypted E rows w
  = (match head (order_by_last_synced_desc rows) with
     | None => Return None
     | Some r =>
         match decrypt_row E r with
         | Return c => Return (Some c)
         | Throw e => Throw e
         end
     end, w).
Proof.
  unfold first_decrypted.
  destruct (head (order_by_last_synced_desc rows)) as [r|]; [|done].
  unfold bind, lift, ret. by destruct (decrypt_row E r).
Qed.

Lemma getXeroConnection_by_tenant (userId : Z) (tenantId : string)
    (w : world) :
  tenantId <> "" ->
  getXeroConnection E userId (Some tenantId) w
  = first_decrypted E
      (List.filter (same_key userId tenantId) (xero_connections w)) w.
Proof.
  intros Hne. unfold getXeroConnection, bind, select_rows.
  cbn [truthy_str default].
  by apply String.eqb_neq in Hne as ->.
Qed.

Lemma getXeroConnection_default (userId : Z) (w : world) :
  getXeroConnection E userId None w
  = first_decrypted E
      (List.filter (fun r => (user_id r =? userId)%Z) (xero_connections w)) w.
Proof. reflexivity. Qed.

Lemma getSystemXeroConnection_run (w : world) :
  getSystemXeroConnection E w
  = first_decrypted E
      (List.filter is_system_connection (xero_connections w)) w.
Proof. reflexivity. Qed.

Lemma decrypt_row_Return (r : row) (t : tokens) :
  decryptTokens E (encrypted_tokens r) (encryption_iv r) (encryption_tag r)
  = Return t ->
  decrypt_row E r
  = Return {| sc_id := id r; sc_userId := user_id r;
              sc_tenantId := tenant_id r; sc_tenantName := tenant_name r;
              sc_tokens := t; sc_lastSynced := last_synced r |}.
Proof. unfold decrypt_row. by intros ->. Qed.

(** The row under a key after an upsert. *)
Lemma saved_row (userId : Z) (tenantId tenantName : string) (t : tokens)
    (isSystem : bool) (w : world) :
  key_configured E ->
  unique_keys (xero_connections w) ->
  let w1 :=
    (saveXeroConnection E entropy userId tenantId tenantName t isSystem w).2 in
  exists r,
    List.filter (same_key userId tenantId) (xero_connections w1) = [r]
    /\ decryptTokens E (encrypted_tokens r) (encryption_iv r)
         (encryption_tag r) = Return t
    /\ user_id r = userId /\ tenant_id r = tenantId
    /\ tenant_name r = tenantName
    /\ is_system_connection r = isSystem
    /\ last_synced r = clock w
    /\ clock w1 = (clock w + 1)%Z
    /\ (forall y, y ∈ xero_connections w1 ->
                  y = r \/ y ∈ xero_connections w).
Proof.
  intros Hk Hu w1.
  destruct (saveXeroConnection_run E entropy userId tenantId tenantName t
              isSystem w Hk) as (e & i & g & Hd & Hrun).
  unfold w1. rewrite Hrun. cbn [snd execute xero_connections clock
                                  apply_statement draw].
  pose proof (insert_on_conflict_one (clock w) (next_id w) userId tenantId
                tenantName e i g isSystem (xero_connections w) Hu) as Hone.
  eexists. split; [exact Hone|].
  pose proof (filter_key_unique userId tenantId (xero_connections w) Hu)
    as Hold.
  assert (Hkey : forall old,
            List.filter (same_key userId tenantId) (xero_connections w)
            = [old] -> user_id old = userId /\ tenant_id old = tenantId).
  { intros old Hf.
    assert (Hin : In old (List.filter (same_key userId tenantId)
                            (xero_connections w)))
      by (rewrite Hf; by left).
    apply filter_In in Hin as [_ Hs].
    apply same_key_spec in Hs. by injection Hs. }
  assert (Hall : forall y,
            y ∈ insert_on_conflict (clock w) (next_id w) userId tenantId
                  tenantName e i g isSystem (xero_connections w) ->
            y = match List.filter (same_key userId tenantId)
                        (xero_connections w) with
                | old :: _ =>
                    conflict_update (clock w) tenantName e i g isSystem old
                | [] =>
                    inserted_row (clock w) (next_id w) userId tenantId
                      tenantName e i g isSystem
                end
            \/ y ∈ xero_connections w).
  { intros y Hy. pose proof Hy as Hy'.
    apply insert_on_conflict_elem in Hy as [Hy | Hy]; [|by right].
    left.
    assert (Hin : y ∈ List.filter (same_key userId tenantId)
                    (insert_on_conflict (clock w) (next_id w) userId tenantId
                       tenantName e i g isSystem (xero_connections w))).
    { by apply elem_of_List_filter. }
    rewrite Hone in Hin. by apply list_elem_of_singleton in Hin. }
  destruct Hold as [Hnil | [old Hone']].
  - rewrite Hnil in Hall |- *. cbn. repeat split; try done.
  - destruct (Hkey old Hone') as [Hou Hot].
    rewrite Hone' in Hall |- *. cbn. repeat split; try done.
Qed.

(** X1. Insert and lookup. With a key configured, on a table that
    satisfies [UNIQUE(user_id, tenant_id)], after [saveXeroConnection] for a
    user and a tenant (whose id is not the empty text), [getXeroConnection]
    for that user and tenant gives the connection just saved: its owner,
    tenant, name and bundle, synced at the time of the save. *)
Theorem saved_connection_found_by_tenant (userId : Z)
    (tenantId tenantName : string) (t : tokens) (isSystem : bool)
    (w : world) :
  key_configured E ->
  unique_keys (xero_connections w) ->
  tenantId <> "" ->
  let w1 :=
    (saveXeroConnection E entropy userId tenantId tenantName t isSystem w).2 in
  exists i,
    getXeroConnection E userId (Some tenantId) w1
    = (Return (Some {| sc_id := i; sc_userId := userId;
                       sc_tenantId := tenantId; sc_tenantName := tenantName;
                       sc_tokens := t; sc_lastSynced := clock w |}), w1).
Proof.
  intros Hk Hu Hne w1.
  destruct (saved_row userId tenantId tenantName t isSystem w Hk Hu)
    as (r & Hf & Hd & Hru & Hrt & Hrn & _ & Hrs & _).
  fold w1 in Hf. exists (id r).
  rewrite getXeroConnection_by_tenant by done.
  rewrite first_decrypted_run, Hf. cbn [order_by_last_synced_desc js_sort
                                          foldr sort_insert head].
  rewrite (decrypt_row_Return r t Hd).
  by rewrite Hru, Hrt, Hrn, Hrs.
Qed.

(** After an upsert on a table whose rows were synced before the clock,
    the row under the key comes first in every selection that holds it. *)
Lemma saved_row_first (userId : Z) (tenantId tenantName : string)
    (t : tokens) (isSystem : bool) (w : world) :
  key_configured E ->
  unique_keys (xero_connections w) ->
  timely w ->
  let w1 :=
    (saveXeroConnection E entropy userId tenantId tenantName t isSystem w).2 in
  exists r,
    decrypt_row E r
    = Return {| sc_id := id r; sc_userId := userId; sc_tenantId := tenantId;
                sc_tenantName := tenantName; sc_tokens := t;
                sc_lastSynced := clock w |}
    /\ user_id r = userId
    /\ is_system_connection r = isSystem
    /\ forall f : row -> bool,
         f r = true ->
         head (order_by_last_synced_desc
                 (List.filter f (xero_connections w1))) = Some r.
Proof.
  intros Hk Hu Ht w1.
  destruct (saved_row userId tenantId tenantName t isSystem w Hk Hu)
    as (r & Hf & Hd & Hru & Hrt & Hrn & Hsys & Hrs & _ & Hall).
  fold w1 in Hf, Hall. exists r.
  split; [|split; [done|split; [done|]]].
  { rewrite (decrypt_row_Return r t Hd). by rewrite Hru, Hrt, Hrn, Hrs. }
  assert (Hr : r ∈ xero_connections w1).
  { assert (Hin : r ∈ List.filter (same_key userId tenantId)
                    (xero_connections w1))
      by (rewrite Hf; apply list_elem_of_here).
    by apply elem_of_List_filter in Hin as [Hin _]. }
  intros f Hfr. apply order_by_last_synced_desc_head.
  - by apply elem_of_List_filter.
  - intros y Hy. apply elem_of_List_filter in Hy as [Hy _].
    destruct (Hall y Hy) as [-> | Hold]; [by left|]. right.
    rewrite Hrs. unfold timely in Ht. rewrite Forall_forall in Ht.
    by apply Ht.
Qed.

(** X2. The connection saved last is the one found by default. With a
    key configured, on a table that satisfies the constraint and holds no
    row synced after the clock, after [saveXeroConnection] the lookup of
    [getXeroConnection] without a tenant gives the connection just saved;
    and when it was saved as the system connection,
    [getSystemXeroConnection] gives it too. *)
Theorem saved_connection_is_default (userId : Z)
    (tenantId tenantName : string) (t : tokens) (isSystem : bool)
    (w : world) :
  key_configured E ->
  unique_keys (xero_connections w) ->
  timely w ->
  let w1 :=
    (saveXeroConnection E entropy userId tenantId tenantName t isSystem w).2 in
  exists i,
    let saved :=
      {| sc_id := i; sc_userId := userId; sc_tenantId := tenantId;
         sc_tenantName := tenantName; sc_tokens := t;
         sc_lastSynced := clock w |} in
    getXeroConnection E userId None w1 = (Return (Some saved), w1)
    /\ (isSystem = true ->
        getSystemXeroConnection E w1 = (Return (Some saved), w1)).
Proof.
  intros Hk Hu Ht w1.
  destruct (saved_row_first userId tenantId tenantName t isSystem w Hk Hu Ht)
    as (r & Hd & Hru & Hsys & Hhead).
  fold w1 in Hhead. exists (id r). cbn zeta. split.
  - rewrite getXeroConnection_default, first_decrypted_run.
    rewrite (Hhead (fun r => (user_id r =? userId)%Z))
      by (rewrite Hru; apply Z.eqb_refl).
    by rewrite Hd.
  - intros ->. rewrite getSystemXeroConnection_run, first_decrypted_run.
    rewrite (Hhead is_system_connection) by done.
    by rewrite Hd.
Qed.

End Lookups.

(** ** Deletions, updates and listings *)

Lemma rowCount_existsb {A} (f : A -> bool) (l : list A) :
  (0 <? length (List.filter f l))%nat = existsb f l.
Proof.
  induction l as [|x l IH]; [done|]. cbn. by destruct (f x).
Qed.

Lemma filter_negb_nil {A} (f : A -> bool) (l : list A) :
  List.filter f (List.filter (fun x => negb (f x)) l) = [].
Proof.
  induction l as [|x l IH]; [done|]. cbn.
  destruct (f x) eqn:Hf; cbn; [done|]. by rewrite Hf.
Qed.

Lemma same_key_false (u : Z) (t : string) (r : row) :
  same_key u t r = false <-> (user_id r, tenant_id r) <> (u, t).
Proof.
  rewrite <- same_key_spec. by destruct (same_key u t r).
Qed.

Section Removals.
Context {RT : Runtime} (E : env) (P : provider) (entropy : nat -> byte).

(** X3. [deleteXeroConnection] answers whether the user had a record for
    the tenant; afterwards the table holds the rows it held under every
    other key and none under this one, so that a second deletion answers
    [false] and the lookup of the user and tenant finds nothing. *)
Theorem deleted_connection_is_gone (userId : Z) (tenantId : string)
    (w : world) :
  let w1 := (deleteXeroConnection userId tenantId w).2 in
  (deleteXeroConnection userId tenantId w).1
  = Return (existsb (same_key userId tenantId) (xero_connections w))
  /\ (forall r,
        r ∈ xero_connections w1
        <-> r ∈ xero_connections w
            /\ (user_id r, tenant_id r) <> (userId, tenantId))
  /\ (deleteXeroConnection userId tenantId w1).1 = Return false
  /\ (tenantId <> "" ->
      getXeroConnection E userId (Some tenantId) w1 = (Return None, w1)).
Proof.
  intros w1.
  assert (Hrows : xero_connections w1
                  = List.filter (fun r => negb (same_key userId tenantId r))
                      (xero_connections w)) by reflexivity.
  assert (Hnone : List.filter (same_key userId tenantId) (xero_connections w1)
                  = []).
  { rewrite Hrows. apply filter_negb_nil. }
  split; [|split; [|split]].
  - unfold deleteXeroConnection, bind, pool_query, ret.
    cbn [fst affected rowCount].
    by rewrite rowCount_existsb.
  - intros r. rewrite Hrows, elem_of_List_filter, negb_true_iff.
    by rewrite same_key_false.
  - unfold deleteXeroConnection, bind, pool_query, ret.
    cbn [fst affected rowCount].
    by rewrite Hnone.
  - intros Hne. rewrite getXeroConnection_by_tenant by done.
    by rewrite first_decrypted_run, Hnone.
Qed.

(** X6. [deleteSystemXeroConnection] answers whether there was a system
    connection; afterwards the table holds the rows that were not system
    connections and no other, [getSystemXeroConnection] finds nothing, and
    every call of a user who is not an administrator fails, for want of a
    system connection, before any request is made. *)
Theorem system_disconnection_stops_members (w : world) :
  let w1 := (deleteSystemXeroConnection w).2 in
  (deleteSystemXeroConnection w).1
  = Return (existsb is_system_connection (xero_connections w))
  /\ (forall r,
        r ∈ xero_connections w1
        <-> r ∈ xero_connections w /\ is_system_connection r = false)
  /\ getSystemXeroConnection E w1 = (Return None, w1)
  /\ (forall userId method urlPath cfg,
        xeroRequest E P entropy userId false method urlPath cfg w1
        = (Throw (no_connection_error false), w1)).
Proof.
  intros w1.
  assert (Hrows : xero_connections w1
                  = List.filter (fun r => negb (is_system_connection r))
                      (xero_connections w)) by reflexivity.
  assert (Hnone : List.filter is_system_connection (xero_connections w1)
                  = []).
  { rewrite Hrows. apply filter_negb_nil. }
  assert (Hget : getSystemXeroConnection E w1 = (Return None, w1)).
  { by rewrite getSystemXeroConnection_run, first_decrypted_run, Hnone. }
  split; [|split; [|split]].
  - unfold deleteSystemXeroConnection, bind, pool_query, ret.
    cbn [fst affected rowCount]. by rewrite rowCount_existsb.
  - intros r. rewrite Hrows, elem_of_List_filter, negb_true_iff. done.
  - exact Hget.
  - intros userId method urlPath cfg.
    unfold xeroRequest, ensureValidToken. unfold bind at 1 2.
    by rewrite Hget.
Qed.

(** X4. [updateXeroTokens] rewrites the credentials and nothing else.
    With a key configured, every row under the user and tenant keeps its
    id, owner, tenant, name, system flag and time of creation, decrypts to
    the new bundle and is synced at the time of the update; every other row
    is as it was, in its place; and when there is no row under the key the
    table is as it was: the update never inserts. *)
Theorem update_rewrites_credentials_only (userId : Z) (tenantId : string)
    (t : tokens) (w : world) :
  key_configured E ->
  let w1 := (updateXeroTokens E entropy userId tenantId t w).2 in
  Forall2
    (fun r r' =>
       if same_key userId tenantId r then
         frame r' = frame r
         /\ decryptTokens E (encrypted_tokens r') (encryption_iv r')
              (encryption_tag r') = Return t
         /\ last_synced r' = clock w
       else r' = r)
    (xero_connections w) (xero_connections w1)
  /\ (List.filter (same_key userId tenantId) (xero_connections w) = [] ->
      xero_connections w1 = xero_connections w).
Proof.
  intros Hk w1.
  destruct (updateXeroTokens_run E entropy userId tenantId t w Hk)
    as (e & i & g & Hd & Hrun).
  unfold w1. rewrite Hrun.
  cbn [snd execute xero_connections clock apply_statement draw].
  unfold update_tokens. split.
  - induction (xero_connections w) as [|r rows IH]; cbn; [constructor|].
    constructor; [|exact IH].
    destruct (same_key userId tenantId r); [|done].
    by cbn.
  - induction (xero_connections w) as [|r rows IH]; cbn; [done|].
    destruct (same_key userId tenantId r); [done|].
    intros Hf. by rewrite IH.
Qed.

(** X5. [getAllXeroConnections] lists the rows of the user, each once and
    no other, the one synced last first; it reads and changes nothing. *)
Theorem connections_listed_newest_first (userId : Z) (w : world) :
  exists ls,
    getAllXeroConnections userId w = (Return ls, w)
    /\ ls ≡ₚ map select_listing
               (List.filter (fun r => (user_id r =? userId)%Z)
                  (xero_connections w))
    /\ forall i j a b,
         i <= j -> ls !! i = Some a -> ls !! j = Some b ->
         (listing_last_synced b <= listing_last_synced a)%Z.
Proof.
  eexists. split; [apply getAllXeroConnections_run|]. split.
  - apply Permutation_map. apply js_sort_perm.
  - intros i j a b Hij Ha Hb.
    change (map select_listing ?l) with (select_listing <$> l) in Ha, Hb.
    rewrite list_lookup_fmap in Ha, Hb.
    destruct (order_by_last_synced_desc _ !! i) as [ra|] eqn:Hra; [|done].
    destruct (order_by_last_synced_desc _ !! j) as [rb|] eqn:Hrb; [|done].
    injection Ha as <-. injection Hb as <-. cbn.
    exact (js_sort_descending last_synced _ i j ra rb Hij Hra Hrb).
Qed.

(** X7. Without a usable key nothing is written. When no key is
    configured, or the key configured does not decode to 32 bytes,
    [encryptTokens] throws before it draws a random byte, and
    [saveXeroConnection] and [updateXeroTokens] throw the same error and
    leave the world as it was. *)
Theorem nothing_stored_without_key (userId : Z)
    (tenantId tenantName : string) (t : tokens) (isSystem : bool)
    (w : world) :
  ~ key_configured E ->
  let error :=
    Error
      (if truthy_str (configured_key E) then
         "Invalid encryption key length. Must be 32 bytes (base64 encoded)."
       else "Encryption key not configured (PRODIT_TOKEN_KEY)") in
  encryptTokens E entropy t w = (Throw error, w)
  /\ saveXeroConnection E entropy userId tenantId tenantName t isSystem w
     = (Throw error, w)
  /\ updateXeroTokens E entropy userId tenantId t w = (Throw error, w).
Proof.
  intros Hk error.
  assert (He : encryptTokens E entropy t w = (Throw error, w)).
  { unfold encryptTokens, error. fold (configured_key E).
    destruct (truthy_str (configured_key E)) eqn:Ht; [|done].
    cbn [negb]. fold (key_of E).
    destruct (length (key_of E) =? 32)%nat eqn:Hl; [|done].
    destruct Hk. split; [done|]. by apply Nat.eqb_eq. }
  split; [exact He|].
  unfold saveXeroConnection, updateXeroTokens, bind.
  by rewrite He.
Qed.

End Removals.

(** ** The pipeline and the store *)

Section PipelineStore.
Context {RT : Runtime} (E : env) (P : provider) (entropy : nat -> byte).

Lemma ensureValidToken_run (userId : Z) (isAdmin : bool) (w : world) :
  ensureValidToken E userId isAdmin None w
  = (match head (order_by_last_synced_desc
                   (List.filter (in_scope userId isAdmin)
                      (xero_connections w))) with
     | None => Throw (no_connection_error isAdmin)
     | Some r =>
         match decryptTokens E (encrypted_tokens r) (encryption_iv r)
                 (encryption_tag r) with
         | Return t => Return (token_info_of (user_id r) (tenant_id r) t)
         | Throw e => Throw e
         end
     end, w).
Proof.
  unfold ensureValidToken, bind.
  assert (Hget : (if isAdmin then getXeroConnection E userId None
                  else getSystemXeroConnection E) w
                 = first_decrypted E
                     (List.filter (in_scope userId isAdmin)
                        (xero_connections w)) w).
  { by destruct isAdmin. }
  rewrite Hget, first_decrypted_run.
  destruct (head _) as [r|]; [|done].
  unfold decrypt_row.
  by destruct (decryptTokens E _ _ _).
Qed.

Lemma xeroRequest_Throw (userId : Z) (isAdmin : bool)
    (method urlPath : string) (cfg : config) (w : world) (e : exn) :
  ensureValidToken E userId isAdmin None w = (Throw e, w) ->
  xeroRequest E P entropy userId isAdmin method urlPath cfg w = (Throw e, w).
Proof. intros H. unfold xeroRequest, bind. by rewrite H. Qed.

(** X8. A call without a record. When the user is an administrator with
    no record of their own, or is not one and there is no system
    connection, [xeroRequest] fails with the error of [ensureValidToken] for
    that case and the world is as it was: no request is made. *)
Theorem call_without_connection (userId : Z) (isAdmin : bool)
    (method urlPath : string) (cfg : config) (w : world) :
  List.filter (in_scope userId isAdmin) (xero_connections w) = [] ->
  xeroRequest E P entropy userId isAdmin method urlPath cfg w
  = (Throw (no_connection_error isAdmin), w).
Proof.
  intros Hnone. apply xeroRequest_Throw.
  by rewrite ensureValidToken_run, Hnone.
Qed.

(** X9. A call whose record cannot be read. When the record a call would
    use, the one synced last among those of its scope, does not decrypt
    (its fields were altered, the key was changed), [xeroRequest] fails with
    the error of [decryptTokens] and the world is as it was: no request is
    made with anything else. *)
Theorem call_with_unreadable_record (userId : Z) (isAdmin : bool)
    (method urlPath : string) (cfg : config) (w : world) (r : row)
    (e : exn) :
  head (order_by_last_synced_desc
          (List.filter (in_scope userId isAdmin) (xero_connections w)))
  = Some r ->
  decryptTokens E (encrypted_tokens r) (encryption_iv r) (encryption_tag r)
  = Throw e ->
  xeroRequest E P entropy userId isAdmin method urlPath cfg w = (Throw e, w).
Proof.
  intros Hr He. apply xeroRequest_Throw.
  by rewrite ensureValidToken_run, Hr, He.
Qed.

Lemma frame_update_tokens (ts : Z) (e i g : string) (u : Z) (t : string)
    (rows : list row) :
  map frame (update_tokens ts e i g u t rows) = map frame rows.
Proof.
  unfold update_tokens. rewrite map_map. apply map_ext.
  intros r. by destruct (same_key u t r).
Qed.

Lemma filter_others_update_tokens (ts : Z) (e i g : string) (u : Z)
    (t : string) (rows : list row) :
  List.filter (fun r => negb (user_id r =? u)%Z)
    (update_tokens ts e i g u t rows)
  = List.filter (fun r => negb (user_id r =? u)%Z) rows.
Proof.
  unfold update_tokens. induction rows as [|y rows IH]; [done|].
  cbn [map List.filter].
  destruct (same_key u t y) eqn:Hk.
  - unfold same_key in Hk. apply andb_true_iff in Hk as [Hu _].
    change (user_id (set_tokens ts e i g y)) with (user_id y).
    rewrite Hu. cbn [negb]. exact IH.
  - by rewrite IH.
Qed.

Lemma updateXeroTokens_rows (userId : Z) (tenantId : string) (t : tokens)
    (w : world) :
  let w' := (updateXeroTokens E entropy userId tenantId t w).2 in
  xero_connections w' = xero_connections w
  \/ exists e i g,
       xero_connections w'
       = update_tokens (clock w) e i g userId tenantId (xero_connections w).
Proof.
  cbn zeta. unfold updateXeroTokens, bind.
  pose proof (encryptTokens_world E entropy t w) as (Hrows & _ & _ & Hclock).
  destruct (encryptTokens E entropy t w) as [[[[e i] g]|err] w0].
  - right. exists e, i, g. cbn in *. by rewrite Hrows, Hclock.
  - left. exact Hrows.
Qed.

Lemma refreshAccessToken_effect (userId : Z) (tenantId : string)
    (refreshToken : option jsval) (w : world) :
  let w' :=
    (refreshAccessToken E P entropy userId tenantId refreshToken w).2 in
  (xero_connections w' = xero_connections w
   \/ exists e i g,
        xero_connections w'
        = update_tokens (clock w) e i g userId tenantId (xero_connections w))
  /\ count_events is_refresh w' = count_events is_refresh w + 1.
Proof.
  intros w'.
  set (form := RefreshToken refreshToken (XERO_CLIENT_ID E)
                 (XERO_CLIENT_SECRET E)).
  set (w0 := record_event (TokenPost form) w).
  assert (Hw' : w' = match settled (token_endpoint P (log w) form) with
                     | Return newTokens =>
                         (updateXeroTokens E entropy userId tenantId newTokens
                            w0).2
                     | Throw _ => w0
                     end).
  { unfold w', refreshAccessToken, bind. rewrite post_token_run.
    fold form. fold w0.
    destruct (settled (token_endpoint P (log w) form)) as [newTokens|err];
      [|done].
    unfold ret.
    by destruct (updateXeroTokens E entropy userId tenantId newTokens w0)
      as [[[]|err] w2]. }
  clearbody w'. subst w'.
  destruct (settled (token_endpoint P (log w) form)) as [newTokens|err].
  - split.
    + exact (updateXeroTokens_rows userId tenantId newTokens w0).
    + rewrite (updateXeroTokens_log E entropy) by done.
      unfold w0. by rewrite count_record_event.
  - split; [by left|]. unfold w0. by rewrite count_record_event.
Qed.

Lemma xeroRequest_effect (userId : Z) (isAdmin : bool)
    (method urlPath : string) (cfg : config) (w : world) :
  let w' :=
    (xeroRequest E P entropy userId isAdmin method urlPath cfg w).2 in
  xero_connections w' = xero_connections w
  \/ (count_events is_refresh w' = count_events is_refresh w + 1
      /\ exists r e i g,
           r ∈ xero_connections w
           /\ in_scope userId isAdmin r = true
           /\ xero_connections w'
              = update_tokens (clock w) e i g (user_id r) (tenant_id r)
                  (xero_connections w)).
Proof.
  cbn zeta.
  destruct (ensureValidToken E userId isAdmin None w) as [[ti|e] w0] eqn:Hti.
  2:{ left. pose proof (ensureValidToken_world E userId isAdmin None w) as Hw.
      rewrite Hti in Hw. cbn in Hw. subst w0.
      by rewrite (xeroRequest_Throw _ _ _ _ _ _ _ Hti). }
  pose proof (ensureValidToken_world E userId isAdmin None w) as Hw.
  rewrite Hti in Hw. cbn in Hw. subst w0.
  rewrite (xeroRequest_unfold E P entropy _ _ _ _ _ _ _ Hti). cbn zeta.
  set (first := request_with ti method urlPath cfg (ti_accessToken ti)).
  destruct (settled (xero_api P (log w) first)) as [body|err]; [by left|].
  destruct (match exn_status err with
            | Some st => (st =? 401)%Z
            | None => false
            end && truthy (ti_refreshToken ti)); [|by left].
  set (w1 := record_event (ApiCall first) w).
  pose proof (refreshAccessToken_effect (connectionUserId ti)
                (ti_tenantId ti) (ti_refreshToken ti) w1) as [Hrows Hcount].
  cbn zeta in Hrows, Hcount. unfold bind.
  destruct (refreshAccessToken E P entropy (connectionUserId ti)
              (ti_tenantId ti) (ti_refreshToken ti) w1) as [[tok|err'] w2].
  - rewrite makeRequest_run. cbn [snd] in *.
    destruct Hrows as [Hrows | (e & i & g & Hrows)]; [by left|].
    right. split.
    { rewrite count_record_event. cbn. rewrite Hcount.
      unfold w1. rewrite count_record_event. cbn. lia. }
    rewrite ensureValidToken_run in Hti.
    destruct (head _) as [r|] eqn:Hr; [|done].
    destruct (decryptTokens E _ _ _) as [t|]; [|done].
    injection Hti as <-. cbn in Hrows.
    destruct (js_sort_head_greatest _ last_synced _ r
                (fun a b _ _ => eq_refl) Hr) as [Hin _].
    apply elem_of_List_filter in Hin as [Hin Hscope].
    by exists r, e, i, g.
  - cbn [snd] in *.
    destruct Hrows as [Hrows | (e & i & g & Hrows)]; [by left|].
    right. split.
    { rewrite Hcount. unfold w1. rewrite count_record_event. cbn. lia. }
    rewrite ensureValidToken_run in Hti.
    destruct (head _) as [r|] eqn:Hr; [|done].
    destruct (decryptTokens E _ _ _) as [t|]; [|done].
    injection Hti as <-. cbn in Hrows.
    destruct (js_sort_head_greatest _ last_synced _ r
                (fun a b _ _ => eq_refl) Hr) as [Hin _].
    apply elem_of_List_filter in Hin as [Hin Hscope].
    by exists r, e, i, g.
Qed.

(** X10. A call never adds or removes a row and never changes the owner,
    tenant, name, system flag, id or time of creation of one; and unless it
    made a refresh exchange, it leaves the table as it was. *)
Theorem call_rewrites_credentials_only (userId : Z) (isAdmin : bool)
    (method urlPath : string) (cfg : config) (w : world) :
  let w' :=
    (xeroRequest E P entropy userId isAdmin method urlPath cfg w).2 in
  map frame (xero_connections w') = map frame (xero_connections w)
  /\ (count_events is_refresh w' = count_events is_refresh w ->
      xero_connections w' = xero_connections w).
Proof.
  intros w'.
  pose proof (xeroRequest_effect userId isAdmin method urlPath cfg w) as H.
  cbn zeta in H. fold w' in H.
  destruct H as [Hsame | (Hcount & r & e & i & g & _ & _ & Hrows)].
  - by rewrite Hsame.
  - split; [|lia]. rewrite Hrows. apply frame_update_tokens.
Qed.

(** X11. Credentials are resolved by role. A call of a user who is not
    an administrator does not depend on who the user is: any two such users
    get the same result and leave the same world. A call of an
    administrator leaves the rows of every other user as they were. *)
Theorem calls_resolve_credentials_by_role (method urlPath : string)
    (cfg : config) (w : world) :
  (forall u1 u2,
     xeroRequest E P entropy u1 false method urlPath cfg w
     = xeroRequest E P entropy u2 false method urlPath cfg w)
  /\ (forall u,
        let w' := (xeroRequest E P entropy u true method urlPath cfg w).2 in
        List.filter (fun r => negb (user_id r =? u)%Z) (xero_connections w')
        = List.filter (fun r => negb (user_id r =? u)%Z)
            (xero_connections w)).
Proof.
  split; [reflexivity|].
  intros u w'.
  pose proof (xeroRequest_effect u true method urlPath cfg w) as H.
  cbn zeta in H. fold w' in H.
  destruct H as [Hsame | (_ & r & e & i & g & _ & Hscope & Hrows)].
  - by rewrite Hsame.
  - rewrite Hrows. cbn in Hscope. apply Z.eqb_eq in Hscope.
    rewrite Hscope. apply filter_others_update_tokens.
Qed.

End PipelineStore.

(** ** After a refresh *)

Lemma in_scope_set_tokens (userId : Z) (isAdmin : bool) (ts : Z)
    (e i g : string) (r : row) :
  in_scope userId isAdmin (set_tokens ts e i g r) = in_scope userId isAdmin r.
Proof. by destruct isAdmin. Qed.

Lemma same_key_self (r : row) : same_key (user_id r) (tenant_id r) r = true.
Proof. unfold same_key. by rewrite Z.eqb_refl, String.eqb_refl. Qed.

Lemma updated_row_is_first (f : row -> bool) (rows : list row) (ts : Z)
    (e i g : string) (r : row) :
  unique_keys rows ->
  Forall (fun y => (last_synced y < ts)%Z) rows ->
  r ∈ rows ->
  f r = true ->
  (forall y, f (set_tokens ts e i g y) = f y) ->
  head (order_by_last_synced_desc
          (List.filter f
             (update_tokens ts e i g (user_id r) (tenant_id r) rows)))
  = Some (set_tokens ts e i g r).
Proof.
  intros Hu Ht Hr Hf Hset.
  assert (Hone : List.filter (same_key (user_id r) (tenant_id r)) rows = [r]).
  { assert (Hin : r ∈ List.filter (same_key (user_id r) (tenant_id r)) rows).
    { apply elem_of_List_filter. split; [done | apply same_key_self]. }
    destruct (filter_key_unique (user_id r) (tenant_id r) rows Hu)
      as [Hnil | [r0 Hone]].
    - rewrite Hnil in Hin. by apply elem_of_nil in Hin.
    - rewrite Hone in Hin. apply list_elem_of_singleton in Hin.
      by rewrite Hone, Hin. }
  apply order_by_last_synced_desc_head.
  - apply elem_of_List_filter. split; [|by rewrite Hset].
    unfold update_tokens. apply list_elem_of_In, in_map_iff.
    exists r. rewrite same_key_self. split; [done|].
    by apply list_elem_of_In.
  - intros y Hy. apply elem_of_List_filter in Hy as [Hy _].
    pose proof Hy as Hy'.
    apply update_tokens_elem in Hy as [(Hk & _) | (_ & Hold)].
    + left.
      assert (Hin : y ∈ List.filter (same_key (user_id r) (tenant_id r))
                      (update_tokens ts e i g (user_id r) (tenant_id r) rows)).
      { by apply elem_of_List_filter. }
      rewrite filter_update_tokens, Hone in Hin. cbn in Hin.
      by apply list_elem_of_singleton in Hin.
    + right. cbn. rewrite Forall_forall in Ht. by apply Ht.
Qed.

Section AfterRefresh.
Context {RT : Runtime} (E : env) (P : provider) (entropy : nat -> byte).
Context (userId : Z) (isAdmin : bool) (method urlPath : string)
  (cfg : config).

(** X12. The bundle of a refresh is the one the next call uses. With a
    key configured, on a table that satisfies the constraint and holds no
    row synced after the clock: when a call finds a record, gets a 401,
    holds a refresh token and the refresh exchange succeeds, then after the
    call [ensureValidToken] for the same caller finds the same owner and
    tenant with the access token and the refresh token of the new
    bundle. *)
Theorem refreshed_bundle_is_served_next (w : world) (ti : token_info)
    (body : payload) (newTokens : tokens) :
  key_configured E ->
  unique_keys (xero_connections w) ->
  timely w ->
  ensureValidToken E userId isAdmin None w = (Return ti, w) ->
  let first := request_with ti method urlPath cfg (ti_accessToken ti) in
  let w1 := record_event (ApiCall first) w in
  xero_api P (log w) first = Rejected 401 body ->
  truthy (ti_refreshToken ti) = true ->
  token_endpoint P (log w1) (refresh_form E (ti_refreshToken ti))
  = Fulfilled newTokens ->
  let w' :=
    (xeroRequest E P entropy userId isAdmin method urlPath cfg w).2 in
  ensureValidToken E userId isAdmin None w'
  = (Return (token_info_of (connectionUserId ti) (ti_tenantId ti) newTokens),
     w').
Proof.
  intros Hk Hu Ht Hti first w1 Hfirst Hrt Htok w'.
  destruct (refreshAccessToken_Fulfilled E P entropy (connectionUserId ti)
              (ti_tenantId ti) (ti_refreshToken ti) newTokens w1 Hk Htok)
    as (e & i & g & Hd & Hrefresh).
  assert (Hw' : xero_connections w'
                = update_tokens (clock w) e i g (connectionUserId ti)
                    (ti_tenantId ti) (xero_connections w)).
  { unfold w'.
    rewrite (xeroRequest_unfold E P entropy _ _ _ _ _ _ _ Hti). cbn zeta.
    fold first. rewrite Hfirst. cbn [settled].
    rewrite status_401, Hrt. cbn [Z.eqb andb Pos.eqb].
    fold w1. unfold bind. rewrite Hrefresh, makeRequest_run. reflexivity. }
  rewrite ensureValidToken_run in Hti.
  destruct (head _) as [r|] eqn:Hr; [|done].
  destruct (decryptTokens E _ _ _) as [t|]; [|done].
  injection Hti as <-. cbn [token_info_of connectionUserId ti_tenantId] in *.
  destruct (js_sort_head_greatest _ last_synced _ r
              (fun a b _ _ => eq_refl) Hr) as [Hin _].
  apply elem_of_List_filter in Hin as [Hin Hscope].
  rewrite ensureValidToken_run, Hw'.
  rewrite (updated_row_is_first (in_scope userId isAdmin) _ (clock w) e i g r
             Hu Ht Hin Hscope)
    by (intros y; apply in_scope_set_tokens).
  cbn [set_tokens encrypted_tokens encryption_iv encryption_tag user_id
       tenant_id].
  by rewrite Hd.
Qed.

End AfterRefresh.

(** ** What every operation keeps *)

Section Sustains.
Context (J : world -> Prop).
Hypothesis J_record_event : forall e w, J w -> J (record_event e w).
Hypothesis J_draw : forall n w, J w -> J (draw n w).
Hypothesis J_execute : forall s w, J w -> J (execute s w).

Lemma sustains_ret {A} (a : A) : sustains J (ret a).
Proof. by intros w. Qed.

Lemma sustains_throw {A} (e : exn) : sustains J (throw e : M A).
Proof. by intros w. Qed.

Lemma sustains_lift {A} (o : outcome A) : sustains J (lift o).
Proof. by intros w. Qed.

Lemma sustains_bind {A B} (c : M A) (k : A -> M B) :
  sustains J c -> (forall a, sustains J (k a)) -> sustains J (bind c k).
Proof.
  intros Hc Hk w Hw. unfold bind. specialize (Hc w Hw).
  destruct (c w) as [[a|e] w']; [by apply Hk | done].
Qed.

Lemma sustains_try_catch {A} (c : M A) (h : exn -> M A) :
  sustains J c -> (forall e, sustains J (h e)) -> sustains J (try_catch c h).
Proof.
  intros Hc Hh w Hw. unfold try_catch. specialize (Hc w Hw).
  destruct (c w) as [[a|e] w']; [done | by apply Hh].
Qed.

Lemma sustains_request {A} (e : event) (answer : list event -> reply A) :
  sustains J (request e answer).
Proof. intros w Hw. rewrite request_run. by apply J_record_event. Qed.

Lemma sustains_select_rows : sustains J select_rows.
Proof. by intros w. Qed.

Lemma sustains_randomBytes (entropy : nat -> byte) (n : nat) :
  sustains J (randomBytes entropy n).
Proof. intros w Hw. by apply J_draw. Qed.

Lemma sustains_pool_query (s : statement) : sustains J (pool_query s).
Proof. intros w Hw. by apply J_execute. Qed.

Context {RT : Runtime} (E : env) (P : provider) (entropy : nat -> byte).

Ltac sustains_step :=
  first
    [ apply sustains_ret | apply sustains_throw | apply sustains_lift
    | apply sustains_request | apply sustains_select_rows
    | apply sustains_randomBytes | apply sustains_pool_query
    | apply sustains_bind; [|intros ?]
    | apply sustains_try_catch; [|intros ?]
    | match goal with
      | |- sustains _ (if ?b then _ else _) => destruct b
      | |- sustains _ (match ?o with Some _ => _ | None => _ end) =>
          destruct o
      end ].

Lemma encryptTokens_sustains (t : tokens) :
  sustains J (encryptTokens E entropy t).
Proof. unfold encryptTokens. repeat sustains_step. Qed.

Lemma saveXeroConnection_sustains (u : Z) (tid n : string) (t : tokens)
    (sys : bool) :
  sustains J (saveXeroConnection E entropy u tid n t sys).
Proof.
  unfold saveXeroConnection.
  apply sustains_bind; [apply encryptTokens_sustains|]. intros [[e i] g].
  repeat sustains_step.
Qed.

Lemma updateXeroTokens_sustains (u : Z) (tid : string) (t : tokens) :
  sustains J (updateXeroTokens E entropy u tid t).
Proof.
  unfold updateXeroTokens.
  apply sustains_bind; [apply encryptTokens_sustains|]. intros [[e i] g].
  repeat sustains_step.
Qed.

Lemma callback_sustains (req : http_request) :
  sustains J (callback E P entropy req).
Proof.
  unfold callback, callback_body, post_token, get_connections.
  repeat first [ apply saveXeroConnection_sustains | sustains_step ].
Qed.

Lemma xeroRequest_sustains (userId : Z) (isAdmin : bool)
    (method urlPath : string) (cfg : config) :
  sustains J (xeroRequest E P entropy userId isAdmin method urlPath cfg).
Proof.
  intros w Hw.
  pose proof (ensureValidToken_world E userId isAdmin None w) as Hsame.
  unfold xeroRequest, bind at 1.
  destruct (ensureValidToken E userId isAdmin None w) as [[ti|err] w0];
    cbn in Hsame; subst w0; [|done].
  revert w Hw. change (sustains J
    (try_catch
       (makeRequest P ti method urlPath cfg (ti_accessToken ti))
       (fun err =>
          if match exn_status err with
             | Some st => (st =? 401)%Z
             | None => false
             end && truthy (ti_refreshToken ti)
          then
            let* newAccessToken :=
              refreshAccessToken E P entropy (connectionUserId ti)
                (ti_tenantId ti) (ti_refreshToken ti) in
            makeRequest P ti method urlPath cfg newAccessToken
          else throw err))).
  unfold makeRequest, refreshAccessToken, post_token.
  repeat first [ apply updateXeroTokens_sustains | sustains_step ].
Qed.

Lemma store_step_sustains (w w' : world) :
  store_step E P entropy w w' -> J w -> J w'.
Proof.
  intros Hstep Hw. destruct Hstep as [req w|u a m p c w|u t w|w].
  - by apply callback_sustains.
  - by apply xeroRequest_sustains.
  - by apply J_execute.
  - by apply J_execute.
Qed.
End Sustains.

Lemma apply_statement_elem (s : statement) (w : world) (y : row) :
  y ∈ apply_statement s w ->
  y ∈ xero_connections w
  \/ (last_synced y = clock w
      /\ ((exists r, r ∈ xero_connections w /\ id y = id r)
          \/ (id y = next_id w
              /\ exists u t n e i g sys,
                   s = InsertOnConflict u t n e i g sys
                   /\ existsb (same_key u t) (xero_connections w) = false))).
Proof.
  destruct s as [u t n e i g sys|e i g u t|u t|]; cbn.
  - unfold insert_on_conflict.
    destruct (existsb (same_key u t) (xero_connections w)) eqn:Hex.
    + intros Hy. apply list_elem_of_In, in_map_iff in Hy as (r & <- & Hr).
      apply list_elem_of_In in Hr.
      destruct (same_key u t r); [|by left].
      right. split; [done|]. left. by exists r.
    + intros Hy. apply elem_of_app in Hy as [Hy | Hy]; [by left|].
      apply list_elem_of_singleton in Hy as ->.
      right. split; [done|]. right. split; [done|].
      by exists u, t, n, e, i, g, sys.
  - intros Hy. apply update_tokens_elem in Hy as [Hy | [_ Hy]]; [|by left].
    destruct Hy as (_ & Hts & _ & _ & _ & r & Hr & Hframe).
    right. split; [done|]. left. exists r. split; [done|].
    unfold frame in Hframe. by injection Hframe.
  - intros Hy. apply elem_of_List_filter in Hy as [Hy _]. by left.
  - intros Hy. apply elem_of_List_filter in Hy as [Hy _]. by left.
Qed.

Lemma NoDup_map_filter {A B} (f : A -> B) (p : A -> bool) (l : list A) :
  NoDup (map f l) -> NoDup (map f (List.filter p l)).
Proof.
  induction l as [|x l IH]; cbn; [done|].
  intros Hnd. apply NoDup_cons in Hnd as [Hn Hnd].
  destruct (p x); cbn; [|by apply IH].
  apply NoDup_cons. split; [|by apply IH].
  intros Hin. apply Hn.
  apply list_elem_of_In, in_map_iff in Hin as (x' & Hx' & Hin).
  apply list_elem_of_In, in_map_iff. exists x'. split; [done|].
  apply filter_In in Hin. tauto.
Qed.

Lemma apply_statement_ids (s : statement) (w : world) :
  NoDup (map id (xero_connections w)) ->
  Forall (fun r => (id r < next_id w)%Z) (xero_connections w) ->
  NoDup (map id (apply_statement s w)).
Proof.
  intros Hnd Hlt.
  destruct s as [u t n e i g sys|e i g u t|u t|]; cbn.
  - unfold insert_on_conflict.
    destruct (existsb (same_key u t) (xero_connections w)).
    + rewrite map_map. erewrite map_ext; [exact Hnd|].
      intros r. by destruct (same_key u t r).
    + rewrite map_app. cbn. apply NoDup_app. split; [done|]. split.
      * intros x Hx Hx'. apply list_elem_of_singleton in Hx' as ->.
        apply list_elem_of_In, in_map_iff in Hx as (r & Hr & Hin).
        rewrite Forall_forall in Hlt.
        apply list_elem_of_In in Hin.
        specialize (Hlt r Hin). lia.
      * apply NoDup_singleton.
  - unfold update_tokens. rewrite map_map. erewrite map_ext; [exact Hnd|].
    intros r. by destruct (same_key u t r).
  - by apply NoDup_map_filter.
  - by apply NoDup_map_filter.
Qed.

Lemma sound_record_event (e : event) (w : world) :
  sound w -> sound (record_event e w).
Proof. done. Qed.

Lemma sound_draw (n : nat) (w : world) : sound w -> sound (draw n w).
Proof. done. Qed.

Lemma sound_execute (s : statement) (w : world) :
  sound w -> sound (execute s w).
Proof.
  intros (Hu & Ht & Hnd & Hlt). unfold sound, timely in *.
  cbn [execute xero_connections clock next_id].
  split; [by apply apply_statement_unique|]. split; [|split].
  - apply Forall_forall. intros y Hy.
    apply apply_statement_elem in Hy as [Hy | [Hy _]].
    + rewrite Forall_forall in Ht. specialize (Ht y Hy). lia.
    + lia.
  - by apply apply_statement_ids.
  - apply Forall_forall. intros y Hy.
    rewrite Forall_forall in Hlt.
    apply apply_statement_elem in Hy
      as [Hy | (_ & [(r & Hr & Hid) | (Hid & u & t & n & e & i & g & sys
                                        & -> & _)])].
    + specialize (Hlt y Hy). destruct s; lia.
    + specialize (Hlt r Hr). rewrite Hid. destruct s; lia.
    + lia.
Qed.

(** X13. What every operation keeps. From a world where the table
    satisfies [UNIQUE(user_id, tenant_id)], holds no row synced after the
    clock, and has distinct ids below the next value of the sequence, every
    world reached by callbacks, calls through the pipeline and
    disconnections is such a world again. *)
Theorem reachable_worlds_are_sound `{RT : Runtime} (E : env) (P : provider)
    (entropy : nat -> byte) (w0 w : world) :
  sound w0 ->
  rtc (store_step E P entropy) w0 w ->
  sound w.
Proof.
  intros Hw0 Hsteps.
  induction Hsteps as [|w1 w2 w3 Hstep _ IH]; [done|].
  apply IH.
  exact (store_step_sustains sound sound_record_event sound_draw
           sound_execute E P entropy w1 w2 Hstep Hw0).
Qed.

(** ** The callback and the store *)

Section CallbackStore.
Context {RT : Runtime} (E : env) (P : provider) (entropy : nat -> byte).

Lemma saveXeroConnection_effect (u : Z) (tid n : string) (t : tokens)
    (sys : bool) (w : world) :
  let run := saveXeroConnection E entropy u tid n t sys w in
  (exists err, run.1 = Throw err
               /\ xero_connections run.2 = xero_connections w
               /\ log run.2 = log w)
  \/ (exists s e i g,
        run.1 = Return s
        /\ xero_connections run.2
           = insert_on_conflict (clock w) (next_id w) u tid n e i g sys
               (xero_connections w)
        /\ log run.2
           = (log w ++ [Query (InsertOnConflict u tid n e i g sys)])%list).
Proof.
  cbn zeta. unfold saveXeroConnection, bind.
  pose proof (encryptTokens_world E entropy t w)
    as (Hrows & Hlog & Hnext & Hclock).
  destruct (encryptTokens E entropy t w) as [[[[e i] g]|err] w0];
    cbn [fst snd] in *.
  - right. eexists. exists e, i, g. unfold pool_query, ret. cbn.
    by rewrite Hrows, Hlog, Hnext, Hclock.
  - left. by exists err.
Qed.

Lemma count_events_app (f : event -> bool) (l1 l2 : list event) :
  length (List.filter f (l1 ++ l2))
  = length (List.filter f l1) + length (List.filter f l2).
Proof. by rewrite List.filter_app, length_app. Qed.

(** What a callback does to the table, by its answer. *)
Lemma callback_effect (req : http_request)
    (w : world) :
  let w' := (callback E P entropy req w).2 in
  exists resp,
    (callback E P entropy req w).1 = Return resp
    /\ match resp with
       | Send _ _ =>
           xero_connections w' = xero_connections w
           /\ count_events is_query w' = count_events is_query w
       | Redirect location =>
           location = (if req_isAdmin req then "/admin?connected=true"
                       else "/?connected=true")
           /\ count_events is_query w' = count_events is_query w + 1
           /\ exists u tid n e i g,
                session_userId req = Some u
                /\ xero_connections w'
                   = insert_on_conflict (clock w) (next_id w) u tid n e i g
                       (req_isAdmin req) (xero_connections w)
       end.
Proof.
  intros w'. unfold w'. clear w'.
  destruct (callback E P entropy req w) as [o w'] eqn:Hrun.
  cbn [fst snd]. revert Hrun.
  unfold callback, try_catch, callback_body.
  destruct (state_rejected req) eqn:Hst.
  { intros [= <- <-]. eexists. split; [reflexivity|]. by cbn. }
  destruct (state_accepted_user req Hst) as (u & Hsu & Hru & _).
  unfold bind at 1. rewrite post_token_run.
  set (w1 := record_event _ w).
  assert (Hq1 : count_events is_query w1 = count_events is_query w).
  { unfold w1. rewrite count_record_event. cbn. lia. }
  destruct (settled (token_endpoint P (log w) _)) as [t|err].
  2:{ intros [= <- <-]. eexists. split; [reflexivity|]. by cbn. }
  unfold bind at 1. rewrite get_connections_run.
  set (w2 := record_event _ w1).
  assert (Hq2 : count_events is_query w2 = count_events is_query w).
  { unfold w2. rewrite count_record_event, Hq1. cbn. lia. }
  destruct (settled (connections_endpoint P (log w1) _)) as [conns|err].
  2:{ intros [= <- <-]. eexists. split; [reflexivity|]. by cbn. }
  destruct (match conns with
            | Some l => (length l =? 0)%nat
            | None => true
            end).
  { intros [= <- <-]. eexists. split; [reflexivity|]. by cbn. }
  destruct (head (js_sort by_created_desc (default [] conns))) as [chosen|].
  2:{ intros [= <- <-]. eexists. split; [reflexivity|]. by cbn. }
  rewrite Hru. unfold bind at 1 2. unfold ret at 1.
  pose proof (saveXeroConnection_effect u (conn_tenantId chosen)
                (conn_tenantName chosen) t (req_isAdmin req) w2) as Hsave.
  cbn zeta in Hsave.
  destruct (saveXeroConnection E entropy u (conn_tenantId chosen)
              (conn_tenantName chosen) t (req_isAdmin req) w2)
    as [[s|err] w3]; cbn [fst snd] in Hsave.
  - destruct Hsave as [(err & Herr & _) | (s' & e & i & g & _ & Hrows & Hlog)];
      [done|].
    intros [= <- <-].
    eexists. split; [reflexivity|]. cbn [snd]. split; [done|]. split.
    + unfold count_events in *. rewrite Hlog, count_events_app, Hq2.
      reflexivity.
    + exists u, (conn_tenantId chosen), (conn_tenantName chosen), e, i, g.
      split; [done|]. exact Hrows.
  - destruct Hsave as [(err' & _ & Hrows & Hlog)
                      | (s' & e & i & g & Hret & _)]; [|done].
    intros [= <- <-].
    eexists. split; [reflexivity|]. cbn [snd ret]. split; [exact Hrows|].
    unfold count_events in *. rewrite Hlog. exact Hq2.
Qed.

(** X14. The callback always answers, and it stores a connection exactly
    when it answers with the redirect to the application. When it answers
    with a page, for a state that does not match, an exchange that failed,
    an empty listing or a key that is missing, the table is as it was and
    no statement was run; when it redirects, to the page of the
    administrators for one and to the front page for any other user, it ran
    one statement, the upsert under the session user with the system flag of
    the request. *)
Theorem callback_stores_only_when_it_redirects (req : http_request)
    (w : world) :
  let w' := (callback E P entropy req w).2 in
  exists resp,
    (callback E P entropy req w).1 = Return resp
    /\ match resp with
       | Send _ _ =>
           xero_connections w' = xero_connections w
           /\ count_events is_query w' = count_events is_query w
       | Redirect location =>
           location = (if req_isAdmin req then "/admin?connected=true"
                       else "/?connected=true")
           /\ count_events is_query w' = count_events is_query w + 1
           /\ exists u tid n e i g,
                session_userId req = Some u
                /\ xero_connections w'
                   = insert_on_conflict (clock w) (next_id w) u tid n e i g
                       (req_isAdmin req) (xero_connections w)
       end.
Proof. exact (callback_effect req w). Qed.

Lemma filter_system_insert (ts nid u : Z) (t n e i g : string)
    (rows : list row) :
  List.filter is_system_connection rows = [] ->
  List.filter is_system_connection
    (insert_on_conflict ts nid u t n e i g false rows) = [].
Proof.
  intros Hnone. unfold insert_on_conflict.
  destruct (existsb (same_key u t) rows).
  - induction rows as [|r rows IH]; [done|]. cbn in Hnone |- *.
    destruct (is_system_connection r) eqn:Hr; [done|].
    destruct (same_key u t r); cbn; [|rewrite Hr]; by apply IH.
  - rewrite List.filter_app, Hnone. reflexivity.
Qed.

(** X21. The connection of a user who is not an administrator is not
    used. When there is no system connection, after the callback of a user
    who is not an administrator, whatever it answered and stored, there is
    still none: every call of a user who is not an administrator fails for
    want of a system connection, before any request is made. *)
Theorem connection_of_member_is_not_used (req : http_request) (w : world) :
  req_isAdmin req = false ->
  List.filter is_system_connection (xero_connections w) = [] ->
  let w' := (callback E P entropy req w).2 in
  forall userId method urlPath cfg,
    xeroRequest E P entropy userId false method urlPath cfg w'
    = (Throw (no_connection_error false), w').
Proof.
  intros Hna Hnone w' userId method urlPath cfg.
  assert (Hnone' : List.filter is_system_connection (xero_connections w')
                   = []).
  { destruct (callback_effect req w) as (resp & _ & Hresp). fold w' in Hresp.
    destruct resp as [location | st body].
    - destruct Hresp as (_ & _ & u & tid & n & e & i & g & _ & Hrows).
      rewrite Hrows, Hna. by apply filter_system_insert.
    - destruct Hresp as [Hrows _]. by rewrite Hrows. }
  apply xeroRequest_Throw.
  rewrite ensureValidToken_run.
  change (List.filter (in_scope userId false) (xero_connections w'))
    with (List.filter is_system_connection (xero_connections w')).
  by rewrite Hnone'.
Qed.



End CallbackStore.

(** ** The endpoints *)

Lemma string_of_Z_inj (a b : Z) : string_of_Z a = string_of_Z b -> a = b.
Proof.
  unfold string_of_Z. intros H.
  assert (Hnil : forall z, Z.to_int z <> Decimal.Pos Decimal.Nil
                           /\ Z.to_int z <> Decimal.Neg Decimal.Nil).
  { intros [|p|p]; cbn; split; try discriminate;
      intros [= Hp]; by apply Unsigned.to_uint_nonnil in Hp. }
  assert (Hint : Some (Z.to_int a) = Some (Z.to_int b)).
  { destruct (Hnil a) as [Ha1 Ha2], (Hnil b) as [Hb1 Hb2].
    rewrite <- (NilZero.isi (Z.to_int a)) by done.
    rewrite <- (NilZero.isi (Z.to_int b)) by done.
    by rewrite H. }
  injection Hint as Hint.
  rewrite <- (DecimalZ.of_to a), <- (DecimalZ.of_to b). by rewrite Hint.
Qed.

Lemma string_of_Z_nonempty (a : Z) : string_of_Z a <> "".
Proof.
  unfold string_of_Z.
  destruct a as [|p|p]; cbn; [done| |done].
  pose proof (Unsigned.to_uint_nonnil p) as Hp.
  by destruct (Pos.to_uint p).
Qed.

Section EndpointFacts.
Context {RT : Runtime} (E : env) (P : provider) (entropy : nat -> byte).

(** X16. The state of the authorization request binds the session. For
    a signed-in user, [/auth/xero] changes nothing and redirects to the
    authorization endpoint with a [state] that the callback accepts in the
    session of that user and rejects in the session of any other user, and
    with the [redirect_uri] and the client that the callback names in its
    grant exchange. *)
Theorem authorization_state_binds_the_session (req : http_request) (u : Z)
    (w : world) :
  req_userId req = Some u ->
  exists a state,
    auth_xero E req w = (Return a, w)
    /\ search_param "state" a = Some state
    /\ (forall back,
          query_state back = Some state ->
          state_rejected back = false <-> session_userId back = Some u)
    /\ (forall back,
          exists uri,
            search_param "redirect_uri" a = Some uri
            /\ search_param "client_id" a
               = Some (default "undefined" (XERO_CLIENT_ID E))
            /\ grant_form E back
               = AuthorizationCode (query_code back) uri (XERO_CLIENT_ID E)
                   (XERO_CLIENT_SECRET E)).
Proof.
  intros Hu.
  assert (Hnz : u <> 0%Z).
  { unfold req_userId in Hu. destruct (session_userId req) as [v|]; [|done].
    destruct (Z.eqb_spec v 0); [done|]. by injection Hu as <-. }
  eexists. exists (string_of_Z u).
  split; [unfold auth_xero, requireAuth; by rewrite Hu|].
  split; [reflexivity|]. split.
  - intros back Hstate. unfold state_rejected. rewrite Hstate.
    cbn [truthy_str default negb].
    pose proof (string_of_Z_nonempty u) as Hne.
    apply String.eqb_neq in Hne. rewrite Hne. cbn [negb orb].
    destruct (session_userId back) as [v|]; [|done].
    change (Datatypes.id (string_of_Z u)) with (string_of_Z u).
    split.
    + intros H. apply orb_false_iff in H as [_ H].
      apply negb_false_iff, String.eqb_eq, string_of_Z_inj in H.
      by rewrite H.
    + intros [= ->]. apply orb_false_iff. split.
      * by apply Z.eqb_neq.
      * by rewrite String.eqb_refl.
  - intros back. eexists. split; [reflexivity|]. split; reflexivity.
Qed.

Lemma lookup_by_role (userId : Z) (isAdmin : bool) (w : world) :
  (if isAdmin then getXeroConnection E userId None
   else getSystemXeroConnection E) w
  = first_decrypted E
      (List.filter (in_scope userId isAdmin) (xero_connections w)) w.
Proof. by destruct isAdmin. Qed.

(** X17. The status says what a call would find. For a signed-in user,
    [/api/status] changes nothing and never fails; it reports a connection
    exactly when [ensureValidToken] would give credentials to that user,
    and then it names the tenant of those credentials; a record that cannot
    be decrypted is reported as no connection. *)
Theorem status_reports_what_calls_find (req : http_request) (u : Z)
    (w : world) :
  req_userId req = Some u ->
  exists connected tenant name,
    api_status E req w
    = (Return (json_status connected tenant name (negb (req_isAdmin req))), w)
    /\ (connected = true
        <-> exists ti,
              ensureValidToken E u (req_isAdmin req) None w = (Return ti, w))
    /\ (forall ti,
          ensureValidToken E u (req_isAdmin req) None w = (Return ti, w) ->
          tenant = js_or (Some (ti_tenantId ti)) None).
Proof.
  intros Hu. unfold api_status, requireAuth. rewrite Hu.
  unfold try_catch, bind. rewrite lookup_by_role, first_decrypted_run.
  rewrite ensureValidToken_run.
  destruct (head _) as [r|].
  - unfold decrypt_row.
    destruct (decryptTokens E _ _ _) as [t|e].
    + eexists _, _, _. split; [reflexivity|]. cbn. split.
      * split; [by eexists | done].
      * by intros ti [= <-].
    + eexists _, _, _. split; [reflexivity|]. split.
      * split; [done | by intros [ti ?]].
      * by intros ti.
  - eexists _, _, _. split; [reflexivity|]. cbn. split.
    + split; [done | by intros [ti ?]].
    + by intros ti.
Qed.

(** X22. The status of the system connection says what the calls of
    the users who are not administrators find. For an administrator,
    [/api/admin/xero/status] changes nothing and never fails; it reports a
    connection exactly when [ensureValidToken] would give credentials to a
    user who is not an administrator, and then it names the tenant of those
    credentials. *)
Theorem system_status_reports_what_members_find (req : http_request)
    (u : Z) (w : world) :
  req_userId req = Some u ->
  req_isAdmin req = true ->
  exists connected tenant name synced,
    api_admin_xero_status E req w
    = (Return (json_system_status connected tenant name synced), w)
    /\ (connected = true
        <-> exists ti,
              forall member,
                ensureValidToken E member false None w = (Return ti, w))
    /\ (forall member ti,
          ensureValidToken E member false None w = (Return ti, w) ->
          tenant = js_or (Some (ti_tenantId ti)) None).
Proof.
  intros Hu Ha. unfold api_admin_xero_status, requireAdmin.
  rewrite Hu, Ha. cbn [negb].
  unfold try_catch, bind.
  rewrite getSystemXeroConnection_run, first_decrypted_run.
  assert (Hrun : forall member,
            ensureValidToken E member false None w
            = ensureValidToken E u false None w) by reflexivity.
  pose proof (ensureValidToken_run E u false w) as Hev.
  change (List.filter (in_scope u false) (xero_connections w))
    with (List.filter is_system_connection (xero_connections w)) in Hev.
  destruct (head _) as [r|].
  - unfold decrypt_row.
    destruct (decryptTokens E _ _ _) as [t|e].
    + eexists _, _, _, _. split; [reflexivity|]. cbn. split.
      * split; [|done]. intros _. eexists. intros member.
        rewrite Hrun. exact Hev.
      * intros member ti. rewrite Hrun, Hev. by intros [= <-].
    + eexists _, _, _, _. split; [reflexivity|]. split.
      * split; [done|]. intros [ti Hti]. specialize (Hti u).
        by rewrite Hev in Hti.
      * intros member ti. rewrite Hrun, Hev. done.
  - eexists _, _, _, _. split; [reflexivity|]. cbn. split.
    + split; [done|]. intros [ti Hti]. specialize (Hti u).
      by rewrite Hev in Hti.
    + intros member ti. rewrite Hrun, Hev. done.
Qed.

(** X18. A user reaches only their own connections. For a signed-in
    user, [GET /api/connections] changes nothing and lists the rows of that
    user, each once and no other. [DELETE /api/connections/:tenantId] always
    answers; for a signed-in user it answers whether that user had a record
    for the tenant; and whoever asks, every row of another user is in the
    table afterwards exactly when it was before. *)
Theorem users_reach_only_their_connections (req : http_request)
    (tenantId : string) (w : world) :
  let w' := (api_connections_delete req tenantId w).2 in
  (forall u,
     req_userId req = Some u ->
     exists ls,
       api_connections req w = (Return (json_connections ls), w)
       /\ ls ≡ₚ map select_listing
                  (List.filter (fun r => (user_id r =? u)%Z)
                     (xero_connections w)))
  /\ (exists a,
        (api_connections_delete req tenantId w).1 = Return a
        /\ forall u,
             req_userId req = Some u ->
             a = json_success
                   (existsb (same_key u tenantId) (xero_connections w)))
  /\ forall r,
       req_userId req <> Some (user_id r) ->
       r ∈ xero_connections w' <-> r ∈ xero_connections w.
Proof.
  intros w'. unfold w'. clear w'. split.
  { intros u Hu. unfold api_connections, requireAuth. rewrite Hu.
    unfold try_catch, bind. rewrite getAllXeroConnections_run.
    eexists. split; [reflexivity|].
    apply Permutation_map, js_sort_perm. }
  unfold api_connections_delete, requireAuth.
  destruct (req_userId req) as [u|].
  - unfold try_catch, bind, deleteXeroConnection, bind, pool_query, ret.
    cbn [fst snd affected rowCount execute xero_connections apply_statement].
    split.
    + eexists. split; [reflexivity|]. intros u' [= <-].
      by rewrite rowCount_existsb.
    + intros r Hr. rewrite elem_of_List_filter, negb_true_iff.
      split; [by intros [? _]|]. intros Hin. split; [done|].
      apply same_key_false. intros [= Hu _]. by rewrite Hu in Hr.
  - split; [|done]. eexists. split; [reflexivity|]. done.
Qed.

(** X19. Only an administrator disconnects the system connection.
    [DELETE /api/admin/xero/disconnect] leaves the world as it was for a
    request without a session or of a user who is not an administrator; for
    an administrator it answers whether there was a system connection, and
    afterwards [/api/status] tells every signed-in user who is not an
    administrator that there is no connection. *)
Theorem only_administrators_disconnect (req : http_request) (w : world) :
  let w' := (api_admin_xero_disconnect req w).2 in
  (req_userId req = None \/ req_isAdmin req = false -> w' = w)
  /\ (req_userId req <> None ->
      req_isAdmin req = true ->
      (api_admin_xero_disconnect req w).1
      = Return (json_success
                  (existsb is_system_connection (xero_connections w)))
      /\ forall member,
           req_userId member <> None ->
           req_isAdmin member = false ->
           api_status E member w'
           = (Return (json_status false None None true), w')).
Proof.
  intros w'. unfold w'. clear w'.
  unfold api_admin_xero_disconnect, requireAdmin. split.
  - intros [-> | Hna]; [done|].
    destruct (req_userId req); [|done]. by rewrite Hna.
  - intros Hu Ha. destruct (req_userId req) as [u|]; [|done].
    rewrite Ha. cbn [negb].
    unfold try_catch, bind, deleteSystemXeroConnection, bind, pool_query, ret.
    cbn [fst snd affected rowCount]. split.
    + by rewrite rowCount_existsb.
    + intros member Hm Hma. unfold api_status, requireAuth.
      destruct (req_userId member) as [v|]; [|done].
      rewrite Hma. unfold try_catch, bind.
      rewrite getSystemXeroConnection_run, first_decrypted_run.
      cbn [execute xero_connections apply_statement].
      by rewrite filter_negb_nil.
Qed.

(** X20. The update of items always answers, within the bounds of the
    pipeline. [POST /api/items/update] never throws: a failure of the call
    is answered with status 500 and the detail of the error; it makes at
    most two requests to the API and at most one refresh exchange, and it
    never adds or removes a row or changes the frame of one. *)
Theorem items_update_always_answers (req : http_request) (items : string)
    (w : world) :
  let w' := (api_items_update E P entropy req items w).2 in
  (exists a, (api_items_update E P entropy req items w).1 = Return a)
  /\ count_events is_api_call w' <= count_events is_api_call w + 2
  /\ count_events is_refresh w' <= count_events is_refresh w + 1
  /\ map frame (xero_connections w') = map frame (xero_connections w).
Proof.
  intros w'. unfold w'. clear w'.
  unfold api_items_update, requireAuth.
  destruct (req_userId req) as [u|].
  2:{ split; [by eexists|]. cbn. split; [lia|]. split; [lia|done]. }
  set (cfg := {| headers := {[ "Content-Type" := "application/json" ]};
                 data := Some items |}).
  pose proof (xeroRequest_count E P entropy is_api_call 1 0 u
                (req_isAdmin req) "post" "/Items" cfg w) as Hapi.
  pose proof (xeroRequest_count E P entropy is_refresh 0 1 u
                (req_isAdmin req) "post" "/Items" cfg w) as Hrefresh.
  pose proof (xeroRequest_effect E P entropy u (req_isAdmin req) "post"
                "/Items" cfg w) as Hrows.
  cbn zeta in Hrows.
  unfold try_catch, bind, ret.
  destruct (xeroRequest E P entropy u (req_isAdmin req) "post" "/Items" cfg w)
    as [[body|err] w1]; cbn [fst snd] in *.
  - split; [by eexists|]. split; [|split].
    + apply Hapi; [done | intros r; cbn; lia | intros f; cbn; lia].
    + apply Hrefresh; [done | intros r; cbn; lia
                      | intros f; destruct f; cbn; lia].
    + destruct Hrows as [-> | (_ & r & e & i & g & _ & _ & ->)]; [done|].
      apply frame_update_tokens.
  - split; [by eexists|]. split; [|split].
    + apply Hapi; [done | intros r; cbn; lia | intros f; cbn; lia].
    + apply Hrefresh; [done | intros r; cbn; lia
                      | intros f; destruct f; cbn; lia].
    + destruct Hrows as [-> | (_ & r & e & i & g & _ & _ & ->)]; [done|].
      apply frame_update_tokens.
Qed.

End EndpointFacts.

(** ** The store and the endpoints, evaluated *)

Section StoreScenarios.
Import Model Scenario Visitors.

Lemma start_sound : sound start.
Proof.
  repeat split; [apply NoDup_nil_2 | apply Forall_nil_2 | apply NoDup_nil_2
                | apply Forall_nil_2].
Qed.

Lemma connected_sound (b : tokens) : sound (connected b).
Proof.
  apply (saveXeroConnection_sustains sound sound_draw sound_execute
           environment entropy 7 "tenant-7" "Seven Ltd" b true
           start start_sound).
Qed.

(** Owner 7 connects a tenant and looks it up. *)
Lemma saved_connection_found_by_tenant_witness :
  exists i,
    getXeroConnection environment 7 (Some "tenant-7") (connected stale)
    = (Return (Some {| sc_id := i; sc_userId := 7; sc_tenantId := "tenant-7";
                       sc_tenantName := "Seven Ltd"; sc_tokens := stale;
                       sc_lastSynced := 0 |}), connected stale).
Proof.
  apply (saved_connection_found_by_tenant environment entropy 7 "tenant-7"
           "Seven Ltd" stale true start environment_key).
  - apply NoDup_nil_2.
  - discriminate.
Defined.

(** Owner 7 connects a second tenant as the system connection: it is the
    one found by default. *)
Lemma saved_connection_is_default_witness :
  let w1 :=
    (saveXeroConnection environment entropy 7 "tenant-8" "Eight Ltd" fresh
       true (connected stale)).2 in
  exists i,
    let saved :=
      {| sc_id := i; sc_userId := 7; sc_tenantId := "tenant-8";
         sc_tenantName := "Eight Ltd"; sc_tokens := fresh;
         sc_lastSynced := clock (connected stale) |} in
    getXeroConnection environment 7 None w1 = (Return (Some saved), w1)
    /\ (true = true ->
        getSystemXeroConnection environment w1 = (Return (Some saved), w1)).
Proof.
  apply (saved_connection_is_default environment entropy 7 "tenant-8"
           "Eight Ltd" fresh true (connected stale) environment_key).
  - apply (connected_sound stale).
  - apply (connected_sound stale).
Defined.

(** The bundle of owner 7 is replaced; a tenant that is not connected is
    updated to no effect. *)
Lemma update_rewrites_credentials_only_witness :
  (let w1 :=
     (updateXeroTokens environment entropy 7 "tenant-7" fresh
        (connected stale)).2 in
   Forall2
     (fun r r' =>
        if same_key 7 "tenant-7" r then
          frame r' = frame r
          /\ decryptTokens environment (encrypted_tokens r')
               (encryption_iv r') (encryption_tag r') = Return fresh
          /\ last_synced r' = clock (connected stale)
        else r' = r)
     (xero_connections (connected stale)) (xero_connections w1)
   /\ (List.filter (same_key 7 "tenant-7") (xero_connections (connected stale))
       = [] ->
       xero_connections w1 = xero_connections (connected stale)))
  /\ xero_connections
       (updateXeroTokens environment entropy 7 "tenant-9" fresh
          (connected stale)).2
     = xero_connections (connected stale).
Proof.
  split.
  - exact (update_rewrites_credentials_only environment entropy 7 "tenant-7"
             fresh (connected stale) environment_key).
  - apply (update_rewrites_credentials_only environment entropy 7 "tenant-9"
             fresh (connected stale) environment_key).
    vm_compute. reflexivity.
Defined.

(** With a key of 16 bytes nothing is saved. *)
Lemma nothing_stored_without_key_witness :
  let error :=
    Error "Invalid encryption key length. Must be 32 bytes (base64 encoded)."
  in
  encryptTokens short_key entropy stale start = (Throw error, start)
  /\ saveXeroConnection short_key entropy 7 "tenant-7" "Seven Ltd" stale true
       start = (Throw error, start)
  /\ updateXeroTokens short_key entropy 7 "tenant-7" stale start
     = (Throw error, start).
Proof.
  apply (nothing_stored_without_key short_key entropy 7 "tenant-7"
           "Seven Ltd" stale true start).
  intros [_ Hlen]. vm_compute in Hlen. discriminate.
Defined.

(** Scenario A: owner 42 has no record; and a user who is not an
    administrator, before any system connection is made. *)
Lemma call_without_connection_witness :
  xeroRequest environment refreshing entropy 42 true "get" "/Items" plain
    (connected stale)
  = (Throw (Error
       "No Xero connection found. Please connect your Xero account."),
     connected stale)
  /\ xeroRequest environment refreshing entropy 42 false "get" "/Items" plain
       start
     = (Throw (Error
          ("System Xero connection not configured. "
           ++ "Please contact your administrator.")), start).
Proof.
  split.
  - apply (call_without_connection environment refreshing entropy 42 true
             "get" "/Items" plain (connected stale)).
    vm_compute. reflexivity.
  - apply (call_without_connection environment refreshing entropy 42 false
             "get" "/Items" plain start).
    reflexivity.
Defined.

(** The key of the environment is replaced by one of 16 bytes after the
    record of owner 7 was stored. *)
Lemma call_with_unreadable_record_witness :
  xeroRequest short_key refreshing entropy 7 true "get" "/Items" plain
    (connected stale)
  = (Throw (RangeError "Invalid key length"), connected stale).
Proof.
  assert (Hr : exists r,
            head (order_by_last_synced_desc
                    (List.filter (in_scope 7 true)
                       (xero_connections (connected stale)))) = Some r).
  { vm_compute. eexists. reflexivity. }
  destruct Hr as [r Hr].
  exact (call_with_unreadable_record short_key refreshing entropy 7 true
           "get" "/Items" plain (connected stale) r
           (RangeError "Invalid key length") Hr eq_refl).
Defined.

(** Scenario C, and the call after it. *)
Lemma refreshed_bundle_is_served_next_witness :
  let w' :=
    (xeroRequest environment refreshing entropy 7 true "get" "/Items" plain
       (connected stale)).2 in
  ensureValidToken environment 7 true None w'
  = (Return (token_info_of 7 "tenant-7" fresh), w').
Proof.
  apply (refreshed_bundle_is_served_next environment refreshing entropy 7
           true "get" "/Items" plain (connected stale)
           (found "tenant-7" stale) "AuthenticationUnsuccessful" fresh
           environment_key).
  - apply (connected_sound stale).
  - apply (connected_sound stale).
  - exact found_stale.
  - reflexivity.
  - reflexivity.
  - reflexivity.
Defined.

(** A callback, a call that refreshes, and a disconnection. *)
Lemma reachable_worlds_are_sound_witness :
  sound
    (deleteSystemXeroConnection
       (xeroRequest environment refreshing entropy 7 true "get" "/Items" plain
          (granted refreshing)).2).2.
Proof.
  apply (reachable_worlds_are_sound environment refreshing entropy start).
  - exact start_sound.
  - eapply rtc_l; [apply step_callback|].
    eapply rtc_l; [apply step_xeroRequest|].
    eapply rtc_l; [apply step_delete_system|]. apply rtc_refl.
Defined.


(** The authorization request of owner 7. *)
Lemma authorization_state_binds_the_session_witness :
  exists a state,
    auth_xero environment returning_owner start = (Return a, start)
    /\ search_param "state" a = Some state
    /\ (forall back,
          query_state back = Some state ->
          state_rejected back = false <-> session_userId back = Some 7%Z)
    /\ (forall back,
          exists uri,
            search_param "redirect_uri" a = Some uri
            /\ search_param "client_id" a
               = Some (default "undefined" (XERO_CLIENT_ID environment))
            /\ grant_form environment back
               = AuthorizationCode (query_code back) uri
                   (XERO_CLIENT_ID environment)
                   (XERO_CLIENT_SECRET environment)).
Proof.
  apply (authorization_state_binds_the_session environment returning_owner
           7 start).
  reflexivity.
Defined.

(** The status of owner 7 after the connection. *)
Lemma status_reports_what_calls_find_witness :
  exists connected tenant name,
    api_status environment returning_owner (Scenario.connected stale)
    = (Return (json_status connected tenant name
                 (negb (req_isAdmin returning_owner))),
       Scenario.connected stale)
    /\ (connected = true
        <-> exists ti,
              ensureValidToken environment 7
                (req_isAdmin returning_owner) None (Scenario.connected stale)
              = (Return ti, Scenario.connected stale))
    /\ (forall ti,
          ensureValidToken environment 7 (req_isAdmin returning_owner) None
            (Scenario.connected stale)
          = (Return ti, Scenario.connected stale) ->
          tenant = js_or (Some (ti_tenantId ti)) None).
Proof.
  apply (status_reports_what_calls_find environment returning_owner 7
           (Scenario.connected stale)).
  reflexivity.
Defined.

(** The status of the system connection, asked by owner 7. *)
Lemma system_status_reports_what_members_find_witness :
  exists connected tenant name synced,
    api_admin_xero_status environment returning_owner
      (Scenario.connected stale)
    = (Return (json_system_status connected tenant name synced),
       Scenario.connected stale)
    /\ (connected = true
        <-> exists ti,
              forall member,
                ensureValidToken environment member false None
                  (Scenario.connected stale)
                = (Return ti, Scenario.connected stale))
    /\ (forall member ti,
          ensureValidToken environment member false None
            (Scenario.connected stale)
          = (Return ti, Scenario.connected stale) ->
          tenant = js_or (Some (ti_tenantId ti)) None).
Proof.
  apply (system_status_reports_what_members_find environment returning_owner
           7 (Scenario.connected stale)).
  - reflexivity.
  - reflexivity.
Defined.

(** User 9, who is not an administrator, connects; the call of user 9
    finds no system connection. *)
Lemma connection_of_member_is_not_used_witness :
  let w' := (callback environment refreshing entropy member start).2 in
  (callback environment refreshing entropy member start).1
  = Return (Redirect "/?connected=true")
  /\ length (xero_connections w') = 1
  /\ forall userId method urlPath cfg,
       xeroRequest environment refreshing entropy userId false method urlPath
         cfg w'
       = (Throw (no_connection_error false), w').
Proof.
  split; [vm_compute; reflexivity|]. split; [vm_compute; reflexivity|].
  apply (connection_of_member_is_not_used environment refreshing entropy
           member start); reflexivity.
Defined.

End StoreScenarios.
